(** * book-manager: the in-memory book store and the catalog service

    A shallow embedding of [internal/core/model], of the in-memory
    repository of [internal/adapter] ([BookRepo]) and of
    [internal/core/service.go] ([Service.CreateBook] and friends),
    followed by the properties of the specification that were checked
    against it.

    Conventions of the embedding:
    - a Go [string] is a [string] of bytes; [*T] is [option T]; a slice is
      a [list] (a nil slice and an empty slice are both [[]]);
    - Go's [int] is a 64-bit two's complement integer, carried as a [Z]
      with the wrap-around of every arithmetic operation written out;
    - [time.Time] is the instant it denotes, a [Z];
    - the two maps of [BookRepo] are [gmap]s, and a method with a pointer
      receiver takes the repository and returns the new one;
    - the read/write lock of [BookRepo] is not modelled: every method runs
      inside its critical section, so a sequential reading is what one
      call does. *)

From Stdlib Require Import ZArith String Ascii List Permutation Sorted.
From stdpp Require Import gmap strings list fin_maps.
From stdpp Require pretty.

Open Scope string_scope.
Open Scope Z_scope.

(** ** model *)

Inductive EnrichmentStatus :=
| EnrichmentNotRequested
| EnrichmentOK
| EnrichmentPartial.

Module EnrichmentMeta.
Record t := mk {
  Attempted : bool;
  Source : string;
  Status : EnrichmentStatus;
  LookedUpISBN : string
}.
End EnrichmentMeta.

Module Book.
Record t := mk {
  ID : string;
  ISBN : option string;
  Title : string;
  Subtitle : option string;
  PublishedYear : option Z;
  PageCount : option Z;
  CoverURL : option string;
  Tags : list string;
  Authors : list string;
  Enrichment : EnrichmentMeta.t;
  CreatedAt : Z;
  UpdatedAt : Z
}.
End Book.

Module Page.
Record t (T : Type) := mk {
  Data : list T;
  Page : Z;
  PageSize : Z;
  Total : Z
}.
Arguments mk {T}.
Arguments Data {T}.
Arguments Page {T}.
Arguments PageSize {T}.
Arguments Total {T}.
End Page.

Module SortKey.
Record t := mk {
  Field : string;
  Desc : bool
}.
End SortKey.

Module ListQuery.
Record t := mk {
  Q : option string;
  Author : option string;
  Year : option Z;
  Tag : option string;
  Sort : list SortKey.t;
  Page : Z;
  PageSize : Z
}.
End ListQuery.

Module EnrichedBook.
Record t := mk {
  Title : option string;
  Subtitle : option string;
  PublishedYear : option Z;
  PageCount : option Z;
  CoverURL : option string;
  Authors : list string
}.
End EnrichedBook.

Module CreateBookInput.
Record t := mk {
  ISBN : option string;
  Title : option string;
  Subtitle : option string;
  PublishedYear : option Z;
  PageCount : option Z;
  CoverURL : option string;
  Tags : list string;
  Authors : list string;
  Enrich : bool;
  RequireEnrichment : bool
}.
End CreateBookInput.

(** A Go result [(T, error)]: the value, or the error that was returned. *)
Inductive result (E T : Type) :=
| Ok (v : T)
| Err (e : E).
Arguments Ok {E T}.
Arguments Err {E T}.

(** ** adapter: the in-memory repository *)

(** The two sentinel errors of the adapter package. *)
Inductive repo_error :=
| errNotFound
| errConflict.

Record BookRepo := mkRepo {
  byID : gmap string Book.t;
  byISBN : gmap string string
}.

Definition NewBookRepo : BookRepo := mkRepo ∅ ∅.

(** [append([]string(nil), xs...)]: a fresh slice with the same elements. *)
Definition cloneStrings (xs : list string) : list string := [] ++ xs.

Definition copyBook (b : Book.t) : Book.t :=
  Book.mk (Book.ID b) (Book.ISBN b) (Book.Title b) (Book.Subtitle b)
    (Book.PublishedYear b) (Book.PageCount b) (Book.CoverURL b)
    (cloneStrings (Book.Tags b)) (cloneStrings (Book.Authors b))
    (Book.Enrichment b) (Book.CreatedAt b) (Book.UpdatedAt b).

(** [strings.ReplaceAll(s, old, "")] for a one-byte [old]: every
    occurrence of the byte is dropped. *)
Fixpoint dropByte (c : ascii) (s : string) : string :=
  match s with
  | EmptyString => EmptyString
  | String a s' => if Ascii.eqb a c then dropByte c s' else String a (dropByte c s')
  end.

Definition normalizeISBN (s : string) : string :=
  let s := dropByte "-"%char s in
  let s := dropByte " "%char s in
  s.

Definition Create (r : BookRepo) (b : Book.t) : BookRepo * result repo_error Book.t :=
  if String.eqb (Book.ID b) "" then (r, Err errConflict)
  else match byID r !! Book.ID b with
  | Some _ => (r, Err errConflict)
  | None =>
    match Book.ISBN b with
    | Some isbn =>
      let key := normalizeISBN isbn in
      if negb (String.eqb key "") then
        match byISBN r !! key with
        | Some _ => (r, Err errConflict)
        | None =>
          (mkRepo (<[Book.ID b := copyBook b]> (byID r))
                  (<[key := Book.ID b]> (byISBN r)),
           Ok (copyBook b))
        end
      else
        (mkRepo (<[Book.ID b := copyBook b]> (byID r)) (byISBN r),
         Ok (copyBook b))
    | None =>
      (mkRepo (<[Book.ID b := copyBook b]> (byID r)) (byISBN r),
       Ok (copyBook b))
    end
  end.

Definition GetByID (r : BookRepo) (id : string) : result repo_error Book.t :=
  match byID r !! id with
  | None => Err errNotFound
  | Some b => Ok (copyBook b)
  end.

Definition GetByISBN (r : BookRepo) (isbn : string) : result repo_error Book.t :=
  let key := normalizeISBN isbn in
  match byISBN r !! key with
  | None => Err errNotFound
  | Some id =>
    match byID r !! id with
    | None => Err errNotFound
    | Some b => Ok (copyBook b)
    end
  end.

(** [Delete] returns only an error; [None] is Go's nil error. *)
Definition Delete (r : BookRepo) (id : string) : BookRepo * option repo_error :=
  match byID r !! id with
  | None => (r, Some errNotFound)
  | Some b =>
    let idx :=
      match Book.ISBN b with
      | Some isbn => delete (normalizeISBN isbn) (byISBN r)
      | None => byISBN r
      end in
    (mkRepo (delete id (byID r)) idx, None)
  end.

(** *** Listing: filter, sort, paginate *)

(** What the repository takes from Go's standard library and does not
    define itself: [strings.ToLower], and the two sorts of package [sort]
    with what their documentation promises.  [sort.Slice] and
    [sort.SliceStable] return the elements they were given, in an order in
    which no element is less than one placed before it, whenever [less]
    is a strict weak order.  [sort.Slice] promises nothing on the relative
    order of two elements neither of which is less than the other. *)

Definition weak_order {A : Type} (less : A → A → bool) : Prop :=
  (∀ x y, less x y = true → less y x = false) ∧
  (∀ x y z, less y x = false → less z y = false → less z x = false).

Definition ordered_by {A : Type} (less : A → A → bool) (l : list A) : Prop :=
  ∀ (i j : nat) x y, (i < j)%nat → l !! i = Some x → l !! j = Some y →
    less y x = false.

Class GoLibrary := {
  ToLower : string → string;
  ToLower_empty : ToLower "" = "";
  sort_Slice : (Book.t → Book.t → bool) → list Book.t → list Book.t;
  sort_SliceStable : (Book.t → Book.t → bool) → list Book.t → list Book.t;
  sort_Slice_perm : ∀ less l, sort_Slice less l ≡ₚ l;
  sort_Slice_ordered : ∀ less l, weak_order less → ordered_by less (sort_Slice less l);
  sort_SliceStable_perm : ∀ less l, sort_SliceStable less l ≡ₚ l;
  sort_SliceStable_ordered : ∀ less l, weak_order less → ordered_by less (sort_SliceStable less l)
}.

(** [strings.HasPrefix(s, prefix)] *)
Fixpoint HasPrefix (s pre : string) {struct pre} : bool :=
  match pre, s with
  | EmptyString, _ => true
  | String _ _, EmptyString => false
  | String c pre', String a s' => Ascii.eqb a c && HasPrefix s' pre'
  end.

(** [strings.Contains(s, substr)] *)
Fixpoint Contains (s substr : string) : bool :=
  HasPrefix s substr ||
  match s with
  | EmptyString => false
  | String _ s' => Contains s' substr
  end.

(** Go's [int]: the representable range and the wrap-around of an
    arithmetic result. *)
Definition minInt : Z := - 2 ^ 63.
Definition maxInt : Z := 2 ^ 63 - 1.
Definition is_int (z : Z) : Prop := minInt ≤ z ≤ maxInt.
Definition wrap (z : Z) : Z := (z + 2 ^ 63) mod 2 ^ 64 - 2 ^ 63.
Definition len {A : Type} (l : list A) : Z := Z.of_nat (length l).

(** A call either returns or panics at run time. *)
Inductive outcome (T : Type) :=
| Returned (v : T)
| Panicked.
Arguments Returned {T}.
Arguments Panicked {T}.

(** [less] of the multi-key sort: the keys are tried from left to right
    and the identifier decides when none of them does.  A key whose field
    is none of the four names decides nothing. *)
Fixpoint lessByKeys (keys : list SortKey.t) (bi bj : Book.t) : bool :=
  match keys with
  | [] => String.ltb (Book.ID bi) (Book.ID bj)
  | k :: keys' =>
    if String.eqb (SortKey.Field k) "title" then
      if negb (String.eqb (Book.Title bi) (Book.Title bj)) then
        if SortKey.Desc k then String.ltb (Book.Title bj) (Book.Title bi)
        else String.ltb (Book.Title bi) (Book.Title bj)
      else lessByKeys keys' bi bj
    else if String.eqb (SortKey.Field k) "published_year" then
      match Book.PublishedYear bi, Book.PublishedYear bj with
      | None, None => lessByKeys keys' bi bj
      | None, Some _ => if SortKey.Desc k then false else true
      | Some _, None => if SortKey.Desc k then true else false
      | Some ai, Some aj =>
        if negb (ai =? aj) then
          if SortKey.Desc k then ai >? aj else ai <? aj
        else lessByKeys keys' bi bj
      end
    else if String.eqb (SortKey.Field k) "created_at" then
      if negb (Book.CreatedAt bi =? Book.CreatedAt bj) then
        if SortKey.Desc k then Book.CreatedAt bi >? Book.CreatedAt bj
        else Book.CreatedAt bi <? Book.CreatedAt bj
      else lessByKeys keys' bi bj
    else if String.eqb (SortKey.Field k) "updated_at" then
      if negb (Book.UpdatedAt bi =? Book.UpdatedAt bj) then
        if SortKey.Desc k then Book.UpdatedAt bi >? Book.UpdatedAt bj
        else Book.UpdatedAt bi <? Book.UpdatedAt bj
      else lessByKeys keys' bi bj
    else lessByKeys keys' bi bj
  end.

(** [less] of the default sort: [bs[i].CreatedAt.After(bs[j].CreatedAt)]. *)
Definition lessCreatedDesc (bi bj : Book.t) : bool :=
  Book.CreatedAt bi >? Book.CreatedAt bj.

Section Listing.
Context `{GoLibrary}.

Definition matchFilters (b : Book.t) (q : ListQuery.t) : bool :=
  let qOK :=
    match ListQuery.Q q with
    | Some s =>
      let needle := ToLower s in
      if negb (Contains (ToLower (Book.Title b)) needle) then
        let sub :=
          match Book.Subtitle b with
          | Some t => ToLower t
          | None => ""
          end in
        if negb (Contains sub needle) then false else true
      else true
    | None => true
    end in
  if negb qOK then false else
  let authorOK :=
    match ListQuery.Author q with
    | Some s =>
      let needle := ToLower s in
      existsb (λ a, Contains (ToLower a) needle) (Book.Authors b)
    | None => true
    end in
  if negb authorOK then false else
  let tagOK :=
    match ListQuery.Tag q with
    | Some tag => existsb (λ t, String.eqb t tag) (Book.Tags b)
    | None => true
    end in
  if negb tagOK then false else
  match ListQuery.Year q with
  | Some y =>
    match Book.PublishedYear b with
    | None => false
    | Some py => if negb (py =? y) then false else true
    end
  | None => true
  end.

Definition sortBooks (bs : list Book.t) (keys : list SortKey.t) : list Book.t :=
  if (len keys =? 0) then sort_Slice lessCreatedDesc bs
  else sort_SliceStable (lessByKeys keys) bs.

(** The filter loop of [List]: the books of the snapshot that match, in
    the order of the snapshot. *)
Definition filterBooks (items : list Book.t) (q : ListQuery.t) : list Book.t :=
  List.filter (λ b, matchFilters b q) items.

(** [List] after the snapshot was taken.  [items] is the snapshot, in the
    order in which the [range] over the map produced it. *)
Definition ListFrom (items : list Book.t) (q : ListQuery.t) : outcome (Page.t Book.t) :=
  let out := filterBooks items q in
  let out := sortBooks out (ListQuery.Sort q) in
  let page := ListQuery.Page q in
  let page := if page <? 1 then 1 else page in
  let size := ListQuery.PageSize q in
  let size := if size <? 1 then 20 else size in
  let total := len out in
  let start := wrap (wrap (page - 1) * size) in
  let start := if start >? total then total else start in
  let end_ := wrap (start + size) in
  let end_ := if end_ >? total then total else end_ in
  (* make([]model.Book, end-start) panics on a negative length (and on a
     length too large to allocate, which fails the next check as well) *)
  if wrap (end_ - start) <? 0 then Panicked
  (* out[start:end] panics unless 0 <= start <= end <= cap(out), and
     cap(out) is the length of the snapshot *)
  else if negb ((0 <=? start) && (start <=? end_) && (end_ <=? len items)) then Panicked
  else
    let paged := take (Z.to_nat (wrap (end_ - start))) (drop (Z.to_nat start) out) in
    Returned (Page.mk paged page size total).

(** The snapshot loop of [List] ranges over the map [byID]; Go leaves the
    order of that iteration unspecified, so a snapshot is any listing of
    the copies of the stored books. *)
Definition snapshot (r : BookRepo) (items : list Book.t) : Prop :=
  items ≡ₚ copyBook <$> (map_to_list (byID r)).*2.

(** [List r q p]: one run of [List] on the repository [r] may end in [p]. *)
Definition List (r : BookRepo) (q : ListQuery.t) (p : outcome (Page.t Book.t)) : Prop :=
  ∃ items, snapshot r items ∧ p = ListFrom items q.

End Listing.

(** ** core: the catalog service *)

(** The errors [CreateBook] can return: its own four sentinels, or the
    error of the repository, handed on unchanged. *)
Inductive error :=
| ErrValidation
| ErrConflict
| ErrNotFound
| ErrUpstream
| RepoError (e : repo_error).

(** What one call of [CreateBook] reads from outside the service: the
    identifier [uuid.NewString()] returns, the two readings of
    [time.Now()], and the answer of the enrichment client (an error is
    kept as its message). *)
Record Env := mkEnv {
  uuid_NewString : string;
  time_Now_created : Z;
  time_Now_updated : Z;
  FetchByISBN : string → result string EnrichedBook.t
}.

Definition valueOr (p : option string) (def : string) : string :=
  match p with
  | None => def
  | Some s => s
  end.

Definition set_Title (b : Book.t) (v : string) : Book.t :=
  Book.mk (Book.ID b) (Book.ISBN b) v (Book.Subtitle b)
    (Book.PublishedYear b) (Book.PageCount b) (Book.CoverURL b)
    (Book.Tags b) (Book.Authors b) (Book.Enrichment b)
    (Book.CreatedAt b) (Book.UpdatedAt b).

Definition set_Subtitle (b : Book.t) (v : option string) : Book.t :=
  Book.mk (Book.ID b) (Book.ISBN b) (Book.Title b) v
    (Book.PublishedYear b) (Book.PageCount b) (Book.CoverURL b)
    (Book.Tags b) (Book.Authors b) (Book.Enrichment b)
    (Book.CreatedAt b) (Book.UpdatedAt b).

Definition set_PublishedYear (b : Book.t) (v : option Z) : Book.t :=
  Book.mk (Book.ID b) (Book.ISBN b) (Book.Title b) (Book.Subtitle b)
    v (Book.PageCount b) (Book.CoverURL b)
    (Book.Tags b) (Book.Authors b) (Book.Enrichment b)
    (Book.CreatedAt b) (Book.UpdatedAt b).

Definition set_PageCount (b : Book.t) (v : option Z) : Book.t :=
  Book.mk (Book.ID b) (Book.ISBN b) (Book.Title b) (Book.Subtitle b)
    (Book.PublishedYear b) v (Book.CoverURL b)
    (Book.Tags b) (Book.Authors b) (Book.Enrichment b)
    (Book.CreatedAt b) (Book.UpdatedAt b).

Definition set_CoverURL (b : Book.t) (v : option string) : Book.t :=
  Book.mk (Book.ID b) (Book.ISBN b) (Book.Title b) (Book.Subtitle b)
    (Book.PublishedYear b) (Book.PageCount b) v
    (Book.Tags b) (Book.Authors b) (Book.Enrichment b)
    (Book.CreatedAt b) (Book.UpdatedAt b).

Definition set_Authors (b : Book.t) (v : list string) : Book.t :=
  Book.mk (Book.ID b) (Book.ISBN b) (Book.Title b) (Book.Subtitle b)
    (Book.PublishedYear b) (Book.PageCount b) (Book.CoverURL b)
    (Book.Tags b) v (Book.Enrichment b)
    (Book.CreatedAt b) (Book.UpdatedAt b).

Definition set_Enrichment (b : Book.t) (v : EnrichmentMeta.t) : Book.t :=
  Book.mk (Book.ID b) (Book.ISBN b) (Book.Title b) (Book.Subtitle b)
    (Book.PublishedYear b) (Book.PageCount b) (Book.CoverURL b)
    (Book.Tags b) (Book.Authors b) v
    (Book.CreatedAt b) (Book.UpdatedAt b).

Definition set_Status (b : Book.t) (v : EnrichmentStatus) : Book.t :=
  let m := Book.Enrichment b in
  set_Enrichment b
    (EnrichmentMeta.mk (EnrichmentMeta.Attempted m) (EnrichmentMeta.Source m)
       v (EnrichmentMeta.LookedUpISBN m)).

Definition merge (dst : Book.t) (e : EnrichedBook.t) : Book.t :=
  let dst :=
    match EnrichedBook.Title e with
    | Some t => if String.eqb (Book.Title dst) "" then set_Title dst t else dst
    | None => dst
    end in
  let dst :=
    match Book.Subtitle dst, EnrichedBook.Subtitle e with
    | None, Some v => set_Subtitle dst (Some v)
    | _, _ => dst
    end in
  let dst :=
    match Book.PublishedYear dst, EnrichedBook.PublishedYear e with
    | None, Some v => set_PublishedYear dst (Some v)
    | _, _ => dst
    end in
  let dst :=
    match Book.PageCount dst, EnrichedBook.PageCount e with
    | None, Some v => set_PageCount dst (Some v)
    | _, _ => dst
    end in
  let dst :=
    match Book.CoverURL dst, EnrichedBook.CoverURL e with
    | None, Some v => set_CoverURL dst (Some v)
    | _, _ => dst
    end in
  if (len (Book.Authors dst) =? 0) && (len (EnrichedBook.Authors e) >? 0)
  then set_Authors dst (cloneStrings (EnrichedBook.Authors e))
  else dst.

(** The three checks at the head of [CreateBook]; [true] when the input
    is turned down with [ErrValidation]. *)
Definition rejects (i : CreateBookInput.t) : bool :=
  (if negb (CreateBookInput.Enrich i)
      || match CreateBookInput.ISBN i with None => true | Some _ => false end
   then match CreateBookInput.Title i with
        | None => true
        | Some t => String.eqb t ""
        end
   else false)
  || match CreateBookInput.PageCount i with
     | Some p => p <? 1
     | None => false
     end
  || match CreateBookInput.PublishedYear i with
     | Some y => (y <? 1450) || (y >? 3000)
     | None => false
     end.

(** The record [CreateBook] builds from the input before any enrichment. *)
Definition construct (env : Env) (i : CreateBookInput.t) : Book.t :=
  Book.mk (uuid_NewString env) (CreateBookInput.ISBN i)
    (valueOr (CreateBookInput.Title i) "")
    (CreateBookInput.Subtitle i) (CreateBookInput.PublishedYear i)
    (CreateBookInput.PageCount i) (CreateBookInput.CoverURL i)
    (cloneStrings (CreateBookInput.Tags i))
    (cloneStrings (CreateBookInput.Authors i))
    (EnrichmentMeta.mk false "" EnrichmentNotRequested "")
    (time_Now_created env) (time_Now_updated env).

(** The enrichment step of [CreateBook]: the record after it, or the
    error that ends the call. *)
Definition enrich (env : Env) (i : CreateBookInput.t) (b : Book.t) : result error Book.t :=
  match CreateBookInput.ISBN i with
  | Some isbn =>
    if CreateBookInput.Enrich i && negb (String.eqb isbn "") then
      let b := set_Enrichment b (EnrichmentMeta.mk true "openlibrary"
                 (EnrichmentMeta.Status (Book.Enrichment b)) isbn) in
      match FetchByISBN env isbn with
      | Err _ =>
        if CreateBookInput.RequireEnrichment i then Err ErrUpstream
        else Ok (set_Status b EnrichmentPartial)
      | Ok res => Ok (set_Status (merge b res) EnrichmentOK)
      end
    else Ok b
  | None => Ok b
  end.

Definition CreateBook (r : BookRepo) (env : Env) (i : CreateBookInput.t)
  : BookRepo * result error Book.t :=
  if rejects i then (r, Err ErrValidation)
  else
    let b := construct env i in
    match enrich env i b with
    | Err e => (r, Err e)
    | Ok b =>
      let dup :=
        match Book.ISBN b with
        | Some isbn =>
          if negb (String.eqb isbn "") then
            match GetByISBN r isbn with
            | Ok _ => true
            | Err _ => false
            end
          else false
        | None => false
        end in
      if dup then (r, Err ErrConflict)
      else
        match Create r b with
        | (r', Err e) => (r', Err (RepoError e))
        | (r', Ok created) => (r', Ok created)
        end
    end.

Definition ListBooks `{GoLibrary} (r : BookRepo) (q : ListQuery.t)
  (p : outcome (Page.t Book.t)) : Prop :=
  List r q p.

Definition GetBook (r : BookRepo) (id : string) : result error Book.t :=
  match GetByID r id with
  | Err _ => Err ErrNotFound
  | Ok b => Ok b
  end.

Definition DeleteBook (r : BookRepo) (id : string) : BookRepo * option error :=
  match Delete r id with
  | (r', Some _) => (r', Some ErrNotFound)
  | (r', None) => (r', None)
  end.

(** *** The filter as the specification words it

    [sub] occurs in [s]; [needle] occurs in [hay] when case is ignored;
    and the conjunction of the filters a query provides. *)
Definition substring_of (sub s : string) : Prop :=
  ∃ pre post, s = pre +:+ sub +:+ post.

Definition ci_substring_of `{GoLibrary} (needle hay : string) : Prop :=
  substring_of (ToLower needle) (ToLower hay).

Definition satisfies_filters `{GoLibrary} (b : Book.t) (q : ListQuery.t) : Prop :=
  (∀ s, ListQuery.Q q = Some s →
     ci_substring_of s (Book.Title b) ∨
     ci_substring_of s (default "" (Book.Subtitle b))) ∧
  (∀ s, ListQuery.Author q = Some s →
     ∃ a, a ∈ Book.Authors b ∧ ci_substring_of s a) ∧
  (∀ t, ListQuery.Tag q = Some t → t ∈ Book.Tags b) ∧
  (∀ y, ListQuery.Year q = Some y → Book.PublishedYear b = Some y).

(** *** Validation as the specification words it

    The title is missing although it is required; the page count is given
    and below 1; the published year is given and outside [1450, 3000]. *)
Definition title_violation (i : CreateBookInput.t) : Prop :=
  ¬ (CreateBookInput.Enrich i = true ∧ is_Some (CreateBookInput.ISBN i)) ∧
  (CreateBookInput.Title i = None ∨ CreateBookInput.Title i = Some "").

Definition page_count_violation (i : CreateBookInput.t) : Prop :=
  ∃ p, CreateBookInput.PageCount i = Some p ∧ p < 1.

Definition published_year_violation (i : CreateBookInput.t) : Prop :=
  ∃ y, CreateBookInput.PublishedYear i = Some y ∧ ¬ (1450 ≤ y ≤ 3000).

Definition violates (i : CreateBookInput.t) : Prop :=
  title_violation i ∨ page_count_violation i ∨ published_year_violation i.

(** The page count and the published year are absent or within bounds. *)
Definition numbers_in_range (i : CreateBookInput.t) : Prop :=
  (∀ p, CreateBookInput.PageCount i = Some p → 1 ≤ p) ∧
  (∀ y, CreateBookInput.PublishedYear i = Some y → 1450 ≤ y ≤ 3000).

(** What [uuid.NewString] is relied on for: an identifier that is not
    empty and not used in the repository. *)
Definition fresh_id (r : BookRepo) (env : Env) : Prop :=
  uuid_NewString env ≠ "" ∧ byID r !! uuid_NewString env = None.

(** The enrichment metadata of a record whose lookup of [isbn] was made. *)
Definition attempted (isbn : string) (st : EnrichmentStatus) : EnrichmentMeta.t :=
  EnrichmentMeta.mk true "openlibrary" st isbn.

(** Sample surroundings of a call: an enrichment client that always
    fails (the [mockEnrich{hit: false}] of the tests) and one that always
    answers with the book of the tests. *)
Definition cleanArchitecture : EnrichedBook.t :=
  EnrichedBook.mk (Some "Clean Architecture") None (Some 2017) (Some 432) None
    ["Robert C. Martin"].

Definition envMiss : Env := mkEnv "id-1" 1000 1001 (λ _, Err "miss").
Definition envHit : Env := mkEnv "id-1" 1000 1001 (λ _, Ok cleanArchitecture).

Definition input (isbn title : option string) (pages : option Z)
    (enrich require : bool) : CreateBookInput.t :=
  CreateBookInput.mk isbn title None None pages None [] [] enrich require.

(** The states of the repository that calls of [Create] and [Delete] can
    produce from [NewBookRepo]. *)
Inductive reachable : BookRepo → Prop :=
| reachable_new : reachable NewBookRepo
| reachable_Create r b : reachable r → reachable (Create r b).1
| reachable_Delete r id : reachable r → reachable (Delete r id).1.

(** The ISBN index holds exactly the stored books whose ISBN normalizes to
    a non-empty key. *)
Definition index_exact (r : BookRepo) : Prop :=
  ∀ k id, byISBN r !! k = Some id ↔
    k ≠ "" ∧ ∃ b isbn, byID r !! id = Some b ∧ Book.ISBN b = Some isbn ∧
                       normalizeISBN isbn = k.

(** Sample books and repositories for the examples. *)
Definition meta0 : EnrichmentMeta.t :=
  EnrichmentMeta.mk false "" EnrichmentNotRequested "".

Definition bk (id : string) (isbn : option string) (created : Z) : Book.t :=
  Book.mk id isbn "T" None None None None [] [] meta0 created 0.

Definition repo_of (bs : list Book.t) : BookRepo :=
  fold_left (λ r b, (Create r b).1) bs NewBookRepo.

(** A small Go library to run the listing on: [strings.ToLower] on
    ASCII letters (other bytes are kept), and for both sorts the insertion
    sort that package [sort] itself runs on a slice of at most 12
    elements: each element in turn moves towards the front for as long as
    it is less than the element before it. *)
Definition lowerByte (a : ascii) : ascii :=
  let n := N_of_ascii a in
  if ((65 <=? n) && (n <=? 90))%N then ascii_of_N (n + 32) else a.

Fixpoint ToLowerASCII (s : string) : string :=
  match s with
  | EmptyString => EmptyString
  | String a s' => String (lowerByte a) (ToLowerASCII s')
  end.

(** [before] is the sorted part so far, last element first. *)
Fixpoint insertBack {A : Type} (less : A → A → bool) (x : A) (before : list A) : list A :=
  match before with
  | [] => [x]
  | y :: before' =>
    if less x y then y :: insertBack less x before' else x :: y :: before'
  end.

Definition insertionSort {A : Type} (less : A → A → bool) (l : list A) : list A :=
  reverse (fold_left (λ before x, insertBack less x before) l []).

(** Read from the back: no element is less than one that comes later in
    [before], that is, earlier in the slice. *)
Definition back_ordered {A} (less : A → A → bool) (before : list A) : Prop :=
  StronglySorted (λ a b, less a b = false) before.

(** The query with no filter and no sort key. *)
Definition listAll (page size : Z) : ListQuery.t :=
  ListQuery.mk None None None None [] page size.

Definition book_a : Book.t := bk "a" None 1000.
Definition book_b : Book.t := bk "b" None 1000.

(** The books the tests of the repository seed it with, and their
    queries. *)
Definition mkSeed (id title : string) (year : Z) (authors tags : list string)
    (created : Z) : Book.t :=
  Book.mk id None title None (Some year) None None tags authors meta0 created 0.

Definition goInAction : Book.t :=
  mkSeed "b1" "Go in Action" 2015 ["William"] ["go"] 1000.
Definition goProgrammingLanguage : Book.t :=
  mkSeed "b2" "The Go Programming Language" 2016 ["Alan"] ["go"; "lang"] 1010.
Definition cleanArchitectureBook : Book.t :=
  mkSeed "b3" "Clean Architecture" 2017 ["Robert"] ["arch"] 1020.
Definition domainDrivenDesign : Book.t :=
  mkSeed "b4" "Domain-Driven Design" 2003 ["Eric"] ["ddd"] 1030.

Definition seed : list Book.t :=
  [goInAction; goProgrammingLanguage; cleanArchitectureBook; domainDrivenDesign].

Definition byText (s : string) : ListQuery.t :=
  ListQuery.mk (Some s) None None None [] 1 10.
Definition byAuthor (a : string) : ListQuery.t :=
  ListQuery.mk None (Some a) None None [] 1 10.
Definition byTag (t : string) : ListQuery.t :=
  ListQuery.mk None None None (Some t) [] 1 10.

(** The identifiers of the books of a returned page, and its total. *)
Definition idsOf (p : outcome (Page.t Book.t)) : option (list string) :=
  match p with
  | Returned pg => Some (Book.ID <$> Page.Data pg)
  | Panicked => None
  end.

Definition totalOf (p : outcome (Page.t Book.t)) : option Z :=
  match p with
  | Returned pg => Some (Page.Total pg)
  | Panicked => None
  end.

(** *** Further notions used by the properties of the repository *)

(** Every record is stored under its own identifier, which is not empty. *)
Definition ids_own (r : BookRepo) : Prop :=
  ∀ id b, byID r !! id = Some b → Book.ID b = id ∧ id ≠ "".

(** The bytes an ISBN keeps when it is normalized. *)
Definition keptByte (c : ascii) : bool :=
  negb (Ascii.eqb c "-"%char) && negb (Ascii.eqb c " "%char).

(** *** The second version of the comparators and of the filter

    The repository file exists in a later version in which the sort goes
    through two three-way comparisons and the filter tests title and
    subtitle in one condition.  The names carry [_v2] here. *)
Definition cmpPtrInt (a b : option Z) : Z :=
  match a, b with
  | None, None => 0
  | None, Some _ => -1
  | Some _, None => 1
  | Some x, Some y => if x <? y then -1 else if x >? y then 1 else 0
  end.

Definition cmpTime (a b : Book.t) : Z :=
  if Book.CreatedAt a <? Book.CreatedAt b then -1
  else if Book.CreatedAt a >? Book.CreatedAt b then 1
  else 0.

Fixpoint lessByKeys_v2 (keys : list SortKey.t) (bi bj : Book.t) : bool :=
  match keys with
  | [] => String.ltb (Book.ID bi) (Book.ID bj)
  | k :: keys' =>
    if String.eqb (SortKey.Field k) "title" then
      if negb (String.eqb (Book.Title bi) (Book.Title bj)) then
        if SortKey.Desc k then String.ltb (Book.Title bj) (Book.Title bi)
        else String.ltb (Book.Title bi) (Book.Title bj)
      else lessByKeys_v2 keys' bi bj
    else if String.eqb (SortKey.Field k) "published_year" then
      let c := cmpPtrInt (Book.PublishedYear bi) (Book.PublishedYear bj) in
      if negb (c =? 0) then
        if SortKey.Desc k then c >? 0 else c <? 0
      else lessByKeys_v2 keys' bi bj
    else if String.eqb (SortKey.Field k) "created_at" then
      let c := cmpTime bi bj in
      if negb (c =? 0) then
        if SortKey.Desc k then c >? 0 else c <? 0
      else lessByKeys_v2 keys' bi bj
    else if String.eqb (SortKey.Field k) "updated_at" then
      if negb (Book.UpdatedAt bi =? Book.UpdatedAt bj) then
        if SortKey.Desc k then Book.UpdatedAt bi >? Book.UpdatedAt bj
        else Book.UpdatedAt bi <? Book.UpdatedAt bj
      else lessByKeys_v2 keys' bi bj
    else lessByKeys_v2 keys' bi bj
  end.

Definition matchFilters_v2 `{GoLibrary} (b : Book.t) (q : ListQuery.t) : bool :=
  let qOK :=
    match ListQuery.Q q with
    | Some s =>
      let needle := ToLower s in
      let t := ToLower (Book.Title b) in
      let sub :=
        match Book.Subtitle b with
        | Some st => ToLower st
        | None => ""
        end in
      if negb (Contains t needle) && negb (Contains sub needle) then false
      else true
    | None => true
    end in
  if negb qOK then false else
  let authorOK :=
    match ListQuery.Author q with
    | Some s =>
      let needle := ToLower s in
      existsb (λ a, Contains (ToLower a) needle) (Book.Authors b)
    | None => true
    end in
  if negb authorOK then false else
  let tagOK :=
    match ListQuery.Tag q with
    | Some tag => existsb (λ t, String.eqb t tag) (Book.Tags b)
    | None => true
    end in
  if negb tagOK then false else
  match ListQuery.Year q with
  | Some y =>
    match Book.PublishedYear b with
    | None => false
    | Some py => if negb (py =? y) then false else true
    end
  | None => true
  end.

(** *** The order of the keyed sort, as a three-way comparison

    What one key says about two books ([Eq] when it does not decide), and
    what the keys say from left to right, the identifiers deciding last. *)
Definition compareYear (a b : option Z) : comparison :=
  match a, b with
  | None, None => Eq
  | None, Some _ => Lt
  | Some _, None => Gt
  | Some x, Some y => x ?= y
  end.

Definition compareKey (k : SortKey.t) (x y : Book.t) : comparison :=
  let c :=
    if String.eqb (SortKey.Field k) "title" then
      String.compare (Book.Title x) (Book.Title y)
    else if String.eqb (SortKey.Field k) "published_year" then
      compareYear (Book.PublishedYear x) (Book.PublishedYear y)
    else if String.eqb (SortKey.Field k) "created_at" then
      Book.CreatedAt x ?= Book.CreatedAt y
    else if String.eqb (SortKey.Field k) "updated_at" then
      Book.UpdatedAt x ?= Book.UpdatedAt y
    else Eq in
  if SortKey.Desc k then CompOpp c else c.

Fixpoint compareByKeys (keys : list SortKey.t) (x y : Book.t) : comparison :=
  match keys with
  | [] => String.compare (Book.ID x) (Book.ID y)
  | k :: keys' =>
    match compareKey k x y with
    | Eq => compareByKeys keys' x y
    | Lt => Lt
    | Gt => Gt
    end
  end.

(** A three-way comparison of a total preorder. *)
Definition preorder_cmp {A : Type} (cmp : A → A → comparison) : Prop :=
  (∀ x y, cmp y x = CompOpp (cmp x y)) ∧
  (∀ x y z, cmp x y ≠ Gt → cmp y z ≠ Gt → cmp x z ≠ Gt).

(** A field name the sort knows. *)
Definition knownField (f : string) : bool :=
  String.eqb f "title" || String.eqb f "published_year" ||
  String.eqb f "created_at" || String.eqb f "updated_at".

(** The part of [List] that follows the sort: the clamps and the slice. *)
Definition paginate (out : list Book.t) (cap : Z) (q : ListQuery.t)
  : outcome (Page.t Book.t) :=
  let page := ListQuery.Page q in
  let page := if page <? 1 then 1 else page in
  let size := ListQuery.PageSize q in
  let size := if size <? 1 then 20 else size in
  let total := len out in
  let start := wrap (wrap (page - 1) * size) in
  let start := if start >? total then total else start in
  let end_ := wrap (start + size) in
  let end_ := if end_ >? total then total else end_ in
  if wrap (end_ - start) <? 0 then Panicked
  else if negb ((0 <=? start) && (start <=? end_) && (end_ <=? cap)) then Panicked
  else
    let paged := take (Z.to_nat (wrap (end_ - start))) (drop (Z.to_nat start) out) in
    Returned (Page.mk paged page size total).

(** The query [q] asked for another page. *)
Definition withPage (q : ListQuery.t) (page : Z) : ListQuery.t :=
  ListQuery.mk (ListQuery.Q q) (ListQuery.Author q) (ListQuery.Year q)
    (ListQuery.Tag q) (ListQuery.Sort q) page (ListQuery.PageSize q).

(** The records of a returned page; none when the call panicked. *)
Definition dataOf (p : outcome (Page.t Book.t)) : list Book.t :=
  match p with
  | Returned pg => Page.Data pg
  | Panicked => []
  end.

(** Queries sorted by title, and by a field the sort does not know. *)
Definition byTitle (desc : bool) : ListQuery.t :=
  ListQuery.mk None None None None [SortKey.mk "title" desc] 1 10.

Definition byUnknown : ListQuery.t :=
  ListQuery.mk None None None None [SortKey.mk "pages" true] 1 10.

(** ** adapter: the Open Library client

    The third part of the adapter package.  The HTTP client, the context
    and the JSON decoder are outside the program: a client answers the
    [i]-th request of one call of [FetchByISBN] with an [http_outcome], a
    context says for the wait after the [i]-th attempt whether its [Done]
    channel is what the [select] takes, and the decoder is a function
    from the body to the decoded document or the message of its error. *)

Module olbAuthor.
Record t := mk {
  Name : option string
}.
End olbAuthor.

Module openLibBook.
Record t := mk {
  Title : option string;
  Subtitle : option string;
  NumberOfPages : option Z;
  PublishDate : option string;
  Covers : list Z;
  Authors : list olbAuthor.t
}.
End openLibBook.

(** [\d] of package [regexp] is one of the ten ASCII digits. *)
Definition isDigit (a : ascii) : bool :=
  let n := N_of_ascii a in ((48 <=? n) && (n <=? 57))%N.

Definition digitValue (a : ascii) : Z := Z.of_N (N_of_ascii a) - 48.

(** [yearRe.FindString] for [yearRe = (\d{4})]: the leftmost four
    digits in a row, or the empty string when there are none.  The
    bytes of a rune that is not ASCII are all above 127, so on the bytes
    of the string the match is the same. *)
Fixpoint yearRe_FindString (s : string) : string :=
  match s with
  | String a (String b (String c (String d _)) as rest) =>
    if isDigit a && isDigit b && isDigit c && isDigit d
    then String a (String b (String c (String d "")))
    else yearRe_FindString rest
  | _ => ""
  end.

(** [strconv.Atoi]: an optional sign, then at least one digit and
    nothing but digits, read in base ten; the value must be an [int].
    [None] is a non-nil error (no caller tells the errors apart). *)
Fixpoint decimal (acc : Z) (s : string) : option Z :=
  match s with
  | "" => Some acc
  | String a s' =>
    if isDigit a then decimal (10 * acc + digitValue a) s' else None
  end.

Definition Atoi (s : string) : option Z :=
  let '(neg, digits) :=
    match s with
    | String "+"%char r => (false, r)
    | String "-"%char r => (true, r)
    | _ => (false, s)
    end in
  match digits with
  | "" => None
  | _ =>
    match decimal 0 digits with
    | Some v =>
      let v := if neg : bool then - v else v in
      if (minInt <=? v) && (v <=? maxInt) then Some v else None
    | None => None
    end
  end.

(** [parseYear]; [None] is a non-nil error. *)
Definition parseYear (s : string) : option Z :=
  let m := yearRe_FindString s in
  if String.eqb m "" then None else Atoi m.

(** [fmt.Sprintf] of the verb [%d]. *)
Definition Sprintf_d (z : Z) : string := pretty.pretty z.

Definition mapToEnriched (ob : openLibBook.t) : EnrichedBook.t :=
  let year :=
    match openLibBook.PublishDate ob with
    | Some d =>
      if Z.of_nat (String.length d) >=? 4 then
        match parseYear d with
        | Some y => Some y
        | None => None
        end
      else None
    | None => None
    end in
  let cover :=
    match openLibBook.Covers ob with
    | c :: _ =>
      Some ("https://covers.openlibrary.org/b/id/" +:+ Sprintf_d c +:+ "-L.jpg")
    | [] => None
    end in
  let authors :=
    fold_left
      (λ (authors : list string) a,
         match olbAuthor.Name a with
         | Some n => if negb (String.eqb n "") then (authors ++ [n])%list else authors
         | None => authors
         end)
      (openLibBook.Authors ob) [] in
  EnrichedBook.mk (openLibBook.Title ob) (openLibBook.Subtitle ob) year
    (openLibBook.NumberOfPages ob) cover authors.

(** What the HTTP client does with one request: [http.NewRequestWithContext]
    fails, [Client.Do] fails, or there is a response. *)
Inductive http_outcome :=
| NoRequest (msg : string)
| NoResponse (msg : string)
| Response (StatusCode : Z) (Body : string).

(** The errors of the client: a sentinel of the package, the error of
    [http.NewRequestWithContext], of [Client.Do], the error made for a
    status outside 200..299, the error of the decoder, and [ctx.Err()]. *)
Inductive fetch_error :=
| AdapterError (e : repo_error)
| RequestError (msg : string)
| DoError (msg : string)
| StatusError (code : Z) (body : string)
| DecodeError (msg : string)
| ContextError (msg : string).

(** [errors.Is(err, errNotFound)]. *)
Definition Is_errNotFound (err : fetch_error) : bool :=
  match err with
  | AdapterError errNotFound => true
  | _ => false
  end.

(** [err.Error()]. *)
Definition Error (err : fetch_error) : string :=
  match err with
  | AdapterError errNotFound => "not found"
  | AdapterError errConflict => "conflict"
  | RequestError msg => msg
  | DoError msg => msg
  | StatusError code body =>
    "openlibrary: status " +:+ Sprintf_d code +:+ ": " +:+ body
  | DecodeError msg => msg
  | ContextError msg => msg
  end.

Module Context.
Record t := mk {
  Done : Z → bool;
  Err : string
}.
End Context.

(** What a call of [FetchByISBN] does to the outside, in order: a call
    of [fetchOnce] for a URL, and a timer of the backoff that fired (the
    duration in nanoseconds). *)
Inductive event :=
| Fetched (url : string)
| Waited (d : Z).

Definition Millisecond : Z := 1000000.

(** [time.Duration(150*(i+1)) * time.Millisecond]. *)
Definition backoff (i : Z) : Z :=
  wrap (wrap (150 * wrap (i + 1)) * Millisecond).

(** [model.EnrichedBook{}]. *)
Definition noBook : EnrichedBook.t :=
  EnrichedBook.mk None None None None None [].

Module OpenLibraryClient.
Record t := mk {
  BaseURL : string;
  Client : Z → string → http_outcome;
  Retry : Z
}.

Section Decoder.
Variable json_Decode : string → result string openLibBook.t.

(** The [i]-th call of [fetchOnce] in one call of [FetchByISBN]. *)
Definition fetchOnce (c : t) (i : Z) (url : string)
  : result fetch_error EnrichedBook.t :=
  match Client c i url with
  | NoRequest msg => Err (RequestError msg)
  | NoResponse msg => Err (DoError msg)
  | Response StatusCode Body =>
    if StatusCode =? 404 then Err (AdapterError errNotFound)
    else if (StatusCode <? 200) || (StatusCode >=? 300) then
      Err (StatusError StatusCode (substring 0 4096 Body))
    else
      match json_Decode Body with
      | Err msg => Err (DecodeError msg)
      | Ok ob => Ok (mapToEnriched ob)
      end
  end.

(** The loop of [FetchByISBN] from attempt [i] on, with [n] attempts
    still to go: the pair that is returned, and the events in order. *)
Fixpoint attemptsFrom (c : t) (ctx : Context.t) (url : string)
    (attempts : Z) (n : nat) (i : Z) (lastErr : option fetch_error)
  : (EnrichedBook.t * option fetch_error) * list event :=
  match n with
  | O => ((noBook, lastErr), [])
  | S n =>
    match fetchOnce c i url with
    | Ok eb => ((eb, None), [Fetched url])
    | Err err =>
      if Is_errNotFound err then ((noBook, Some err), [Fetched url])
      else if i <? wrap (attempts - 1) then
        if Context.Done ctx i then
          ((noBook, Some (ContextError (Context.Err ctx))), [Fetched url])
        else
          let '(res, events) :=
            attemptsFrom c ctx url attempts n (wrap (i + 1)) (Some err) in
          (res, Fetched url :: Waited (backoff i) :: events)
      else
        let '(res, events) :=
          attemptsFrom c ctx url attempts n (wrap (i + 1)) (Some err) in
        (res, Fetched url :: events)
    end
  end.

(** [FetchByISBN]: the loop runs for [i = 0, 1, ...] as long as
    [i < attempts], which is [attempts] times, and not at all when
    [attempts] is not positive. *)
Definition FetchByISBN (c : t) (ctx : Context.t) (isbn : string)
  : (EnrichedBook.t * option fetch_error) * list event :=
  let url := BaseURL c +:+ "/isbn/" +:+ isbn +:+ ".json" in
  let attempts := wrap (Retry c + 1) in
  attemptsFrom c ctx url attempts (Z.to_nat attempts) 0 None.

End Decoder.
End OpenLibraryClient.

Definition NewOpenLibraryClient (baseURL : string) (retry : Z)
    (httpClient : Z → string → http_outcome) : OpenLibraryClient.t :=
  let baseURL :=
    if String.eqb baseURL "" then "https://openlibrary.org" else baseURL in
  let retry := if retry <? 0 then 0 else retry in
  OpenLibraryClient.mk baseURL httpClient retry.

(** The surroundings of a call of [CreateBook] when the enrichment
    client of the service is an Open Library client. *)
Definition clientEnv (id : string) (created updated : Z)
    (json_Decode : string → result string openLibBook.t)
    (c : OpenLibraryClient.t) (ctx : Context.t) : Env :=
  mkEnv id created updated
    (λ isbn,
       match (OpenLibraryClient.FetchByISBN json_Decode c ctx isbn).1 with
       | (eb, None) => Ok eb
       | (_, Some err) => Err (Error err)
       end).

(** *** Notions used by the properties of the client *)

(** The byte of [s] at offset [n] is a digit, and so are the next three. *)
Definition digits_at (s : string) (n : nat) : Prop :=
  ∀ k, (k < 4)%nat → ∃ a, String.get (n + k) s = Some a ∧ isDigit a = true.

(** The value of the digit of [s] at offset [n]. *)
Definition digit_of (s : string) (n : nat) : Z :=
  match String.get n s with
  | Some a => digitValue a
  | None => 0
  end.

(** The names that are there and not empty, in order. *)
Definition names (authors : list olbAuthor.t) : list string :=
  List.filter (λ n, negb (String.eqb n "")) (omap olbAuthor.Name authors).

(** The events of [k] attempts: a fetch, then for each further attempt
    the wait of 150 ms times its number and a fetch. *)
Definition schedule (url : string) (k : nat) : list event :=
  match k with
  | O => []
  | S k =>
    Fetched url ::
    concat ((λ j : nat, [Waited (150 * (Z.of_nat j + 1) * Millisecond);
                         Fetched url]) <$> seq 0 k)
  end.

(** A failure of [fetchOnce] after which the loop goes on. *)
Definition retried (json_Decode : string → result string openLibBook.t)
    (c : OpenLibraryClient.t) (ctx : Context.t) (url : string) (j : Z) : Prop :=
  ∃ err, OpenLibraryClient.fetchOnce json_Decode c j url = Err err ∧
         Is_errNotFound err = false ∧ Context.Done ctx j = false.

(** A decoder and a server for the examples: the server of the tests of
    the service, which knows one ISBN. *)
Definition cleanArchitectureDoc : openLibBook.t :=
  openLibBook.mk (Some "Clean Architecture") None (Some 400) (Some "2020")
    [5555] [olbAuthor.mk (Some "Robert C. Martin")].

Definition testDecode (body : string) : result string openLibBook.t :=
  if String.eqb body "clean-architecture" then Ok cleanArchitectureDoc
  else Err "unexpected end of JSON input".

Definition testServer (base : string) (i : Z) (url : string) : http_outcome :=
  if String.eqb url (base +:+ "/isbn/9780134494166.json")
  then Response 200 "clean-architecture"
  else Response 404 "404 page not found".

Definition background : Context.t := Context.mk (λ _, false) "".

(** The URL [FetchByISBN] builds for an ISBN. *)
Definition requestURL (c : OpenLibraryClient.t) (isbn : string) : string :=
  OpenLibraryClient.BaseURL c +:+ "/isbn/" +:+ isbn +:+ ".json".

(** [schedule] from an attempt other than the first: the events of the
    attempts [i], ..., [i + k]. *)
Definition sched_from (url : string) (i k : nat) : list event :=
  Fetched url ::
  concat ((λ j : nat, [Waited (150 * (Z.of_nat j + 1) * Millisecond);
                       Fetched url]) <$> seq i k).

(** What [FetchByISBN] returns when attempt [m] of [attempts] is the last
    one it makes. *)
Definition settled (json_Decode : string → result string openLibBook.t)
    (c : OpenLibraryClient.t) (ctx : Context.t) (url : string)
    (attempts m : Z) : EnrichedBook.t * option fetch_error :=
  match OpenLibraryClient.fetchOnce json_Decode c m url with
  | Ok eb => (eb, None)
  | Err err =>
    (noBook,
     Some (if Is_errNotFound err then err
           else if m <? attempts - 1 then ContextError (Context.Err ctx)
           else err))
  end.

(** The URLs of the calls of [fetchOnce] among the events, in order. *)
Definition requests (events : list event) : list string :=
  omap (λ e, match e with Fetched url => Some url | Waited _ => None end) events.

(** A server that is busy twice before it answers. *)
Definition flaky (i : Z) (url : string) : http_outcome :=
  if i <? 2 then Response 503 "busy" else Response 200 "clean-architecture".

(** *** Notions used by the properties of the service *)

(** The ISBN a call of [CreateBook] hands to the enrichment client, when
    the call makes the lookup: it returns before the lookup when
    validation fails, and it skips the lookup unless enrichment is
    requested and the ISBN is present and not empty. *)
Definition lookedUp (i : CreateBookInput.t) : option string :=
  if rejects i then None
  else
    match CreateBookInput.ISBN i with
    | Some isbn =>
      if CreateBookInput.Enrich i && negb (String.eqb isbn "") then Some isbn
      else None
    | None => None
    end.

(** [CreateBook] when other calls run between its two calls of the
    repository, each of which takes the lock on its own: [r] is the
    repository when [GetByISBN] looks the ISBN up, [r'] the repository
    when [Create] inserts.  With [r' = r] this is [CreateBook]. *)
Definition CreateBookBetween (r r' : BookRepo) (env : Env)
    (i : CreateBookInput.t) : BookRepo * result error Book.t :=
  if rejects i then (r, Err ErrValidation)
  else
    let b := construct env i in
    match enrich env i b with
    | Err e => (r, Err e)
    | Ok b =>
      let dup :=
        match Book.ISBN b with
        | Some isbn =>
          if negb (String.eqb isbn "") then
            match GetByISBN r isbn with
            | Ok _ => true
            | Err _ => false
            end
          else false
        | None => false
        end in
      if dup then (r, Err ErrConflict)
      else
        match Create r' b with
        | (r'', Err e) => (r'', Err (RepoError e))
        | (r'', Ok created) => (r'', Ok created)
        end
    end.

(** A stored record has an ISBN with the same non-empty normal form as
    [isbn]. *)
Definition has_ISBN (r : BookRepo) (isbn : string) : Prop :=
  normalizeISBN isbn ≠ "" ∧
  ∃ id b isbn0, byID r !! id = Some b ∧ Book.ISBN b = Some isbn0 ∧
                normalizeISBN isbn0 = normalizeISBN isbn.

(** * Properties *)

(** ** The repository *)

Lemma copyBook_id b : copyBook b = b.
Proof. by destruct b. Qed.

(** The outcomes of [Create], case by case. *)
Lemma Create_cases r b :
  (Create r b = (r, Err errConflict) ∧
     (Book.ID b = "" ∨ is_Some (byID r !! Book.ID b) ∨
      ∃ isbn, Book.ISBN b = Some isbn ∧ normalizeISBN isbn ≠ "" ∧
              is_Some (byISBN r !! normalizeISBN isbn)))
  ∨ (Book.ID b ≠ "" ∧ byID r !! Book.ID b = None ∧
     ∃ isbn, Book.ISBN b = Some isbn ∧ normalizeISBN isbn ≠ "" ∧
       byISBN r !! normalizeISBN isbn = None ∧
       Create r b = (mkRepo (<[Book.ID b := b]> (byID r))
                            (<[normalizeISBN isbn := Book.ID b]> (byISBN r)), Ok b))
  ∨ (Book.ID b ≠ "" ∧ byID r !! Book.ID b = None ∧
     (Book.ISBN b = None ∨ ∃ isbn, Book.ISBN b = Some isbn ∧ normalizeISBN isbn = "") ∧
     Create r b = (mkRepo (<[Book.ID b := b]> (byID r)) (byISBN r), Ok b)).
Proof.
  unfold Create. rewrite copyBook_id.
  destruct (String.eqb (Book.ID b) "") eqn:Hid.
  { apply String.eqb_eq in Hid. left. auto. }
  apply String.eqb_neq in Hid.
  destruct (byID r !! Book.ID b) eqn:Hl.
  { left. split; [done|]. right. left. eauto. }
  destruct (Book.ISBN b) as [isbn|] eqn:Hisbn.
  - destruct (String.eqb (normalizeISBN isbn) "") eqn:Hk; simpl.
    + apply String.eqb_eq in Hk. right. right. repeat split; eauto.
    + apply String.eqb_neq in Hk.
      destruct (byISBN r !! normalizeISBN isbn) eqn:Hx.
      * left. split; [done|]. right. right. exists isbn. eauto.
      * right. left. repeat split; eauto.
  - right. right. repeat split; eauto.
Qed.

Lemma Delete_cases r id :
  (byID r !! id = None ∧ Delete r id = (r, Some errNotFound))
  ∨ (∃ b, byID r !! id = Some b ∧
       Delete r id =
         (mkRepo (delete id (byID r))
            (match Book.ISBN b with
             | Some isbn => delete (normalizeISBN isbn) (byISBN r)
             | None => byISBN r
             end), None)).
Proof.
  unfold Delete. destruct (byID r !! id) as [b|] eqn:Hb; [right|left]; eauto.
Qed.

Lemma index_exact_new : index_exact NewBookRepo.
Proof.
  intros k id. simpl. rewrite lookup_empty. split; [done|].
  intros (_ & b & isbn & Hb & _). by rewrite lookup_empty in Hb.
Qed.

Lemma index_exact_Create r b : index_exact r → index_exact (Create r b).1.
Proof.
  intros Hinv.
  destruct (Create_cases r b) as [[-> _]|[(Hid & Hfree & isbn & Hisbn & Hk & Hnone & ->)|(Hid & Hfree & Hno & ->)]];
    [done| |]; intros k id; simpl.
  - destruct (decide (k = normalizeISBN isbn)) as [->|Hne].
    + rewrite lookup_insert_eq. split.
      * intros [= <-]. split; [done|]. exists b, isbn. by rewrite lookup_insert_eq.
      * intros (_ & b0 & isbn0 & Hb0 & Hi0 & Hn0).
        destruct (decide (id = Book.ID b)) as [->|Hd]; [done|].
        rewrite lookup_insert_ne in Hb0 by done.
        assert (byISBN r !! normalizeISBN isbn = Some id) as Hc
          by (apply Hinv; eauto 6).
        congruence.
    + rewrite lookup_insert_ne by done. rewrite (Hinv k id). split.
      * intros (Hk0 & b0 & isbn0 & Hb0 & Hi0 & Hn0). split; [done|].
        exists b0, isbn0. rewrite lookup_insert_ne; [done|]. congruence.
      * intros (Hk0 & b0 & isbn0 & Hb0 & Hi0 & Hn0). split; [done|].
        destruct (decide (id = Book.ID b)) as [->|Hd].
        -- rewrite lookup_insert_eq in Hb0. congruence.
        -- rewrite lookup_insert_ne in Hb0 by done. eauto.
  - rewrite (Hinv k id). split.
    + intros (Hk0 & b0 & isbn0 & Hb0 & Hi0 & Hn0). split; [done|].
      exists b0, isbn0. rewrite lookup_insert_ne; [done|]. congruence.
    + intros (Hk0 & b0 & isbn0 & Hb0 & Hi0 & Hn0). split; [done|].
      destruct (decide (id = Book.ID b)) as [->|Hd].
      * rewrite lookup_insert_eq in Hb0.
        destruct Hno as [Hno|(i1 & Hi1 & Hn1)]; congruence.
      * rewrite lookup_insert_ne in Hb0 by done. eauto.
Qed.

Lemma index_exact_Delete r id : index_exact r → index_exact (Delete r id).1.
Proof.
  intros Hinv.
  destruct (Delete_cases r id) as [[_ ->]|(b & Hb & ->)]; [done|].
  intros k id0; simpl.
  destruct (Book.ISBN b) as [isbn|] eqn:Hisbn.
  - destruct (decide (k = normalizeISBN isbn)) as [->|Hne].
    + rewrite lookup_delete_eq. split; [done|].
      intros (Hk0 & b0 & isbn0 & Hb0 & Hi0 & Hn0).
      apply lookup_delete_Some in Hb0 as [Hd Hb0].
      assert (byISBN r !! normalizeISBN isbn = Some id0) as H1
        by (apply Hinv; eauto 6).
      assert (byISBN r !! normalizeISBN isbn = Some id) as H2
        by (apply Hinv; eauto 6).
      congruence.
    + rewrite lookup_delete_ne by done. rewrite (Hinv k id0). split.
      * intros (Hk0 & b0 & isbn0 & Hb0 & Hi0 & Hn0). split; [done|].
        exists b0, isbn0. rewrite lookup_delete_ne; [done|].
        intros ->. congruence.
      * intros (Hk0 & b0 & isbn0 & Hb0 & Hi0 & Hn0). split; [done|].
        apply lookup_delete_Some in Hb0 as [Hd Hb0]. eauto.
  - rewrite (Hinv k id0). split.
    + intros (Hk0 & b0 & isbn0 & Hb0 & Hi0 & Hn0). split; [done|].
      exists b0, isbn0. rewrite lookup_delete_ne; [done|].
      intros ->. congruence.
    + intros (Hk0 & b0 & isbn0 & Hb0 & Hi0 & Hn0). split; [done|].
      apply lookup_delete_Some in Hb0 as [Hd Hb0]. eauto.
Qed.

Lemma reachable_index_exact r : reachable r → index_exact r.
Proof.
  induction 1; auto using index_exact_new, index_exact_Create, index_exact_Delete.
Qed.

(** C1, as stated, fails on two ISBNs that normalize to the empty string:
    ["-"] and [" "] have the same normal form, both records are created,
    and both are stored afterwards. *)
Lemma Create_empty_key_no_conflict :
  normalizeISBN "-" = normalizeISBN " " ∧
  (Create NewBookRepo (bk "b1" (Some "-") 0)).2 = Ok (bk "b1" (Some "-") 0) ∧
  (Create (Create NewBookRepo (bk "b1" (Some "-") 0)).1 (bk "b2" (Some " ") 0)).2
    = Ok (bk "b2" (Some " ") 0) ∧
  byID (repo_of [bk "b1" (Some "-") 0; bk "b2" (Some " ") 0]) !! "b1"
    = Some (bk "b1" (Some "-") 0) ∧
  byID (repo_of [bk "b1" (Some "-") 0; bk "b2" (Some " ") 0]) !! "b2"
    = Some (bk "b2" (Some " ") 0) ∧
  reachable (repo_of [bk "b1" (Some "-") 0; bk "b2" (Some " ") 0]).
Proof.
  repeat split; try (vm_compute; reflexivity).
  unfold repo_of; simpl. do 2 apply reachable_Create. apply reachable_new.
Qed.

(** C1 (amended): uniqueness holds for the ISBNs whose normal form is not
    empty.  (1) If [a] and [b] normalize to the same non-empty string and a
    record with ISBN [a] was created, creating a record with ISBN [b] fails
    with the conflict error and changes nothing.  (2) Creating a record
    without ISBN leaves the index as it was, and fails only on its
    identifier.  (3) In every state reachable by [Create] and [Delete],
    every index entry points at a stored record with that normalized ISBN,
    and no two stored records share a non-empty normalized ISBN. *)
Theorem Create_ISBN_unique :
  (∀ r b1 b2 a b r1 out1,
     Book.ISBN b1 = Some a → Book.ISBN b2 = Some b →
     normalizeISBN a = normalizeISBN b → normalizeISBN a ≠ "" →
     Create r b1 = (r1, Ok out1) →
     Create r1 b2 = (r1, Err errConflict)) ∧
  (∀ r b, Book.ISBN b = None →
     byISBN (Create r b).1 = byISBN r ∧
     ((Create r b).2 = Err errConflict ↔
        Book.ID b = "" ∨ is_Some (byID r !! Book.ID b))) ∧
  (∀ r, reachable r →
     (∀ k id, byISBN r !! k = Some id →
        ∃ b isbn, byID r !! id = Some b ∧ Book.ISBN b = Some isbn ∧
                  normalizeISBN isbn = k) ∧
     (∀ id1 id2 b1 b2 a b,
        byID r !! id1 = Some b1 → byID r !! id2 = Some b2 →
        Book.ISBN b1 = Some a → Book.ISBN b2 = Some b →
        normalizeISBN a = normalizeISBN b → normalizeISBN a ≠ "" →
        id1 = id2)).
Proof.
  split; [|split].
  - intros r b1 b2 a b r1 out1 Ha Hb Hab Hne Hc.
    assert (byISBN r1 !! normalizeISBN b = Some (Book.ID b1)) as Hidx.
    { destruct (Create_cases r b1)
        as [[E _]|[(_ & _ & i & Hi & _ & _ & E)|(_ & _ & Hno & E)]];
        rewrite E in Hc; simplify_eq.
      - simpl. rewrite <- Hab. apply lookup_insert_eq.
      - destruct Hno as [?|(i & ? & ?)]; congruence. }
    destruct (Create_cases r1 b2)
      as [[E _]|[(_ & _ & i & Hi & _ & Hnone & _)|(_ & _ & Hno & _)]].
    + done.
    + congruence.
    + destruct Hno as [?|(i & ? & ?)]; congruence.
  - intros r b Hb. split.
    + destruct (Create_cases r b)
        as [[-> _]|[(_ & _ & i & Hi & _)|(_ & _ & _ & ->)]]; [done| |done].
      congruence.
    + destruct (Create_cases r b)
        as [[-> Hwhy]|[(_ & _ & i & Hi & _)|(Hid & Hfree & _ & ->)]].
      * split; [intros _|done].
        destruct Hwhy as [?|[?|(i & ? & _)]]; [auto|auto|congruence].
      * congruence.
      * simpl. split; [done|]. intros [?|[? ?]]; congruence.
  - intros r Hr. pose proof (reachable_index_exact r Hr) as Hinv. split.
    + intros k id Hk. apply Hinv in Hk as (_ & b & isbn & ?). eauto.
    + intros id1 id2 b1 b2 a b H1 H2 Ha Hb Hab Hne.
      assert (byISBN r !! normalizeISBN a = Some id1) by (apply Hinv; eauto 6).
      assert (byISBN r !! normalizeISBN a = Some id2)
        by (apply Hinv; split; [done|]; exists b2, b; eauto).
      congruence.
Qed.

Lemma Create_ISBN_unique_witness :
  Create (Create NewBookRepo (bk "b1" (Some "978-1-23-000000-0") 0)).1
         (bk "b2" (Some "9781230000000") 0)
  = ((Create NewBookRepo (bk "b1" (Some "978-1-23-000000-0") 0)).1,
     Err errConflict).
Proof.
  apply (proj1 Create_ISBN_unique NewBookRepo
           (bk "b1" (Some "978-1-23-000000-0") 0)
           (bk "b2" (Some "9781230000000") 0)
           "978-1-23-000000-0" "9781230000000" _
           (bk "b1" (Some "978-1-23-000000-0") 0)).
  - reflexivity.
  - reflexivity.
  - vm_compute; reflexivity.
  - vm_compute; discriminate.
  - vm_compute; reflexivity.
Defined.

(** C9: [Delete] fails with the not-found error exactly when no record is
    stored under the identifier, and then changes nothing.  When a record
    [b] is stored under it, [Delete] succeeds, removes that entry of
    [byID] and, if [b] has an ISBN, the entry of [byISBN] under its normal
    form; afterwards [GetByID] of the identifier and [GetByISBN] of the
    ISBN of [b] fail with the not-found error, and every other entry of
    [byID] and of [byISBN] is as before. *)
Theorem Delete_removes_record_and_index (r : BookRepo) (id : string) :
  ((Delete r id).2 = Some errNotFound ↔ byID r !! id = None) ∧
  (byID r !! id = None → (Delete r id).1 = r) ∧
  (∀ b, byID r !! id = Some b →
     (Delete r id).2 = None ∧
     byID (Delete r id).1 = delete id (byID r) ∧
     byISBN (Delete r id).1 =
       match Book.ISBN b with
       | Some isbn => delete (normalizeISBN isbn) (byISBN r)
       | None => byISBN r
       end ∧
     GetByID (Delete r id).1 id = Err errNotFound ∧
     (∀ isbn, Book.ISBN b = Some isbn →
        GetByISBN (Delete r id).1 isbn = Err errNotFound) ∧
     (∀ id', id' ≠ id →
        byID (Delete r id).1 !! id' = byID r !! id' ∧
        GetByID (Delete r id).1 id' = GetByID r id') ∧
     (∀ k, (∀ isbn, Book.ISBN b = Some isbn → k ≠ normalizeISBN isbn) →
        byISBN (Delete r id).1 !! k = byISBN r !! k)).
Proof.
  destruct (Delete_cases r id) as [[Hn ->]|(b & Hb & ->)]; simpl.
  - repeat split; try done; intros; congruence.
  - split; [split; [done|congruence]|].
    split; [congruence|].
    intros b' Hb'. assert (b' = b) as -> by congruence.
    split; [done|]. split; [done|]. split; [done|].
    split; [unfold GetByID; simpl; by rewrite lookup_delete_eq|].
    split.
    + intros isbn Hi. unfold GetByISBN; simpl. rewrite Hi.
      by rewrite lookup_delete_eq.
    + split.
      * intros id' Hne. unfold GetByID; simpl.
        by rewrite lookup_delete_ne.
      * intros k Hk. destruct (Book.ISBN b) as [isbn|]; [|done].
        rewrite lookup_delete_ne; [done|]. intros Heq. by apply (Hk isbn).
Qed.

Lemma Delete_removes_record_and_index_witness :
  GetByID (Delete (repo_of [bk "b1" (Some "978-0-12-345678-9") 0]) "b1").1 "b1"
    = Err errNotFound ∧
  GetByISBN (Delete (repo_of [bk "b1" (Some "978-0-12-345678-9") 0]) "b1").1
    "978-0-12-345678-9" = Err errNotFound.
Proof.
  destruct (Delete_removes_record_and_index
              (repo_of [bk "b1" (Some "978-0-12-345678-9") 0]) "b1")
    as (_ & _ & H).
  destruct (H (bk "b1" (Some "978-0-12-345678-9") 0))
    as (_ & _ & _ & Hg & Hi & _).
  - vm_compute; reflexivity.
  - split; [exact Hg|]. apply Hi. reflexivity.
Defined.

(** ** The insertion sort meets what package [sort] promises *)

Lemma insertBack_perm {A} (less : A → A → bool) x l :
  insertBack less x l ≡ₚ x :: l.
Proof.
  induction l as [|y l IH]; simpl; [done|].
  destruct (less x y); [|done].
  rewrite IH. apply Permutation_swap.
Qed.

Lemma insertionSort_perm {A} (less : A → A → bool) l :
  insertionSort less l ≡ₚ l.
Proof.
  unfold insertionSort. rewrite reverse_Permutation.
  assert (∀ acc, fold_left (λ before x, insertBack less x before) l acc ≡ₚ l ++ acc) as Hg.
  { induction l as [|x l IH]; intros acc; simpl; [done|].
    rewrite IH, insertBack_perm. by rewrite Permutation_middle. }
  by rewrite Hg, app_nil_r.
Qed.

Lemma insertBack_ordered {A} (less : A → A → bool) x l :
  weak_order less → back_ordered less l → back_ordered less (insertBack less x l).
Proof.
  intros [Hasym Htrans]. unfold back_ordered.
  induction 1 as [|y l Hl IH Hy]; simpl.
  - repeat constructor.
  - destruct (less x y) eqn:Hxy.
    + constructor; [done|].
      rewrite Forall_forall in Hy |- *. intros z Hz.
      rewrite insertBack_perm in Hz.
      apply elem_of_cons in Hz as [->|Hz]; [by apply Hasym|].
      by apply Hy.
    + constructor; [by constructor|].
      constructor; [done|].
      rewrite Forall_forall in Hy |- *. intros z Hz.
      apply (Htrans z y x); auto.
Qed.

Lemma StronglySorted_lookup {A} (R : A → A → Prop) l (i j : nat) x y :
  StronglySorted R l → (i < j)%nat → l !! i = Some x → l !! j = Some y → R x y.
Proof.
  intros Hs. revert i j. induction Hs as [|a l Hl IH Ha]; intros i j Hij Hi Hj.
  - done.
  - destruct j as [|j]; [lia|]. simpl in Hj.
    destruct i as [|i]; simpl in Hi.
    + simplify_eq. rewrite Forall_forall in Ha. apply Ha.
      apply list_elem_of_lookup. eauto.
    + apply (IH i j); [lia|done..].
Qed.

Lemma insertionSort_ordered {A} (less : A → A → bool) l :
  weak_order less → ordered_by less (insertionSort less l).
Proof.
  intros Hw. unfold insertionSort.
  assert (∀ acc, back_ordered less acc →
            back_ordered less (fold_left (λ before x, insertBack less x before) l acc)) as Hg.
  { induction l as [|x l IH]; intros acc Hacc; simpl; [done|].
    apply IH. by apply insertBack_ordered. }
  specialize (Hg [] ltac:(constructor)).
  set (rl := fold_left _ l []) in *.
  intros i j x y Hij Hi Hj.
  apply reverse_lookup_Some in Hi as [Hi Hil].
  apply reverse_lookup_Some in Hj as [Hj Hjl].
  apply (StronglySorted_lookup _ rl (length rl - S j) (length rl - S i) y x Hg);
    [lia|done..].
Qed.

(** The small library: a [GoLibrary] whose promises are proved. *)
Definition smallLibrary : GoLibrary :=
  {| ToLower := ToLowerASCII;
     ToLower_empty := eq_refl;
     sort_Slice := insertionSort;
     sort_SliceStable := insertionSort;
     sort_Slice_perm := insertionSort_perm;
     sort_Slice_ordered := insertionSort_ordered;
     sort_SliceStable_perm := insertionSort_perm;
     sort_SliceStable_ordered := insertionSort_ordered |}.

(** ** Listing *)

Lemma HasPrefix_spec s pre :
  HasPrefix s pre = true ↔ ∃ post, s = pre +:+ post.
Proof.
  revert s. induction pre as [|c pre IH]; intros s; simpl.
  - split; [intros _; by exists s|done].
  - destruct s as [|a s].
    + split; [done|]. by intros [post ?].
    + rewrite andb_true_iff, IH, Ascii.eqb_eq. split.
      * intros [-> [post ->]]. by exists post.
      * intros [post [= -> ->]]. eauto.
Qed.

Lemma Contains_spec s sub :
  Contains s sub = true ↔ substring_of sub s.
Proof.
  unfold substring_of. induction s as [|a s IH]; simpl.
  - rewrite orb_false_r, HasPrefix_spec. split.
    + intros [post Hp]. by exists "", post.
    + intros (pre & post & Hp). destruct pre; [by exists post|done].
  - rewrite orb_true_iff, HasPrefix_spec, IH. split.
    + intros [[post Hp]|(pre & post & ->)].
      * by exists "", post.
      * by exists (String a pre), post.
    + intros (pre & post & Hp). destruct pre as [|c pre]; simpl in Hp.
      * left. by exists post.
      * right. injection Hp as -> ->. eauto.
Qed.

Lemma existsb_elem_of {A} (f : A → bool) (l : list A) :
  existsb f l = true ↔ ∃ x, x ∈ l ∧ f x = true.
Proof.
  rewrite existsb_exists. by setoid_rewrite list_elem_of_In.
Qed.

Lemma Returned_inj {T} (x y : T) : Returned x = Returned y → x = y.
Proof. by intros [= ->]. Qed.

Section ListingProperties.
Context `{GoLibrary}.
Local Arguments Contains : simpl never.

(** The early returns of [matchFilters] amount to a conjunction. *)
Lemma matchFilters_split b q :
  matchFilters b q =
    match ListQuery.Q q with
    | Some s => Contains (ToLower (Book.Title b)) (ToLower s)
                || Contains (ToLower (default "" (Book.Subtitle b))) (ToLower s)
    | None => true
    end
    && match ListQuery.Author q with
       | Some s => existsb (λ a, Contains (ToLower a) (ToLower s)) (Book.Authors b)
       | None => true
       end
    && match ListQuery.Tag q with
       | Some tag => existsb (λ t, String.eqb t tag) (Book.Tags b)
       | None => true
       end
    && match ListQuery.Year q with
       | Some y => bool_decide (Book.PublishedYear b = Some y)
       | None => true
       end.
Proof.
  unfold matchFilters.
  destruct (ListQuery.Q q), (ListQuery.Author q), (ListQuery.Tag q),
    (ListQuery.Year q), (Book.Subtitle b), (Book.PublishedYear b);
    simpl; rewrite ?ToLower_empty;
    repeat (match goal with
            | |- context [Contains ?x ?y] => destruct (Contains x y)
            | |- context [existsb ?f ?l] => destruct (existsb f l)
            | |- context [Z.eqb ?a ?b] => destruct (Z.eqb_spec a b)
            end; simpl);
    try done;
    symmetry; rewrite ?andb_true_l;
    solve [ apply bool_decide_eq_true_2; congruence
          | apply bool_decide_eq_false_2; congruence ].
Qed.

Lemma matchFilters_spec b q :
  matchFilters b q = true ↔ satisfies_filters b q.
Proof.
  rewrite matchFilters_split. unfold satisfies_filters, ci_substring_of.
  rewrite !andb_true_iff.
  assert (∀ (A : Type) (o : option A) (f : A → bool) (P : A → Prop),
            (∀ a, f a = true ↔ P a) →
            (match o with Some a => f a | None => true end = true ↔
             ∀ a, o = Some a → P a)) as Hopt.
  { intros A o f P Hf. destruct o as [a|].
    - rewrite Hf. split; [by intros ? ? [= <-]|auto].
    - split; [done|auto]. }
  rewrite (Hopt _ (ListQuery.Q q) _
             (λ s, substring_of (ToLower s) (ToLower (Book.Title b)) ∨
                   substring_of (ToLower s) (ToLower (default "" (Book.Subtitle b))))).
  2: { intros s. by rewrite orb_true_iff, !Contains_spec. }
  rewrite (Hopt _ (ListQuery.Author q) _
             (λ s, ∃ a, a ∈ Book.Authors b ∧
                        substring_of (ToLower s) (ToLower a))).
  2: { intros s. rewrite existsb_elem_of. by setoid_rewrite Contains_spec. }
  rewrite (Hopt _ (ListQuery.Tag q) _ (λ t, t ∈ Book.Tags b)).
  2: { intros t. rewrite existsb_elem_of. split.
       - intros (x & Hx & ->%String.eqb_eq). done.
       - intros Ht. exists t. by rewrite String.eqb_refl. }
  rewrite (Hopt _ (ListQuery.Year q) _ (λ y, Book.PublishedYear b = Some y)).
  2: { intros y. apply bool_decide_eq_true. }
  tauto.
Qed.

Lemma sortBooks_perm bs keys : sortBooks bs keys ≡ₚ bs.
Proof.
  unfold sortBooks.
  destruct (len keys =? 0); [apply sort_Slice_perm|apply sort_SliceStable_perm].
Qed.

Lemma filterBooks_elem_of items q b :
  b ∈ filterBooks items q ↔ b ∈ items ∧ matchFilters b q = true.
Proof.
  unfold filterBooks. rewrite !list_elem_of_In. apply filter_In.
Qed.

Lemma filterBooks_length items q : (length (filterBooks items q) ≤ length items)%nat.
Proof. apply List.filter_length_le. Qed.

Lemma snapshot_elem_of r items b :
  snapshot r items → (b ∈ items ↔ ∃ id, byID r !! id = Some b).
Proof.
  unfold snapshot. intros ->. rewrite list_elem_of_fmap. split.
  - intros (x & -> & Hx). rewrite copyBook_id.
    apply list_elem_of_fmap in Hx as ([id x'] & -> & Hx).
    apply elem_of_map_to_list in Hx. eauto.
  - intros (id & Hb). exists b. split; [by rewrite copyBook_id|].
    apply list_elem_of_fmap. exists (id, b). split; [done|].
    by apply elem_of_map_to_list.
Qed.

(** C3: a stored record is among the filtered records that [List] sorts
    and pages exactly when it satisfies every filter the query provides;
    and a page [List] returns counts those records in [Total] and takes
    its [Data] from them. *)
Theorem List_filter_conjunction (r : BookRepo) (items : list Book.t)
    (q : ListQuery.t) (b : Book.t) :
  snapshot r items →
  (b ∈ sortBooks (filterBooks items q) (ListQuery.Sort q) ↔
     (∃ id, byID r !! id = Some b) ∧ satisfies_filters b q) ∧
  (∀ p, ListFrom items q = Returned p →
     Page.Total p = len (sortBooks (filterBooks items q) (ListQuery.Sort q)) ∧
     ∀ b', b' ∈ Page.Data p →
       b' ∈ sortBooks (filterBooks items q) (ListQuery.Sort q)).
Proof.
  intros Hsnap. split.
  - rewrite sortBooks_perm, filterBooks_elem_of, matchFilters_spec.
    by rewrite (snapshot_elem_of r items b Hsnap).
  - intros p. unfold ListFrom.
    set (out := sortBooks (filterBooks items q) (ListQuery.Sort q)).
    cbv zeta.
    destruct (wrap _ <? 0); [done|].
    destruct (negb _); [done|].
    intros Hp%Returned_inj. rewrite <- Hp. cbn [Page.Total Page.Data].
    split; [done|].
    intros b' Hb'. by apply subseteq_take, subseteq_drop in Hb'.
Qed.

Lemma wrap_id z : is_int z → wrap z = z.
Proof.
  unfold is_int, wrap, minInt, maxInt. intros Hz.
  rewrite Z.mod_small; lia.
Qed.

Lemma len_sortBooks bs keys : len (sortBooks bs keys) = len bs.
Proof. unfold len. by rewrite sortBooks_perm. Qed.

Lemma len_filterBooks items q : 0 ≤ len (filterBooks items q) ≤ len items.
Proof. unfold len. pose proof (filterBooks_length items q). lia. Qed.

(** Pagination while the offsets fit in an [int]: with the clamped page
    number [page] and page size [size], if [page * size] does not exceed
    the largest [int], [List] returns the clamped values, the count of the
    filtered records as [Total], and as [Data] the [size] records from
    offset [(page - 1) * size] on, which are none when that offset is at
    or beyond the count. *)
Theorem ListFrom_pagination_in_range (items : list Book.t) (q : ListQuery.t) :
  let page := if ListQuery.Page q <? 1 then 1 else ListQuery.Page q in
  let size := if ListQuery.PageSize q <? 1 then 20 else ListQuery.PageSize q in
  let out := sortBooks (filterBooks items q) (ListQuery.Sort q) in
  len items ≤ maxInt → page * size ≤ maxInt →
  ListFrom items q =
    Returned (Page.mk (take (Z.to_nat size) (drop (Z.to_nat ((page - 1) * size)) out))
                page size (len (filterBooks items q))) ∧
  (len (filterBooks items q) ≤ (page - 1) * size →
     take (Z.to_nat size) (drop (Z.to_nat ((page - 1) * size)) out) = []).
Proof.
  intros page size out Hitems Hfit.
  assert (1 ≤ page) as Hpage by (unfold page; destruct (Z.ltb_spec (ListQuery.Page q) 1); lia).
  assert (1 ≤ size) as Hsize by (unfold size; destruct (Z.ltb_spec (ListQuery.PageSize q) 1); lia).
  pose proof (len_filterBooks items q) as Hf.
  assert (len out = len (filterBooks items q)) as Hout by apply len_sortBooks.
  assert (0 ≤ (page - 1) * size ∧ (page - 1) * size + size ≤ maxInt) as [Hp0 Hp1] by nia.
  assert (length out = Z.to_nat (len out)) as Hlen by (unfold len; lia).
  split.
  - unfold ListFrom. fold out. cbv zeta. fold page size.
    rewrite Hout.
    set (total := len (filterBooks items q)) in *.
    unfold maxInt in *.
    rewrite (wrap_id (page - 1)) by (unfold is_int, minInt, maxInt; nia).
    rewrite (wrap_id ((page - 1) * size)) by (unfold is_int, minInt, maxInt; lia).
    set (P := (page - 1) * size) in *.
    destruct (Z.gtb_spec P total) as [Hgt|Hle].
    + (* the offset is beyond the last record *)
      rewrite (wrap_id (total + size)) by (unfold is_int, minInt, maxInt; lia).
      destruct (Z.gtb_spec (total + size) total); [|lia].
      rewrite Z.sub_diag, (wrap_id 0) by (unfold is_int, minInt, maxInt; lia).
      destruct (Z.ltb_spec 0 0); [lia|].
      destruct (Z.leb_spec 0 total); [|lia].
      destruct (Z.leb_spec total total); [|lia].
      destruct (Z.leb_spec total (len items)); [|lia].
      cbn [andb negb]. do 2 f_equal.
      rewrite (drop_ge out (Z.to_nat total)) by lia.
      rewrite (drop_ge out (Z.to_nat P)) by lia.
      by rewrite !take_nil.
    + rewrite (wrap_id (P + size)) by (unfold is_int, minInt, maxInt; lia).
      destruct (Z.gtb_spec (P + size) total) as [Hlast|Hfull].
      * (* the last, partly filled page *)
        rewrite (wrap_id (total - P)) by (unfold is_int, minInt, maxInt; lia).
        destruct (Z.ltb_spec (total - P) 0); [lia|].
        destruct (Z.leb_spec 0 P); [|lia].
        destruct (Z.leb_spec P total); [|lia].
        destruct (Z.leb_spec total (len items)); [|lia].
        cbn [andb negb]. do 2 f_equal.
        rewrite !take_ge; [done|rewrite length_drop; lia..].
      * (* a full page *)
        replace (P + size - P) with size by lia.
        rewrite (wrap_id size) by (unfold is_int, minInt, maxInt; lia).
        destruct (Z.ltb_spec size 0); [lia|].
        destruct (Z.leb_spec 0 P); [|lia].
        destruct (Z.leb_spec P (P + size)); [|lia].
        destruct (Z.leb_spec (P + size) (len items)); [|lia].
        done.
  - intros Hbeyond. rewrite drop_ge; [apply take_nil|lia].
Qed.

Lemma lessCreatedDesc_weak_order : weak_order lessCreatedDesc.
Proof.
  unfold lessCreatedDesc. split.
  - intros x y. rewrite Z.gtb_gt. intros Hxy.
    destruct (Z.gtb_spec (Book.CreatedAt y) (Book.CreatedAt x)); [lia|done].
  - intros x y z Hyx Hzy.
    destruct (Z.gtb_spec (Book.CreatedAt y) (Book.CreatedAt x)); [done|].
    destruct (Z.gtb_spec (Book.CreatedAt z) (Book.CreatedAt y)); [done|].
    destruct (Z.gtb_spec (Book.CreatedAt z) (Book.CreatedAt x)); [lia|done].
Qed.

Lemma ordered_by_take_drop {A} (less : A → A → bool) (l : list A) (n m : nat) :
  ordered_by less l → ordered_by less (take n (drop m l)).
Proof.
  intros Hl i j x y Hij Hi Hj.
  apply lookup_take_Some in Hi as [Hi _]. apply lookup_take_Some in Hj as [Hj _].
  rewrite lookup_drop in Hi, Hj.
  apply (Hl (m + i)%nat (m + j)%nat); [lia|done..].
Qed.

(** X24: the part of C2 that the default sort does provide: with no sort
    key, the page [List] returns never places a record before one that was
    created later. *)
Theorem List_default_created_descending (items : list Book.t) (q : ListQuery.t)
    (p : Page.t Book.t) :
  ListQuery.Sort q = [] → ListFrom items q = Returned p →
  ∀ (i j : nat) x y, (i < j)%nat →
    Page.Data p !! i = Some x → Page.Data p !! j = Some y →
    Book.CreatedAt y ≤ Book.CreatedAt x.
Proof.
  intros Hsort. unfold ListFrom. rewrite Hsort. cbv zeta.
  destruct (wrap _ <? 0); [done|].
  destruct (negb _); [done|].
  intros Hp%Returned_inj. rewrite <- Hp. cbn [Page.Data].
  intros i j x y Hij Hi Hj.
  assert (lessCreatedDesc y x = false) as Hless.
  { eapply (ordered_by_take_drop lessCreatedDesc); [|exact Hij|exact Hi|exact Hj].
    unfold sortBooks. simpl. apply sort_Slice_ordered, lessCreatedDesc_weak_order. }
  unfold lessCreatedDesc in Hless.
  destruct (Z.gtb_spec (Book.CreatedAt y) (Book.CreatedAt x)); [done|lia].
Qed.

Lemma sortBooks_singleton b keys : sortBooks [b] keys = [b].
Proof. apply Permutation_singleton_r, sortBooks_perm. Qed.

(** C4 fails where the offsets leave the range of [int]: on a store of
    one record, page 2 with the largest page size (the end offset
    [1 + 9223372036854775807] wraps to a negative number) and page
    [2^62 + 1] with page size 2 (the start offset [2^62 * 2] wraps to a
    negative number) make [List] panic instead of returning an empty
    page with [Total = 1]. *)
Theorem List_panics_when_offsets_overflow :
  reachable (repo_of [bk "b1" None 0]) ∧
  List (repo_of [bk "b1" None 0]) (listAll 2 9223372036854775807) Panicked ∧
  List (repo_of [bk "b1" None 0]) (listAll 4611686018427387905 2) Panicked.
Proof.
  split; [apply reachable_Create, reachable_new|].
  split.
  - exists [bk "b1" None 0]. split; [by vm_compute|].
    unfold ListFrom.
    replace (filterBooks [bk "b1" None 0] (listAll 2 9223372036854775807))
      with [bk "b1" None 0] by reflexivity.
    rewrite sortBooks_singleton. vm_compute. reflexivity.
  - exists [bk "b1" None 0]. split; [by vm_compute|].
    unfold ListFrom.
    replace (filterBooks [bk "b1" None 0] (listAll 4611686018427387905 2))
      with [bk "b1" None 0] by reflexivity.
    rewrite sortBooks_singleton. vm_compute. reflexivity.
Qed.

End ListingProperties.

(** C2 fails on records created at the same instant: the default sort
    compares creation times only, so such records leave [List] in the
    order in which the snapshot produced them.  On the store holding
    [book_a] and [book_b], both created at instant 1000, neither record
    is less than the other for the default sort; one run returns [book_b]
    before [book_a] although ["a"] is the smaller identifier, and another
    run returns the opposite order. *)
Theorem List_default_ties_follow_snapshot :
  Book.CreatedAt book_a = Book.CreatedAt book_b ∧
  String.ltb (Book.ID book_a) (Book.ID book_b) = true ∧
  lessCreatedDesc book_a book_b = false ∧
  lessCreatedDesc book_b book_a = false ∧
  reachable (repo_of [book_a; book_b]) ∧
  List (H := smallLibrary) (repo_of [book_a; book_b]) (listAll 1 20)
    (Returned (Page.mk [book_b; book_a] 1 20 2)) ∧
  List (H := smallLibrary) (repo_of [book_a; book_b]) (listAll 1 20)
    (Returned (Page.mk [book_a; book_b] 1 20 2)).
Proof.
  do 4 (split; [reflexivity|]).
  split; [do 2 apply reachable_Create; apply reachable_new|].
  split.
  - exists [book_b; book_a]. split; [|vm_compute; reflexivity].
    unfold snapshot. vm_compute. first [reflexivity|apply Permutation_swap].
  - exists [book_a; book_b]. split; [|vm_compute; reflexivity].
    unfold snapshot. vm_compute. first [reflexivity|apply Permutation_swap].
Qed.

Lemma ListFrom_pagination_in_range_witness :
  ListFrom (H := smallLibrary) seed (listAll 3 2)
  = Returned (Page.mk [] 3 2 4).
Proof.
  destruct (ListFrom_pagination_in_range (H := smallLibrary) seed (listAll 3 2))
    as [Hret Hempty].
  - vm_compute. discriminate.
  - vm_compute. discriminate.
  - rewrite Hret, Hempty; [reflexivity|].
    vm_compute. discriminate.
Defined.

Lemma List_default_created_descending_witness :
  Book.CreatedAt goProgrammingLanguage ≤ Book.CreatedAt domainDrivenDesign.
Proof.
  apply (List_default_created_descending (H := smallLibrary) seed (listAll 1 20)
           (Page.mk [domainDrivenDesign; cleanArchitectureBook;
                     goProgrammingLanguage; goInAction] 1 20 4)
           eq_refl ltac:(vm_compute; reflexivity) 0%nat 2%nat);
    [lia|reflexivity|reflexivity].
Defined.

Lemma List_filter_conjunction_witness :
  satisfies_filters (H := smallLibrary) goProgrammingLanguage (byAuthor "alan") ∧
  ¬ satisfies_filters (H := smallLibrary) goInAction (byAuthor "alan").
Proof.
  assert (snapshot (repo_of [goInAction; goProgrammingLanguage])
            [goInAction; goProgrammingLanguage]) as Hsnap.
  { unfold snapshot. vm_compute. first [reflexivity|apply Permutation_swap]. }
  split.
  - apply (proj1 (List_filter_conjunction
                    (repo_of [goInAction; goProgrammingLanguage])
                    [goInAction; goProgrammingLanguage] (byAuthor "alan")
                    goProgrammingLanguage Hsnap)).
    apply list_elem_of_In. vm_compute. auto.
  - intros Hsat.
    assert (goInAction ∈ sortBooks (H := smallLibrary)
              (filterBooks (H := smallLibrary)
                 [goInAction; goProgrammingLanguage] (byAuthor "alan")) [])
      as Hin.
    { apply (proj1 (List_filter_conjunction
                      (repo_of [goInAction; goProgrammingLanguage])
                      [goInAction; goProgrammingLanguage] (byAuthor "alan")
                      goInAction Hsnap)).
      split; [|exact Hsat]. exists "b1". vm_compute. reflexivity. }
    apply list_elem_of_In in Hin. vm_compute in Hin.
    destruct Hin as [Hin|[]]. discriminate Hin.
Defined.

(** ** The catalog service *)

Lemma rejects_spec i : rejects i = true ↔ violates i.
Proof.
  unfold rejects, violates.
  set (t := if negb (CreateBookInput.Enrich i) || _ then _ else false).
  set (p := match CreateBookInput.PageCount i with Some _ => _ | None => _ end).
  set (y := match CreateBookInput.PublishedYear i with Some _ => _ | None => _ end).
  assert (t = true ↔ title_violation i) as Ht.
  { unfold t, title_violation.
    destruct (CreateBookInput.Enrich i), (CreateBookInput.ISBN i) as [isbn|],
      (CreateBookInput.Title i) as [ti|]; simpl; rewrite ?String.eqb_eq;
      (split; [intros Hx; subst; split; [|by auto]; try by intros [? [? ?]]
              |intros [Hno [?|?]]; simplify_eq; try done]).
    all: destruct Hno; eauto. }
  assert (p = true ↔ page_count_violation i) as Hp.
  { unfold p, page_count_violation.
    destruct (CreateBookInput.PageCount i) as [pc|].
    - rewrite Z.ltb_lt. split; [eauto|]. by intros (p' & [= <-] & ?).
    - split; [done|]. by intros (p' & ? & ?). }
  assert (y = true ↔ published_year_violation i) as Hy.
  { unfold y, published_year_violation.
    destruct (CreateBookInput.PublishedYear i) as [py|].
    - rewrite orb_true_iff, Z.ltb_lt, Z.gtb_gt. split.
      + intros Hy. exists py. split; [done|lia].
      + intros (y' & [= <-] & ?). lia.
    - split; [done|]. by intros (y' & ? & ?). }
  rewrite !orb_true_iff. tauto.
Qed.

(** Each step of [merge] sets one field, to the value the record has or,
    when it has none, to the value of the enrichment result. *)
Lemma merge_Title dst (et : option string) :
  match et with
  | Some t => if String.eqb (Book.Title dst) "" then set_Title dst t else dst
  | None => dst
  end =
  set_Title dst (if String.eqb (Book.Title dst) "" then default "" et
                 else Book.Title dst).
Proof.
  destruct dst, et; unfold set_Title; simpl;
    match goal with |- context [String.eqb ?t ""] =>
      destruct (String.eqb_spec t "") end; subst; reflexivity.
Qed.

Lemma merge_Subtitle dst (es : option string) :
  match Book.Subtitle dst, es with
  | None, Some v => set_Subtitle dst (Some v)
  | _, _ => dst
  end =
  set_Subtitle dst (match Book.Subtitle dst with Some v => Some v | None => es end).
Proof. by destruct dst as [? ? ? [?|] ? ? ? ? ? ? ? ?], es. Qed.

Lemma merge_PublishedYear dst (ey : option Z) :
  match Book.PublishedYear dst, ey with
  | None, Some v => set_PublishedYear dst (Some v)
  | _, _ => dst
  end =
  set_PublishedYear dst
    (match Book.PublishedYear dst with Some v => Some v | None => ey end).
Proof. by destruct dst as [? ? ? ? [?|] ? ? ? ? ? ? ?], ey. Qed.

Lemma merge_PageCount dst (ep : option Z) :
  match Book.PageCount dst, ep with
  | None, Some v => set_PageCount dst (Some v)
  | _, _ => dst
  end =
  set_PageCount dst
    (match Book.PageCount dst with Some v => Some v | None => ep end).
Proof. by destruct dst as [? ? ? ? ? [?|] ? ? ? ? ? ?], ep. Qed.

Lemma merge_CoverURL dst (ec : option string) :
  match Book.CoverURL dst, ec with
  | None, Some v => set_CoverURL dst (Some v)
  | _, _ => dst
  end =
  set_CoverURL dst
    (match Book.CoverURL dst with Some v => Some v | None => ec end).
Proof. by destruct dst as [? ? ? ? ? ? [?|] ? ? ? ? ?], ec. Qed.

Lemma merge_Authors dst (ea : list string) :
  (if (len (Book.Authors dst) =? 0) && (len ea >? 0)
   then set_Authors dst (cloneStrings ea) else dst) =
  set_Authors dst
    (match Book.Authors dst with [] => ea | _ :: _ => Book.Authors dst end).
Proof. by destruct dst as [? ? ? ? ? ? ? ? [|? ?] ? ? ?], ea. Qed.

(** [merge], field by field. *)
Lemma merge_spec dst e :
  Book.Title (merge dst e) =
    (if String.eqb (Book.Title dst) "" then default "" (EnrichedBook.Title e)
     else Book.Title dst) ∧
  Book.Subtitle (merge dst e) =
    match Book.Subtitle dst with
    | Some v => Some v
    | None => EnrichedBook.Subtitle e
    end ∧
  Book.PublishedYear (merge dst e) =
    match Book.PublishedYear dst with
    | Some v => Some v
    | None => EnrichedBook.PublishedYear e
    end ∧
  Book.PageCount (merge dst e) =
    match Book.PageCount dst with
    | Some v => Some v
    | None => EnrichedBook.PageCount e
    end ∧
  Book.CoverURL (merge dst e) =
    match Book.CoverURL dst with
    | Some v => Some v
    | None => EnrichedBook.CoverURL e
    end ∧
  Book.Authors (merge dst e) =
    match Book.Authors dst with
    | [] => EnrichedBook.Authors e
    | _ :: _ => Book.Authors dst
    end ∧
  Book.ID (merge dst e) = Book.ID dst ∧
  Book.ISBN (merge dst e) = Book.ISBN dst ∧
  Book.Tags (merge dst e) = Book.Tags dst ∧
  Book.Enrichment (merge dst e) = Book.Enrichment dst ∧
  Book.CreatedAt (merge dst e) = Book.CreatedAt dst ∧
  Book.UpdatedAt (merge dst e) = Book.UpdatedAt dst.
Proof.
  unfold merge.
  rewrite merge_Title. cbv zeta.
  rewrite merge_Subtitle, merge_PublishedYear, merge_PageCount,
    merge_CoverURL, merge_Authors.
  repeat split; reflexivity.
Qed.

Lemma enrich_skipped env i b :
  CreateBookInput.Enrich i = false ∨ CreateBookInput.ISBN i = None ∨
    CreateBookInput.ISBN i = Some "" →
  enrich env i b = Ok b.
Proof.
  unfold enrich. intros [He|[Hi|Hi]].
  - destruct (CreateBookInput.ISBN i); [|done]. by rewrite He.
  - by rewrite Hi.
  - rewrite Hi. simpl. by rewrite andb_false_r.
Qed.

Lemma enrich_looked_up env i b isbn :
  CreateBookInput.Enrich i = true → CreateBookInput.ISBN i = Some isbn →
  isbn ≠ "" →
  enrich env i b =
    match FetchByISBN env isbn with
    | Err _ =>
      if CreateBookInput.RequireEnrichment i then Err ErrUpstream
      else Ok (set_Enrichment b (attempted isbn EnrichmentPartial))
    | Ok res =>
      Ok (set_Enrichment
            (merge (set_Enrichment b
                      (attempted isbn (EnrichmentMeta.Status (Book.Enrichment b)))) res)
            (attempted isbn EnrichmentOK))
    end.
Proof.
  intros He Hi Hne. unfold enrich. rewrite Hi, He.
  apply String.eqb_neq in Hne. rewrite Hne. simpl.
  destruct (FetchByISBN env isbn) as [res|msg].
  - f_equal. unfold set_Status, attempted. cbv zeta.
    match goal with |- context [merge ?d res] =>
      destruct (merge_spec d res) as (_ & _ & _ & _ & _ & _ & _ & _ & _ & -> & _)
    end.
    done.
  - by destruct (CreateBookInput.RequireEnrichment i).
Qed.

(** Whatever the enrichment step does, it keeps the identifier and the
    ISBN of the record. *)
Lemma enrich_keeps_keys env i b b' :
  enrich env i b = Ok b' →
  Book.ID b' = Book.ID b ∧ Book.ISBN b' = Book.ISBN b.
Proof.
  unfold enrich.
  destruct (CreateBookInput.ISBN i) as [isbn|]; [|by intros [= <-]].
  destruct (_ && _); [|by intros [= <-]].
  destruct (FetchByISBN env isbn) as [res|msg].
  - intros [= <-]. unfold set_Status; simpl.
    match goal with |- context [merge ?d res] =>
      destruct (merge_spec d res) as (_ & _ & _ & _ & _ & _ & -> & -> & _) end.
    done.
  - destruct (CreateBookInput.RequireEnrichment i); [done|].
    by intros [= <-].
Qed.

(** The result of [CreateBook], read backwards: it succeeded only if the
    input passed validation and the enrichment step gave the record that
    is returned, and then that record is stored under its identifier. *)
Lemma CreateBook_Ok_inv r env i r' out :
  CreateBook r env i = (r', Ok out) →
  rejects i = false ∧ enrich env i (construct env i) = Ok out ∧
  byID r' = <[uuid_NewString env := out]> (byID r).
Proof.
  unfold CreateBook.
  destruct (rejects i); [done|].
  destruct (enrich env i (construct env i)) as [b|e] eqn:He; [|done].
  destruct (enrich_keeps_keys _ _ _ _ He) as [Hid _]. simpl in Hid.
  match goal with |- context [if ?d then _ else _] => destruct d end; [done|].
  destruct (Create_cases r b)
    as [[-> _]|[(_ & _ & k & _ & _ & _ & ->)|(_ & _ & _ & ->)]];
    [done|..]; intros [= <- <-]; simpl; by rewrite Hid.
Qed.

(** The result of [CreateBook], read forwards: when the input passes
    validation, the enrichment step gives [b], the identifier is fresh and
    the normalized ISBN is not indexed, [b] is stored and returned. *)
Lemma CreateBook_persists r env i b :
  rejects i = false → enrich env i (construct env i) = Ok b →
  fresh_id r env →
  (∀ isbn, CreateBookInput.ISBN i = Some isbn → isbn ≠ "" →
     byISBN r !! normalizeISBN isbn = None) →
  CreateBook r env i =
    (mkRepo (<[uuid_NewString env := b]> (byID r))
       (match CreateBookInput.ISBN i with
        | Some isbn =>
          if String.eqb (normalizeISBN isbn) "" then byISBN r
          else <[normalizeISBN isbn := uuid_NewString env]> (byISBN r)
        | None => byISBN r
        end),
     Ok b).
Proof.
  intros Hrej He [Hne Hfree] Hidx. unfold CreateBook. rewrite Hrej, He.
  destruct (enrich_keeps_keys _ _ _ _ He) as [Hid Hisbn]. simpl in Hid, Hisbn.
  rewrite Hisbn.
  assert (match CreateBookInput.ISBN i with
          | Some isbn =>
            if negb (String.eqb isbn "") then
              match GetByISBN r isbn with Ok _ => true | Err _ => false end
            else false
          | None => false
          end = false) as ->.
  { destruct (CreateBookInput.ISBN i) as [isbn|]; [|done].
    destruct (String.eqb_spec isbn ""); [done|]. simpl.
    unfold GetByISBN. by rewrite (Hidx isbn). }
  unfold Create. rewrite copyBook_id, Hid, Hisbn, Hfree.
  apply String.eqb_neq in Hne. rewrite Hne.
  destruct (CreateBookInput.ISBN i) as [isbn|]; [|done].
  destruct (String.eqb_spec (normalizeISBN isbn) "") as [Hk|Hk]; simpl; [done|].
  rewrite (Hidx isbn); [done..|]. by intros ->.
Qed.

Lemma enrich_Err env i b e : enrich env i b = Err e → e = ErrUpstream.
Proof.
  unfold enrich.
  destruct (CreateBookInput.ISBN i) as [isbn|]; [|done].
  destruct (_ && _); [|done].
  destruct (FetchByISBN env isbn); [done|].
  destruct (CreateBookInput.RequireEnrichment i); [|done].
  by intros [= <-].
Qed.

Lemma in_range_not_rejected i :
  CreateBookInput.Enrich i = true → is_Some (CreateBookInput.ISBN i) →
  numbers_in_range i → rejects i = false.
Proof.
  intros He Hi [Hp Hy]. apply not_true_is_false. rewrite rejects_spec.
  intros [[Hno _]|[(p & Hpc & ?)|(y & Hpy & Hbad)]].
  - by apply Hno.
  - specialize (Hp p Hpc). lia.
  - by apply Hbad, Hy.
Qed.

(** C5: [CreateBook] fails with the validation error exactly when the
    input violates one of the three rules (a title, unless enrichment is
    requested and an ISBN is given; a page count of at least 1; a
    published year within [1450, 3000]); and then the repository is left
    as it was. *)
Theorem CreateBook_validation (r : BookRepo) (env : Env) (i : CreateBookInput.t) :
  ((CreateBook r env i).2 = Err ErrValidation ↔ violates i) ∧
  (violates i ↔ CreateBook r env i = (r, Err ErrValidation)).
Proof.
  rewrite <- rejects_spec. unfold CreateBook.
  destruct (rejects i); [done|].
  destruct (enrich env i (construct env i)) as [b|e] eqn:He.
  - match goal with |- context [if ?d then _ else _] => destruct d end; [done|].
    destruct (Create r b) as [r' [created|e]]; done.
  - apply enrich_Err in He as ->. done.
Qed.

(** C6: the merge is caller-wins and fills only what is missing.
    (1) For every record and every enrichment result, [merge] keeps each
    of title, subtitle, published year, page count, cover URL and authors
    that the record has, fills each one it lacks from the result, and
    touches nothing else.  (2) When [CreateBook] enriches with a
    successful lookup and returns a record, it is the record built from
    the input, merged with the result in this way, with status [ok]; a
    non-empty title of the caller is the title of that record.  (3) On a
    fresh identifier and an ISBN that is not indexed, [CreateBook] does
    return and store it. *)
Theorem CreateBook_merge_caller_wins :
  (∀ dst e,
     Book.Title (merge dst e) =
       (if String.eqb (Book.Title dst) "" then default "" (EnrichedBook.Title e)
        else Book.Title dst) ∧
     Book.Subtitle (merge dst e) =
       match Book.Subtitle dst with
       | Some v => Some v | None => EnrichedBook.Subtitle e end ∧
     Book.PublishedYear (merge dst e) =
       match Book.PublishedYear dst with
       | Some v => Some v | None => EnrichedBook.PublishedYear e end ∧
     Book.PageCount (merge dst e) =
       match Book.PageCount dst with
       | Some v => Some v | None => EnrichedBook.PageCount e end ∧
     Book.CoverURL (merge dst e) =
       match Book.CoverURL dst with
       | Some v => Some v | None => EnrichedBook.CoverURL e end ∧
     Book.Authors (merge dst e) =
       match Book.Authors dst with
       | [] => EnrichedBook.Authors e | _ :: _ => Book.Authors dst end ∧
     Book.ID (merge dst e) = Book.ID dst ∧
     Book.ISBN (merge dst e) = Book.ISBN dst ∧
     Book.Tags (merge dst e) = Book.Tags dst ∧
     Book.Enrichment (merge dst e) = Book.Enrichment dst ∧
     Book.CreatedAt (merge dst e) = Book.CreatedAt dst ∧
     Book.UpdatedAt (merge dst e) = Book.UpdatedAt dst) ∧
  (∀ r env i isbn e r' out,
     CreateBookInput.Enrich i = true → CreateBookInput.ISBN i = Some isbn →
     isbn ≠ "" → FetchByISBN env isbn = Ok e →
     CreateBook r env i = (r', Ok out) →
     out = set_Enrichment
             (merge (set_Enrichment (construct env i)
                       (attempted isbn EnrichmentNotRequested)) e)
             (attempted isbn EnrichmentOK) ∧
     byID r' !! Book.ID out = Some out ∧
     EnrichmentMeta.Status (Book.Enrichment out) = EnrichmentOK ∧
     (∀ t, CreateBookInput.Title i = Some t → t ≠ "" → Book.Title out = t) ∧
     (CreateBookInput.Title i = None ∨ CreateBookInput.Title i = Some "" →
        Book.Title out = default "" (EnrichedBook.Title e))) ∧
  (∀ r env i isbn e,
     CreateBookInput.Enrich i = true → CreateBookInput.ISBN i = Some isbn →
     isbn ≠ "" → FetchByISBN env isbn = Ok e →
     numbers_in_range i → fresh_id r env →
     byISBN r !! normalizeISBN isbn = None →
     ∃ r' out, CreateBook r env i = (r', Ok out)).
Proof.
  split; [exact merge_spec|]. split.
  - intros r env i isbn e r' out He Hi Hne Hf Hc.
    apply CreateBook_Ok_inv in Hc as (_ & Hen & Hr').
    rewrite (enrich_looked_up env i _ isbn He Hi Hne), Hf in Hen.
    injection Hen as <-. simpl (EnrichmentMeta.Status _).
    split; [done|]. split.
    { rewrite Hr'. cbn [set_Enrichment Book.ID].
      match goal with |- context [merge ?d e] =>
        destruct (merge_spec d e) as (_ & _ & _ & _ & _ & _ & -> & _) end.
      simpl. apply lookup_insert_eq. }
    split; [done|].
    cbn [set_Enrichment Book.Title].
    match goal with |- context [merge ?d e] =>
      destruct (merge_spec d e) as (-> & _) end.
    simpl. split.
    + intros t -> Ht. simpl. apply String.eqb_neq in Ht. by rewrite Ht.
    + by intros [->| ->].
  - intros r env i isbn e He Hi Hne Hf Hrange Hfresh Hidx.
    eexists _, _. apply CreateBook_persists; [|by rewrite (enrich_looked_up env i _ isbn He Hi Hne), Hf|done|].
    + apply in_range_not_rejected; [done|by rewrite Hi|done].
    + intros isbn' Hi' _. congruence.
Qed.

Lemma CreateBook_merge_caller_wins_witness :
  Book.Title
    (set_Enrichment
       (merge (set_Enrichment
                 (construct envHit
                    (input (Some "9780134494166") (Some "Fallback Title") None true false))
                 (attempted "9780134494166" EnrichmentNotRequested))
              cleanArchitecture)
       (attempted "9780134494166" EnrichmentOK))
  = "Fallback Title".
Proof.
  destruct (proj1 (proj2 CreateBook_merge_caller_wins) NewBookRepo envHit
              (input (Some "9780134494166") (Some "Fallback Title") None true false)
              "9780134494166" cleanArchitecture
              (CreateBook NewBookRepo envHit
                 (input (Some "9780134494166") (Some "Fallback Title") None true false)).1
              (set_Enrichment
                 (merge (set_Enrichment
                           (construct envHit
                              (input (Some "9780134494166") (Some "Fallback Title") None true false))
                           (attempted "9780134494166" EnrichmentNotRequested))
                        cleanArchitecture)
                 (attempted "9780134494166" EnrichmentOK)))
    as (_ & _ & _ & Ht & _).
  - reflexivity.
  - reflexivity.
  - discriminate.
  - reflexivity.
  - vm_compute; reflexivity.
  - apply Ht; [reflexivity|discriminate].
Defined.

(** When the lookup is made: the input has passed validation, enrichment
    is requested and the ISBN is present and not empty. *)
Lemma lookedUp_Some i isbn :
  lookedUp i = Some isbn ↔
  rejects i = false ∧ CreateBookInput.Enrich i = true ∧
  CreateBookInput.ISBN i = Some isbn ∧ isbn ≠ "".
Proof.
  unfold lookedUp. destruct (rejects i); [split; [done|by intros [? _]]|].
  destruct (CreateBookInput.ISBN i) as [s|]; [|split; [done|by intros (_ & _ & ? & _)]].
  destruct (CreateBookInput.Enrich i); simpl;
    [|split; [done|by intros (_ & ? & _)]].
  destruct (String.eqb_spec s ""); simpl.
  - split; [done|]. intros (_ & _ & [= <-] & ?). done.
  - split; [by intros [= <-]|]. by intros (_ & _ & [= <-] & _).
Qed.

(** [lookedUp] is the one place where a call of [CreateBook] reads the
    enrichment client: two clients that agree there give the same call. *)
Lemma CreateBook_reads_lookedUp r env i (client : string → result string EnrichedBook.t) :
  (∀ isbn, lookedUp i = Some isbn → client isbn = FetchByISBN env isbn) →
  CreateBook r (mkEnv (uuid_NewString env) (time_Now_created env)
                  (time_Now_updated env) client) i
  = CreateBook r env i.
Proof.
  intros Hsame. unfold CreateBook.
  destruct (rejects i) eqn:Hrej; [done|].
  assert (enrich (mkEnv (uuid_NewString env) (time_Now_created env)
                    (time_Now_updated env) client) i
            (construct (mkEnv (uuid_NewString env) (time_Now_created env)
                          (time_Now_updated env) client) i)
          = enrich env i (construct env i)) as ->; [|done].
  unfold construct, enrich. cbn [uuid_NewString time_Now_created time_Now_updated FetchByISBN].
  destruct (CreateBookInput.ISBN i) as [isbn|] eqn:Hi; [|done].
  destruct (CreateBookInput.Enrich i && negb (isbn =? "")%string) eqn:Hlook; [|done].
  rewrite Hsame; [done|].
  unfold lookedUp. by rewrite Hrej, Hi, Hlook.
Qed.

(** C7: for an input with enrichment requested and required and a present
    non-empty ISBN, if the enrichment lookup fails, that is, the call
    makes the lookup (which it does once the input has passed validation)
    and the client answers it with an error, then [CreateBook] returns the
    upstream error and leaves the repository as it was, so that [GetBook]
    and [ListBooks] answer afterwards as they did before. *)
Theorem CreateBook_required_enrichment_failure (r : BookRepo) (env : Env)
    (i : CreateBookInput.t) (isbn msg : string) :
  CreateBookInput.Enrich i = true →
  CreateBookInput.RequireEnrichment i = true →
  CreateBookInput.ISBN i = Some isbn → isbn ≠ "" →
  lookedUp i = Some isbn → FetchByISBN env isbn = Err msg →
  CreateBook r env i = (r, Err ErrUpstream) ∧
  (∀ id, GetBook (CreateBook r env i).1 id = GetBook r id) ∧
  (∀ (H : GoLibrary) q p,
     ListBooks (CreateBook r env i).1 q p ↔ ListBooks r q p).
Proof.
  intros He Hreq Hi Hne Hlook Hf.
  apply lookedUp_Some in Hlook as (Hrej & _).
  assert (CreateBook r env i = (r, Err ErrUpstream)) as Hc.
  { unfold CreateBook. rewrite Hrej.
    by rewrite (enrich_looked_up env i _ isbn He Hi Hne), Hf, Hreq. }
  rewrite Hc. done.
Qed.

Lemma CreateBook_required_enrichment_failure_witness :
  CreateBook NewBookRepo envMiss (input (Some "9780134494166") None None true true)
  = (NewBookRepo, Err ErrUpstream).
Proof.
  apply (CreateBook_required_enrichment_failure NewBookRepo envMiss
           (input (Some "9780134494166") None None true true)
           "9780134494166" "miss").
  - reflexivity.
  - reflexivity.
  - reflexivity.
  - discriminate.
  - reflexivity.
  - reflexivity.
Defined.

(** C8: for an input with enrichment requested but not required and a
    present non-empty ISBN, if the enrichment lookup fails, that is, the
    call makes the lookup and the client answers it with an error, and
    nothing conflicts (the identifier is fresh and the normalized ISBN is
    not indexed), then [CreateBook] succeeds: it stores and returns the
    record exactly as built from the input, with the enrichment marked
    attempted, status [partial], and the title the caller gave. *)
Theorem CreateBook_optional_enrichment_failure (r : BookRepo) (env : Env)
    (i : CreateBookInput.t) (isbn msg : string) :
  CreateBookInput.Enrich i = true →
  CreateBookInput.RequireEnrichment i = false →
  CreateBookInput.ISBN i = Some isbn → isbn ≠ "" →
  lookedUp i = Some isbn → FetchByISBN env isbn = Err msg →
  fresh_id r env → byISBN r !! normalizeISBN isbn = None →
  ∃ r' out,
    CreateBook r env i = (r', Ok out) ∧
    out = set_Enrichment (construct env i) (attempted isbn EnrichmentPartial) ∧
    byID r' !! uuid_NewString env = Some out ∧
    GetBook r' (uuid_NewString env) = Ok out ∧
    EnrichmentMeta.Status (Book.Enrichment out) = EnrichmentPartial ∧
    EnrichmentMeta.Attempted (Book.Enrichment out) = true ∧
    Book.Title out = valueOr (CreateBookInput.Title i) "" ∧
    (∀ t, CreateBookInput.Title i = Some t → Book.Title out = t).
Proof.
  intros He Hreq Hi Hne Hlook Hf Hfresh Hidx.
  apply lookedUp_Some in Hlook as (Hrej & _).
  eexists _, _. split.
  - apply CreateBook_persists; [done| |done|].
    + by rewrite (enrich_looked_up env i _ isbn He Hi Hne), Hf, Hreq.
    + intros isbn' Hi' _. congruence.
  - split; [done|]. split; [apply lookup_insert_eq|].
    split.
    { unfold GetBook, GetByID; simpl. by rewrite lookup_insert_eq, copyBook_id. }
    repeat split. intros t Ht. simpl. by rewrite Ht.
Qed.

Lemma CreateBook_optional_enrichment_failure_witness :
  ∃ r' out,
    CreateBook NewBookRepo envMiss
      (input (Some "9780134494166") (Some "Fallback Title") None true false)
    = (r', Ok out) ∧
    Book.Title out = "Fallback Title" ∧
    EnrichmentMeta.Status (Book.Enrichment out) = EnrichmentPartial.
Proof.
  destruct (CreateBook_optional_enrichment_failure NewBookRepo envMiss
              (input (Some "9780134494166") (Some "Fallback Title") None true false)
              "9780134494166" "miss")
    as (r' & out & Hc & _ & _ & _ & Hs & _ & _ & Ht).
  - reflexivity.
  - reflexivity.
  - reflexivity.
  - discriminate.
  - reflexivity.
  - reflexivity.
  - split; [discriminate|reflexivity].
  - reflexivity.
  - exists r', out. split; [exact Hc|]. split; [by apply Ht|exact Hs].
Defined.

(** C10, as stated, fails on an input that carries a title: with
    enrichment requested, the ISBN [""] and the title ["X"], the record
    [CreateBook] stores has the title ["X"], not the empty string. *)
Lemma CreateBook_empty_ISBN_keeps_title :
  ¬ (∀ r env i,
       CreateBookInput.Enrich i = true → CreateBookInput.ISBN i = Some "" →
       numbers_in_range i → fresh_id r env →
       ∃ r' out, CreateBook r env i = (r', Ok out) ∧ Book.Title out = "" ∧
                 Book.Enrichment out = meta0).
Proof.
  intros Hall.
  assert (numbers_in_range (input (Some "") (Some "X") None true false)) as Hrange
    by (split; intros ? [=]).
  assert (fresh_id NewBookRepo envMiss) as Hfresh by (split; [discriminate|reflexivity]).
  destruct (Hall NewBookRepo envMiss (input (Some "") (Some "X") None true false)
              eq_refl eq_refl Hrange Hfresh)
    as (r' & out & Hc & Ht & _).
  vm_compute in Hc. injection Hc as _ <-. discriminate Ht.
Qed.

(** C10 (amended): for an input with enrichment requested and an ISBN
    that is present but empty, whose page count and published year are
    absent or within bounds, [CreateBook] asks for no title and makes no
    lookup (its result does not depend on the enrichment client); on a
    fresh identifier it succeeds, leaves the ISBN index as it was, and
    stores the record built from the input: the title is the one the
    caller gave, the empty string when there is none, and the enrichment
    metadata is still [attempted = false], [status = not_requested]. *)
Theorem CreateBook_empty_ISBN (r : BookRepo) (env : Env) (i : CreateBookInput.t) :
  CreateBookInput.Enrich i = true → CreateBookInput.ISBN i = Some "" →
  numbers_in_range i → fresh_id r env →
  rejects i = false ∧
  (∀ fetch,
     CreateBook r (mkEnv (uuid_NewString env) (time_Now_created env)
                     (time_Now_updated env) fetch) i
     = CreateBook r env i) ∧
  ∃ r' out,
    CreateBook r env i = (r', Ok out) ∧
    out = construct env i ∧
    byID r' !! uuid_NewString env = Some out ∧
    byISBN r' = byISBN r ∧
    Book.Title out = valueOr (CreateBookInput.Title i) "" ∧
    (CreateBookInput.Title i = None ∨ CreateBookInput.Title i = Some "" →
       Book.Title out = "") ∧
    Book.Enrichment out = EnrichmentMeta.mk false "" EnrichmentNotRequested "".
Proof.
  intros He Hi Hrange Hfresh.
  assert (rejects i = false) as Hrej
    by (apply in_range_not_rejected; [done|by rewrite Hi|done]).
  split; [done|]. split.
  { intros fetch. unfold CreateBook. rewrite Hrej.
    rewrite !enrich_skipped by auto. reflexivity. }
  eexists _, _. split.
  - apply CreateBook_persists; [done|by apply enrich_skipped; auto|done|].
    intros isbn' Hi' Hne'. congruence.
  - rewrite Hi. simpl. split; [done|]. split; [apply lookup_insert_eq|].
    repeat split. by intros [->| ->].
Qed.

Lemma CreateBook_empty_ISBN_witness :
  ∃ r' out,
    CreateBook NewBookRepo envHit (input (Some "") None None true false)
    = (r', Ok out) ∧
    Book.Title out = "" ∧ Book.Enrichment out = meta0.
Proof.
  destruct (CreateBook_empty_ISBN NewBookRepo envHit
              (input (Some "") None None true false))
    as (_ & _ & r' & out & Hc & _ & _ & _ & _ & Ht & Hm).
  - reflexivity.
  - reflexivity.
  - split; intros ? [=].
  - split; [discriminate|reflexivity].
  - exists r', out. split; [exact Hc|]. split; [apply Ht; by left|exact Hm].
Defined.

(** ** The tests of the repository, replayed on the embedding *)

Example TestCreateAndGet :
  GetByID (repo_of [bk "b1" (Some "978-0-12-345678-9") 1000]) "b1"
    = Ok (bk "b1" (Some "978-0-12-345678-9") 1000) ∧
  GetByISBN (repo_of [bk "b1" (Some "978-0-12-345678-9") 1000]) "9780123456789"
    = Ok (bk "b1" (Some "978-0-12-345678-9") 1000).
Proof. split; vm_compute; reflexivity. Qed.

Example TestDuplicateISBN :
  (Create (repo_of [bk "b1" (Some "978-1-23-000000-0") 0])
          (bk "b2" (Some "9781230000000") 0)).2 = Err errConflict.
Proof. vm_compute; reflexivity. Qed.

Example TestListFiltersAndPagination :
  idsOf (ListFrom (H := smallLibrary) seed (byText "go")) = Some ["b2"; "b1"] ∧
  idsOf (ListFrom (H := smallLibrary) seed (byAuthor "alan")) = Some ["b2"] ∧
  idsOf (ListFrom (H := smallLibrary) seed (byTag "ddd")) = Some ["b4"] ∧
  totalOf (ListFrom (H := smallLibrary) seed (listAll 1 2)) = Some 4 ∧
  idsOf (ListFrom (H := smallLibrary) seed (listAll 1 2)) = Some ["b4"; "b3"] ∧
  idsOf (ListFrom (H := smallLibrary) seed (listAll 2 2)) = Some ["b2"; "b1"] ∧
  idsOf (ListFrom (H := smallLibrary) seed (listAll 3 2)) = Some [] ∧
  idsOf (ListFrom (H := smallLibrary) seed (listAll 0 0)) = Some ["b4"; "b3"; "b2"; "b1"].
Proof. repeat split; vm_compute; reflexivity. Qed.

Example TestDelete :
  (Delete (repo_of [bk "b1" None 0]) "b1").2 = None ∧
  GetByID (Delete (repo_of [bk "b1" None 0]) "b1").1 "b1" = Err errNotFound.
Proof. split; vm_compute; reflexivity. Qed.

Example TestCreate_NoEnrich :
  (CreateBook NewBookRepo envMiss (input None (Some "My Book") None false false)).2
  = Ok (Book.mk "id-1" None "My Book" None None None None [] [] meta0 1000 1001).
Proof. vm_compute; reflexivity. Qed.

Example TestCreate_EnrichHit_Merges :
  (CreateBook NewBookRepo envHit (input (Some "9780134494166") None None true false)).2
  = Ok (Book.mk "id-1" (Some "9780134494166") "Clean Architecture" None
          (Some 2017) (Some 432) None [] ["Robert C. Martin"]
          (attempted "9780134494166" EnrichmentOK) 1000 1001).
Proof. vm_compute; reflexivity. Qed.

Example TestCreate_EnrichMiss_RequireFalse_AllowsPartial :
  (CreateBook NewBookRepo envMiss
     (input (Some "9780134494166") (Some "Fallback Title") None true false)).2
  = Ok (Book.mk "id-1" (Some "9780134494166") "Fallback Title" None None None
          None [] [] (attempted "9780134494166" EnrichmentPartial) 1000 1001).
Proof. vm_compute; reflexivity. Qed.

Example TestCreate_EnrichMiss_RequireTrue_Fails :
  (CreateBook NewBookRepo envMiss (input (Some "9780134494166") None None true true)).2
  = Err ErrUpstream.
Proof. vm_compute; reflexivity. Qed.

Example TestDuplicateISBN_Fails :
  (CreateBook
     (CreateBook NewBookRepo envMiss
        (input (Some "9780000000000") (Some "T") None false false)).1
     (mkEnv "id-2" 2000 2001 (λ _, Err "miss"))
     (input (Some "9780000000000") (Some "T") None false false)).2
  = Err ErrConflict.
Proof. vm_compute; reflexivity. Qed.

Example TestGetAndDelete :
  GetBook (CreateBook NewBookRepo envMiss
             (input None (Some "X") None false false)).1 "id-1"
    = Ok (Book.mk "id-1" None "X" None None None None [] [] meta0 1000 1001) ∧
  GetBook (DeleteBook (CreateBook NewBookRepo envMiss
                         (input None (Some "X") None false false)).1 "id-1").1 "id-1"
    = Err ErrNotFound.
Proof. split; vm_compute; reflexivity. Qed.

(** * Further properties of the code *)

(** ** The repository: lookups after [Create], frame, invariants *)

Lemma ids_own_new : ids_own NewBookRepo.
Proof. intros id b Hb. simpl in Hb. by rewrite lookup_empty in Hb. Qed.

Lemma ids_own_Create r b : ids_own r → ids_own (Create r b).1.
Proof.
  intros Hinv.
  destruct (Create_cases r b)
    as [[-> _]|[(Hid & _ & i & _ & _ & _ & ->)|(Hid & _ & _ & ->)]];
    [done|..]; intros id b0; simpl;
    (destruct (decide (id = Book.ID b)) as [->|Hne];
     [rewrite lookup_insert_eq; intros ?; by simplify_eq
     |rewrite lookup_insert_ne by done; apply Hinv]).
Qed.

Lemma ids_own_Delete r id : ids_own r → ids_own (Delete r id).1.
Proof.
  intros Hinv.
  destruct (Delete_cases r id) as [[_ ->]|(b & Hb & ->)]; [done|].
  intros id0 b0; simpl. intros [_ Hb0]%lookup_delete_Some. by apply Hinv.
Qed.

Lemma reachable_ids_own r : reachable r → ids_own r.
Proof.
  induction 1; auto using ids_own_new, ids_own_Create, ids_own_Delete.
Qed.

Lemma created_is_found (r r' : BookRepo) (b out : Book.t) :
  Create r b = (r', Ok out) →
  out = b ∧
  GetByID r' (Book.ID b) = Ok b ∧
  (∀ isbn s, Book.ISBN b = Some isbn → normalizeISBN isbn ≠ "" →
     normalizeISBN s = normalizeISBN isbn → GetByISBN r' s = Ok b).
Proof.
  intros Hc.
  destruct (Create_cases r b)
    as [[E _]|[(_ & _ & i & Hi & Hk & _ & E)|(_ & _ & Hno & E)]];
    rewrite E in Hc; simplify_eq; (split; [done|]);
    (split; [unfold GetByID; simpl; by rewrite lookup_insert_eq, copyBook_id|]);
    intros isbn s Hisbn Hne Hs.
  - assert (isbn = i) as -> by congruence.
    unfold GetByISBN; simpl. rewrite Hs.
    by rewrite !lookup_insert_eq, copyBook_id.
  - destruct Hno as [?|(i & ? & ?)]; congruence.
Qed.

(** X1: a record that [Create] accepted is returned as it was given, is
    found by [GetByID] under its identifier and, when its ISBN does not
    normalize to the empty string, by [GetByISBN] under every spelling
    with the same normal form. *)
Theorem Create_then_lookup (r r' : BookRepo) (b out : Book.t) :
  Create r b = (r', Ok out) →
  out = b ∧
  GetByID r' (Book.ID b) = Ok b ∧
  (∀ isbn s, Book.ISBN b = Some isbn → normalizeISBN isbn ≠ "" →
     normalizeISBN s = normalizeISBN isbn → GetByISBN r' s = Ok b).
Proof. apply created_is_found. Qed.

Lemma Create_then_lookup_witness :
  GetByISBN (Create NewBookRepo (bk "b1" (Some "978-0-12-345678-9") 1000)).1
    "978 0 12 345678 9"
  = Ok (bk "b1" (Some "978-0-12-345678-9") 1000).
Proof.
  destruct (Create_then_lookup NewBookRepo
              (Create NewBookRepo (bk "b1" (Some "978-0-12-345678-9") 1000)).1
              (bk "b1" (Some "978-0-12-345678-9") 1000)
              (bk "b1" (Some "978-0-12-345678-9") 1000))
    as (_ & _ & H).
  - vm_compute; reflexivity.
  - apply (H "978-0-12-345678-9"); [reflexivity|vm_compute; discriminate|].
    vm_compute; reflexivity.
Defined.

(** X2: [Create] never overwrites.  When it fails, the error is the
    conflict error and the repository is as it was; whatever it returns,
    every record and every index entry present before is still there, and
    [GetByID] of any other identifier answers as before. *)
Theorem Create_frame (r : BookRepo) (b : Book.t) :
  (∀ e, (Create r b).2 = Err e → (Create r b).1 = r ∧ e = errConflict) ∧
  (∀ id b0, byID r !! id = Some b0 → byID (Create r b).1 !! id = Some b0) ∧
  (∀ k id, byISBN r !! k = Some id → byISBN (Create r b).1 !! k = Some id) ∧
  (∀ id, id ≠ Book.ID b → GetByID (Create r b).1 id = GetByID r id).
Proof.
  destruct (Create_cases r b)
    as [[-> _]|[(_ & Hfree & i & _ & _ & Hnone & ->)|(_ & Hfree & _ & ->)]];
    simpl.
  - split; [by intros e [= <-]|done].
  - split; [done|]. split; [|split].
    + intros id b0 Hb0. rewrite lookup_insert_ne; [done|]. congruence.
    + intros k id Hk. rewrite lookup_insert_ne; [done|]. congruence.
    + intros id Hne. unfold GetByID; simpl. by rewrite lookup_insert_ne.
  - split; [done|]. split; [|split].
    + intros id b0 Hb0. rewrite lookup_insert_ne; [done|]. congruence.
    + done.
    + intros id Hne. unfold GetByID; simpl. by rewrite lookup_insert_ne.
Qed.

Lemma Create_frame_witness :
  GetByID (Create (repo_of [bk "b1" None 0]) (bk "b2" None 0)).1 "b1"
  = Ok (bk "b1" None 0).
Proof.
  destruct (Create_frame (repo_of [bk "b1" None 0]) (bk "b2" None 0))
    as (_ & _ & _ & H).
  rewrite H; [vm_compute; reflexivity|discriminate].
Defined.

(** X3: in every state reachable by [Create] and [Delete], a record is
    stored under its own, non-empty identifier; and [GetByISBN] returns a
    record exactly when that record is stored and its ISBN normalizes to
    the same non-empty string as the one asked for. *)
Theorem reachable_lookups_consistent (r : BookRepo) :
  reachable r →
  (∀ id b, GetByID r id = Ok b → Book.ID b = id ∧ id ≠ "") ∧
  (∀ s b, GetByISBN r s = Ok b ↔
     normalizeISBN s ≠ "" ∧ GetByID r (Book.ID b) = Ok b ∧
     ∃ isbn, Book.ISBN b = Some isbn ∧ normalizeISBN isbn = normalizeISBN s).
Proof.
  intros Hr.
  pose proof (reachable_ids_own r Hr) as Hids.
  pose proof (reachable_index_exact r Hr) as Hidx.
  assert (∀ id b, GetByID r id = Ok b ↔ byID r !! id = Some b) as Hget.
  { intros id b. unfold GetByID. destruct (byID r !! id) as [b0|].
    - rewrite copyBook_id. split; intros [= ->]; done.
    - split; done. }
  split.
  - intros id b Hb%Hget. by apply Hids.
  - intros s b. rewrite Hget. unfold GetByISBN. split.
    + destruct (byISBN r !! normalizeISBN s) as [id|] eqn:Hk; [|done].
      apply Hidx in Hk as (Hne & b0 & isbn & Hb0 & Hi & Hn).
      rewrite Hb0, copyBook_id. intros [= <-].
      destruct (Hids _ _ Hb0) as [-> _]. eauto.
    + intros (Hne & Hb & isbn & Hi & Hn).
      assert (byISBN r !! normalizeISBN s = Some (Book.ID b)) as ->
        by (apply Hidx; eauto 6).
      by rewrite Hb, copyBook_id.
Qed.

Lemma reachable_lookups_consistent_witness :
  Book.ID (bk "b1" (Some "978-0-12-345678-9") 1000) = "b1" ∧ "b1" ≠ "".
Proof.
  destruct (reachable_lookups_consistent
              (repo_of [bk "b1" (Some "978-0-12-345678-9") 1000]))
    as [H _].
  - apply reachable_Create, reachable_new.
  - apply H. vm_compute; reflexivity.
Defined.

Lemma created_then_deleted (r r' : BookRepo) (b out : Book.t) :
  reachable r → Create r b = (r', Ok out) →
  Delete r' (Book.ID b) = (r, None).
Proof.
  intros Hr Hc. pose proof (reachable_index_exact r Hr) as Hidx.
  assert (byISBN r !! "" = None) as Hempty.
  { destruct (byISBN r !! "") as [id|] eqn:Hk; [|done].
    apply Hidx in Hk as [Hne _]. done. }
  destruct r as [ids idx]; simpl in *.
  destruct (Create_cases (mkRepo ids idx) b)
    as [[E _]|[(_ & Hfree & i & Hi & Hk & Hnone & E)|(_ & Hfree & Hno & E)]];
    rewrite E in Hc; simplify_eq; unfold Delete; simpl in *;
    rewrite lookup_insert_eq.
  - rewrite Hi. by rewrite !delete_insert_id.
  - rewrite delete_insert_id by done.
    destruct Hno as [->|(i & -> & ->)]; [done|].
    by rewrite delete_id.
Qed.

(** X4: in a reachable state, deleting a record that [Create] has just
    stored gives back the repository as it was before the [Create]: both
    maps are restored. *)
Theorem Create_Delete_restores (r r' : BookRepo) (b out : Book.t) :
  reachable r → Create r b = (r', Ok out) →
  Delete r' (Book.ID b) = (r, None).
Proof. apply created_then_deleted. Qed.

Lemma Create_Delete_restores_witness :
  Delete (Create (repo_of [bk "b1" None 0]) (bk "b2" (Some "978-1") 0)).1 "b2"
  = (repo_of [bk "b1" None 0], None).
Proof.
  apply (Create_Delete_restores (repo_of [bk "b1" None 0]) _
           (bk "b2" (Some "978-1") 0) (bk "b2" (Some "978-1") 0)).
  - apply reachable_Create, reachable_new.
  - vm_compute; reflexivity.
Defined.

(** X5: [Delete] frees the ISBN.  In a reachable state, once a record is
    deleted, a new record with an ISBN of the same normal form (and an
    identifier that is not empty and not in use) is accepted by [Create]. *)
Theorem Delete_frees_ISBN (r : BookRepo) (id : string) (b nb : Book.t)
    (isbn s : string) :
  reachable r → byID r !! id = Some b → Book.ISBN b = Some isbn →
  Book.ISBN nb = Some s → normalizeISBN s = normalizeISBN isbn →
  Book.ID nb ≠ "" → byID (Delete r id).1 !! Book.ID nb = None →
  (Create (Delete r id).1 nb).2 = Ok nb.
Proof.
  intros Hr Hb Hi Hs Hn Hid Hfree.
  pose proof (index_exact_Delete r id (reachable_index_exact r Hr)) as Hidx.
  destruct (Create_cases (Delete r id).1 nb)
    as [[_ Hwhy]|[(_ & _ & i & _ & _ & _ & ->)|(_ & _ & _ & ->)]];
    [|done..].
  destruct Hwhy as [?|[[? ?]|(s' & Hs' & Hne & [id' Hk])]]; [done|congruence|].
  assert (s' = s) as -> by congruence.
  apply Hidx in Hk as (_ & b0 & isbn0 & Hb0 & Hi0 & Hn0).
  destruct (Delete_cases r id) as [[Hnone _]|(b' & Hb' & E)]; [congruence|].
  assert (b' = b) as -> by congruence.
  rewrite E in Hb0; simpl in Hb0.
  apply lookup_delete_Some in Hb0 as [Hne' Hb0].
  pose proof (reachable_index_exact r Hr) as Hidx0.
  assert (byISBN r !! normalizeISBN s = Some id') as H1
    by (apply Hidx0; split; [done|]; exists b0, isbn0; eauto).
  assert (byISBN r !! normalizeISBN s = Some id) as H2
    by (apply Hidx0; split; [done|]; exists b, isbn; eauto).
  congruence.
Qed.

Lemma Delete_frees_ISBN_witness :
  (Create (Delete (repo_of [bk "b1" (Some "978-1") 0]) "b1").1
          (bk "b2" (Some "9781") 0)).2
  = Ok (bk "b2" (Some "9781") 0).
Proof.
  apply (Delete_frees_ISBN (repo_of [bk "b1" (Some "978-1") 0]) "b1"
           (bk "b1" (Some "978-1") 0) (bk "b2" (Some "9781") 0) "978-1" "9781").
  - apply reachable_Create, reachable_new.
  - vm_compute; reflexivity.
  - reflexivity.
  - reflexivity.
  - vm_compute; reflexivity.
  - discriminate.
  - vm_compute; reflexivity.
Defined.

(** ** [normalizeISBN] *)

Lemma normalizeISBN_cons a s :
  normalizeISBN (String a s) =
    if keptByte a then String a (normalizeISBN s) else normalizeISBN s.
Proof.
  unfold normalizeISBN, keptByte; simpl.
  destruct (Ascii.eqb a "-") eqn:Hh; simpl; [done|].
  by destruct (Ascii.eqb a " ").
Qed.

(** X6: [normalizeISBN] keeps, in their order, exactly the bytes that are
    neither a hyphen nor a space; it is idempotent, it distributes over
    concatenation, and its result is empty exactly when the string is made
    of hyphens and spaces only. *)
Theorem normalizeISBN_spec (s : string) :
  list_ascii_of_string (normalizeISBN s)
    = List.filter keptByte (list_ascii_of_string s) ∧
  normalizeISBN (normalizeISBN s) = normalizeISBN s ∧
  (∀ t, normalizeISBN (s +:+ t) = normalizeISBN s +:+ normalizeISBN t) ∧
  (normalizeISBN s = "" ↔
     ∀ c, In c (list_ascii_of_string s) → c = "-"%char ∨ c = " "%char).
Proof.
  split; [|split; [|split]].
  - induction s as [|a s IH]; [done|].
    rewrite normalizeISBN_cons. simpl.
    destruct (keptByte a); simpl; by rewrite IH.
  - induction s as [|a s IH]; [done|].
    rewrite normalizeISBN_cons.
    destruct (keptByte a) eqn:Ha; [|done].
    by rewrite normalizeISBN_cons, Ha, IH.
  - intros t. induction s as [|a s IH]; [done|].
    change (String a s +:+ t) with (String a (s +:+ t)).
    rewrite !normalizeISBN_cons.
    destruct (keptByte a); rewrite IH; reflexivity.
  - induction s as [|a s IH]; [done|].
    rewrite normalizeISBN_cons. simpl. unfold keptByte.
    destruct (Ascii.eqb_spec a "-") as [->|Hh]; simpl.
    { rewrite IH. split; [intros H c [<-|Hc]; auto|intros H c Hc; auto]. }
    destruct (Ascii.eqb_spec a " ") as [->|Hs]; simpl.
    { rewrite IH. split; [intros H c [<-|Hc]; auto|intros H c Hc; auto]. }
    split; [done|]. intros H. destruct (H a); [by left|done..].
Qed.

(** ** The two versions of the comparators and of the filter agree *)

(** X7: the second version of the repository computes the same [less] for
    the keyed sort (through [cmpPtrInt] and [cmpTime]) and the same filter
    as the first; and [cmpPtrInt] is a three-way comparison in which an
    absent year is below every year. *)
Theorem second_version_agrees `{GoLibrary} :
  (∀ keys bi bj, lessByKeys_v2 keys bi bj = lessByKeys keys bi bj) ∧
  (∀ b q, matchFilters_v2 b q = matchFilters b q) ∧
  (∀ a b, cmpPtrInt a b = - cmpPtrInt b a) ∧
  (∀ a b, cmpPtrInt a b = 0 ↔ a = b) ∧
  (∀ y, cmpPtrInt None (Some y) = -1).
Proof.
  split; [|split; [|split; [|split]]].
  - induction keys as [|k keys IH]; intros bi bj; [done|].
    simpl. rewrite !IH. unfold cmpPtrInt, cmpTime.
    destruct (String.eqb (SortKey.Field k) "title"); [done|].
    destruct (String.eqb (SortKey.Field k) "published_year").
    { destruct (Book.PublishedYear bi) as [x|], (Book.PublishedYear bj) as [y|],
        (SortKey.Desc k); simpl; try done;
        destruct (Z.ltb_spec x y), (Z.gtb_spec x y), (Z.eqb_spec x y);
        simpl; try done; lia. }
    destruct (String.eqb (SortKey.Field k) "created_at"); [|done].
    destruct (SortKey.Desc k);
      destruct (Z.ltb_spec (Book.CreatedAt bi) (Book.CreatedAt bj)),
        (Z.gtb_spec (Book.CreatedAt bi) (Book.CreatedAt bj)),
        (Z.eqb_spec (Book.CreatedAt bi) (Book.CreatedAt bj));
      simpl; try done; lia.
  - intros b q. unfold matchFilters_v2, matchFilters.
    destruct (ListQuery.Q q) as [s|]; [|done]. cbv zeta.
    destruct (Contains (ToLower (Book.Title b)) (ToLower s)); simpl; [done|].
    by destruct (Contains _ (ToLower s)).
  - intros [x|] [y|]; simpl; try done.
    destruct (Z.ltb_spec x y), (Z.gtb_spec x y), (Z.ltb_spec y x),
      (Z.gtb_spec y x); simpl; try done; lia.
  - intros [x|] [y|]; simpl; try done.
    destruct (Z.ltb_spec x y), (Z.gtb_spec x y); simpl;
      (split; [intros ?|intros [= ->]]); try done; try lia.
    f_equal; lia.
  - done.
Qed.

(** ** The order of the keyed sort *)

Lemma lex_le_trans (a1 a2 a3 b1 b2 b3 : comparison) :
  (a1 ≠ Gt → a2 ≠ Gt → a3 ≠ Gt) →
  (a2 ≠ Gt → CompOpp a3 ≠ Gt → CompOpp a1 ≠ Gt) →
  (CompOpp a3 ≠ Gt → a1 ≠ Gt → CompOpp a2 ≠ Gt) →
  (b1 ≠ Gt → b2 ≠ Gt → b3 ≠ Gt) →
  match a1 with Eq => b1 | Lt => Lt | Gt => Gt end ≠ Gt →
  match a2 with Eq => b2 | Lt => Lt | Gt => Gt end ≠ Gt →
  match a3 with Eq => b3 | Lt => Lt | Gt => Gt end ≠ Gt.
Proof.
  destruct a1, a2, a3; simpl; try done; try tauto;
    intros H1 H2 H3 Hb ? ?; exfalso;
    first [apply H1; by auto|apply H2; by auto|apply H3; by auto].
Qed.

Lemma preorder_cmp_lex {A} (c1 c2 : A → A → comparison) :
  preorder_cmp c1 → preorder_cmp c2 →
  preorder_cmp (λ x y, match c1 x y with Eq => c2 x y | Lt => Lt | Gt => Gt end).
Proof.
  intros [A1 T1] [A2 T2]. split.
  - intros x y. rewrite (A1 x y), (A2 x y). by destruct (c1 x y).
  - intros x y z.
    apply (lex_le_trans (c1 x y) (c1 y z) (c1 x z) (c2 x y) (c2 y z) (c2 x z)).
    + apply T1.
    + rewrite <- (A1 x z), <- (A1 x y). apply T1.
    + rewrite <- (A1 x z), <- (A1 y z). apply T1.
    + apply T2.
Qed.

Lemma preorder_cmp_opp {A} (cmp : A → A → comparison) :
  preorder_cmp cmp → preorder_cmp (λ x y, CompOpp (cmp x y)).
Proof.
  intros [A1 T1]. split.
  - intros x y. by rewrite (A1 x y).
  - intros x y z. rewrite <- (A1 x y), <- (A1 y z), <- (A1 x z).
    intros ? ?. by apply (T1 z y x).
Qed.

Lemma preorder_cmp_on {A B} (f : B → A) (cmp : A → A → comparison) :
  preorder_cmp cmp → preorder_cmp (λ x y, cmp (f x) (f y)).
Proof. intros [A1 T1]. split; intros; [apply A1|by eapply T1]. Qed.

Lemma preorder_cmp_Eq {A} : preorder_cmp (λ _ _ : A, Eq).
Proof. by split. Qed.

Lemma preorder_cmp_Z : preorder_cmp Z.compare.
Proof.
  split.
  - intros x y. apply Z.compare_antisym.
  - intros x y z. rewrite !Z.compare_le_iff. lia.
Qed.

Lemma preorder_cmp_ascii : preorder_cmp Ascii.compare.
Proof.
  unfold Ascii.compare. split.
  - intros x y. apply N.compare_antisym.
  - intros x y z. rewrite !N.compare_le_iff. lia.
Qed.

Lemma preorder_cmp_string : preorder_cmp String.compare.
Proof.
  split.
  - intros x y. apply String.compare_antisym.
  - intros x. induction x as [|a x IH]; intros [|b y] [|c z]; simpl; try done.
    destruct preorder_cmp_ascii as [A1 T1].
    apply (lex_le_trans (Ascii.compare a b) (Ascii.compare b c)
             (Ascii.compare a c) (String.compare x y) (String.compare y z)
             (String.compare x z)).
    + apply T1.
    + rewrite <- (A1 a c), <- (A1 a b). apply T1.
    + rewrite <- (A1 a c), <- (A1 b c). apply T1.
    + apply IH.
Qed.

Lemma preorder_cmp_year : preorder_cmp compareYear.
Proof.
  destruct preorder_cmp_Z as [A1 T1]. split.
  - intros [x|] [y|]; simpl; try done.
  - intros [x|] [y|] [z|]; simpl; try done. apply T1.
Qed.

Lemma compareKey_preorder k : preorder_cmp (compareKey k).
Proof.
  unfold compareKey.
  assert (preorder_cmp (λ x y : Book.t,
            if String.eqb (SortKey.Field k) "title" then
              String.compare (Book.Title x) (Book.Title y)
            else if String.eqb (SortKey.Field k) "published_year" then
              compareYear (Book.PublishedYear x) (Book.PublishedYear y)
            else if String.eqb (SortKey.Field k) "created_at" then
              Book.CreatedAt x ?= Book.CreatedAt y
            else if String.eqb (SortKey.Field k) "updated_at" then
              Book.UpdatedAt x ?= Book.UpdatedAt y
            else Eq)) as Hc.
  { destruct (String.eqb _ "title");
      [apply (preorder_cmp_on Book.Title), preorder_cmp_string|].
    destruct (String.eqb _ "published_year");
      [apply (preorder_cmp_on Book.PublishedYear), preorder_cmp_year|].
    destruct (String.eqb _ "created_at");
      [apply (preorder_cmp_on Book.CreatedAt), preorder_cmp_Z|].
    destruct (String.eqb _ "updated_at");
      [apply (preorder_cmp_on Book.UpdatedAt), preorder_cmp_Z|].
    apply preorder_cmp_Eq. }
  destruct (SortKey.Desc k); [by apply preorder_cmp_opp in Hc|done].
Qed.

Lemma compareByKeys_preorder keys : preorder_cmp (compareByKeys keys).
Proof.
  induction keys as [|k keys IH]; simpl.
  - apply (preorder_cmp_on Book.ID), preorder_cmp_string.
  - apply (preorder_cmp_lex (compareKey k) (compareByKeys keys));
      [apply compareKey_preorder|done].
Qed.

Lemma string_compare_refl s : String.compare s s = Eq.
Proof.
  pose proof (String.compare_antisym s s) as H.
  by destruct (String.compare s s).
Qed.

Lemma string_compare_Eq s t : String.compare s t = Eq ↔ s = t.
Proof.
  split; [apply String.compare_eq_iff|intros ->; apply string_compare_refl].
Qed.

(** [less] of the keyed sort holds exactly when the comparison says [Lt]. *)
Lemma lessByKeys_compare keys x y :
  lessByKeys keys x y =
    match compareByKeys keys x y with Lt => true | _ => false end.
Proof.
  induction keys as [|k keys IH]; [done|].
  simpl. unfold compareKey. rewrite IH.
  destruct (String.eqb (SortKey.Field k) "title").
  { unfold String.ltb.
    rewrite (String.compare_antisym (Book.Title y) (Book.Title x)).
    destruct (String.eqb_spec (Book.Title x) (Book.Title y)) as [Heq|Hne]; simpl.
    - rewrite Heq, string_compare_refl. by destruct (SortKey.Desc k).
    - rewrite <- string_compare_Eq in Hne.
      destruct (SortKey.Desc k), (String.compare (Book.Title x) (Book.Title y));
        simpl; done. }
  destruct (String.eqb (SortKey.Field k) "published_year").
  { destruct (Book.PublishedYear x) as [a|], (Book.PublishedYear y) as [b|];
      simpl; try by destruct (SortKey.Desc k).
    destruct (SortKey.Desc k);
      destruct (Z.compare_spec a b), (Z.eqb_spec a b), (Z.ltb_spec a b),
        (Z.gtb_spec a b); simpl; try done; lia. }
  destruct (String.eqb (SortKey.Field k) "created_at").
  { destruct (SortKey.Desc k);
      destruct (Z.compare_spec (Book.CreatedAt x) (Book.CreatedAt y)),
        (Z.eqb_spec (Book.CreatedAt x) (Book.CreatedAt y)),
        (Z.ltb_spec (Book.CreatedAt x) (Book.CreatedAt y)),
        (Z.gtb_spec (Book.CreatedAt x) (Book.CreatedAt y));
      simpl; try done; lia. }
  destruct (String.eqb (SortKey.Field k) "updated_at").
  { destruct (SortKey.Desc k);
      destruct (Z.compare_spec (Book.UpdatedAt x) (Book.UpdatedAt y)),
        (Z.eqb_spec (Book.UpdatedAt x) (Book.UpdatedAt y)),
        (Z.ltb_spec (Book.UpdatedAt x) (Book.UpdatedAt y)),
        (Z.gtb_spec (Book.UpdatedAt x) (Book.UpdatedAt y));
      simpl; try done; lia. }
  by destruct (SortKey.Desc k).
Qed.

Lemma lessByKeys_weak_order keys : weak_order (lessByKeys keys).
Proof.
  destruct (compareByKeys_preorder keys) as [A1 T1].
  split.
  - intros x y. rewrite !lessByKeys_compare, (A1 x y).
    by destruct (compareByKeys keys x y).
  - intros x y z. rewrite !lessByKeys_compare.
    intros Hyx Hzy.
    assert (compareByKeys keys x y ≠ Gt) as H1
      by (rewrite (A1 y x); by destruct (compareByKeys keys y x)).
    assert (compareByKeys keys y z ≠ Gt) as H2
      by (rewrite (A1 z y); by destruct (compareByKeys keys z y)).
    pose proof (T1 x y z H1 H2) as H3. rewrite (A1 z x) in H3.
    by destruct (compareByKeys keys z x).
Qed.

(** Two books that the keyed order does not tell apart have the same
    identifier. *)
Lemma lessByKeys_total keys x y :
  lessByKeys keys x y = false → lessByKeys keys y x = false →
  Book.ID x = Book.ID y.
Proof.
  destruct (compareByKeys_preorder keys) as [A1 _].
  rewrite !lessByKeys_compare, (A1 x y).
  destruct (compareByKeys keys x y) eqn:Hc; simpl; try done. intros _ _.
  clear A1. induction keys as [|k keys IH]; simpl in Hc.
  - by apply string_compare_Eq.
  - destruct (compareKey k x y); try done. by apply IH.
Qed.

(** ** Keyed listings: order, determinism, pages *)

Lemma wrap_le z : 0 ≤ z → wrap z ≤ z.
Proof.
  intros Hz. unfold wrap.
  pose proof (Z.mod_le (z + 2 ^ 63) (2 ^ 64)). lia.
Qed.

Lemma ordered_by_StronglySorted {A} (less : A → A → bool) (l : list A) :
  ordered_by less l → StronglySorted (λ x y, less y x = false) l.
Proof.
  induction l as [|a l IH]; intros Hl; constructor.
  - apply IH. intros i j x y Hij Hi Hj. by apply (Hl (S i) (S j)); [lia|..].
  - apply Forall_forall. intros y [j Hj]%list_elem_of_lookup.
    by apply (Hl 0%nat (S j)); [lia|..].
Qed.

Lemma list_filter_sublist {A} (f : A → bool) (l : list A) :
  List.filter f l `sublist_of` l.
Proof.
  induction l as [|a l IH]; simpl; [constructor|].
  destruct (f a); by constructor.
Qed.

Lemma list_filter_perm {A} (f : A → bool) (l k : list A) :
  l ≡ₚ k → List.filter f l ≡ₚ List.filter f k.
Proof.
  induction 1 as [|x l k _ IH|x y l|l k m _ IH1 _ IH2]; simpl.
  - done.
  - destruct (f x); by rewrite IH.
  - destruct (f x), (f y); try done. apply Permutation_swap.
  - by rewrite IH1.
Qed.

Lemma stored_ids (m : list (string * Book.t)) :
  (∀ id b, (id, b) ∈ m → Book.ID b = id) →
  Book.ID <$> (copyBook <$> m.*2) = m.*1.
Proof.
  induction m as [|[id b] m IH]; intros Hm; [done|].
  rewrite !fmap_cons. cbn [fst snd].
  rewrite copyBook_id, (Hm id b) by left. f_equal.
  apply IH. intros id' b' Hin. apply Hm. by right.
Qed.

Lemma sorted_perm_unique {A} (R : A → A → Prop) (l1 l2 : list A) :
  (∀ x1 x2, x1 ∈ l1 → x2 ∈ l2 → R x1 x2 → R x2 x1 → x1 = x2) →
  StronglySorted R l1 → StronglySorted R l2 → l1 ≡ₚ l2 → l1 = l2.
Proof.
  revert l2. induction l1 as [|x1 l1 IH]; intros l2 Hanti H1 H2 Hp.
  { by apply Permutation_nil in Hp. }
  destruct l2 as [|x2 l2]; [by apply Permutation_nil_r in Hp|].
  apply StronglySorted_inv in H1 as [H1 F1].
  apply StronglySorted_inv in H2 as [H2 F2].
  rewrite Forall_forall in F1, F2.
  assert (x1 = x2) as ->.
  { assert (x2 ∈ x1 :: l1) as Hx2 by (rewrite Hp; left).
    assert (x1 ∈ x2 :: l2) as Hx1 by (rewrite <- Hp; left).
    apply elem_of_cons in Hx2 as [->|Hx2]; [done|].
    apply elem_of_cons in Hx1 as [->|Hx1]; [done|].
    apply Hanti; [left|left|by apply F1|by apply F2]. }
  f_equal. apply IH; [|done..|by apply Permutation_cons_inv in Hp].
  intros y1 y2 Hy1 Hy2. apply Hanti; by right.
Qed.

Section KeyedListing.
Context `{GoLibrary}.

Lemma ListFrom_paginate items q :
  ListFrom items q =
    paginate (sortBooks (filterBooks items q) (ListQuery.Sort q)) (len items) q.
Proof. unfold ListFrom, paginate. reflexivity. Qed.

Lemma snapshot_NoDup_ids r items :
  reachable r → snapshot r items → NoDup (Book.ID <$> items).
Proof.
  intros Hr Hs. unfold snapshot in Hs.
  assert (Book.ID <$> items ≡ₚ (map_to_list (byID r)).*1) as Hp.
  { rewrite <- (stored_ids (map_to_list (byID r))).
    - by apply fmap_Permutation.
    - intros id b Hin%elem_of_map_to_list.
      by destruct (reachable_ids_own r Hr id b Hin). }
  rewrite Hp. apply NoDup_fst_map_to_list.
Qed.

Lemma snapshot_stored r items b :
  reachable r → snapshot r items → b ∈ items → byID r !! Book.ID b = Some b.
Proof.
  intros Hr Hs Hb. apply (snapshot_elem_of r items b Hs) in Hb as [id Hb].
  by destruct (reachable_ids_own r Hr id b Hb) as [-> _].
Qed.

Lemma paginate_Returned out cap q p :
  paginate out cap q = Returned p →
  Page.Data p `sublist_of` out ∧ Page.Total p = len out ∧
  1 ≤ Page.Page p ∧ 1 ≤ Page.PageSize p ∧
  (length (Page.Data p) ≤ Z.to_nat (Page.PageSize p))%nat.
Proof.
  unfold paginate. cbv zeta.
  set (page := if ListQuery.Page q <? 1 then 1 else ListQuery.Page q).
  set (size := if ListQuery.PageSize q <? 1 then 20 else ListQuery.PageSize q).
  assert (1 ≤ page) by (unfold page; destruct (Z.ltb_spec (ListQuery.Page q) 1); lia).
  assert (1 ≤ size) by (unfold size; destruct (Z.ltb_spec (ListQuery.PageSize q) 1); lia).
  set (start := if wrap (wrap (page - 1) * size) >? len out then len out
                else wrap (wrap (page - 1) * size)).
  set (end_ := if wrap (start + size) >? len out then len out
               else wrap (start + size)).
  destruct (Z.ltb_spec (wrap (end_ - start)) 0) as [|Hn]; [done|].
  destruct (Z.leb_spec 0 start) as [Hs0|]; [|done].
  destruct (Z.leb_spec start end_) as [Hse|]; [|done].
  destruct (Z.leb_spec end_ cap) as [Hec|]; [|done].
  cbn [andb negb]. intros Hp%Returned_inj. rewrite <- Hp.
  cbn [Page.Data Page.Total Page.Page Page.PageSize].
  split; [|split; [done|split; [done|split; [done|]]]].
  - transitivity (drop (Z.to_nat start) out); [apply sublist_take|apply sublist_drop].
  - rewrite length_take, length_drop.
    pose proof (wrap_le (end_ - start) ltac:(lia)).
    pose proof (wrap_le (start + size) ltac:(lia)).
    assert (end_ - start ≤ size ∨ len out - start ≤ size) as Hcase.
    { unfold end_ in *. destruct (Z.gtb_spec (wrap (start + size)) (len out)); lia. }
    unfold len in *. lia.
Qed.

Lemma paginate_Data out cap q p :
  paginate out cap q = Returned p →
  ∃ n m : nat, Page.Data p = take n (drop m out).
Proof.
  unfold paginate. cbv zeta.
  destruct (wrap _ <? 0); [done|]. destruct (negb _); [done|].
  intros Hp%Returned_inj. rewrite <- Hp. cbn [Page.Data]. eauto.
Qed.

Lemma page_ids_NoDup r items q p :
  reachable r → snapshot r items → ListFrom items q = Returned p →
  NoDup (Book.ID <$> Page.Data p).
Proof.
  intros Hr Hs Hp. rewrite ListFrom_paginate in Hp.
  apply paginate_Returned in Hp as (Hsub & _).
  eapply sublist_NoDup; [|by apply fmap_sublist].
  rewrite sortBooks_perm.
  eapply sublist_NoDup; [|apply fmap_sublist, list_filter_sublist].
  by eapply snapshot_NoDup_ids.
Qed.

(** X8: what a page is made of.  A page that [List] returns carries a
    page number and a page size of at least 1 and at most [PageSize]
    records; its records are stored records that match the filter, its
    [Total] never exceeds the number of stored records and is that number
    when the query has no filter; and in a reachable state no identifier
    occurs twice on it. *)
Theorem List_page_bounds (r : BookRepo) (items : list Book.t)
    (q : ListQuery.t) (p : Page.t Book.t) :
  snapshot r items → ListFrom items q = Returned p →
  1 ≤ Page.Page p ∧ 1 ≤ Page.PageSize p ∧
  len (Page.Data p) ≤ Page.PageSize p ∧
  Page.Total p ≤ Z.of_nat (size (byID r)) ∧
  (ListQuery.Q q = None → ListQuery.Author q = None →
   ListQuery.Tag q = None → ListQuery.Year q = None →
   Page.Total p = Z.of_nat (size (byID r))) ∧
  (∀ b, b ∈ Page.Data p →
     (∃ id, byID r !! id = Some b) ∧ matchFilters b q = true) ∧
  (reachable r → NoDup (Book.ID <$> Page.Data p)).
Proof.
  intros Hs Hp.
  assert (length items = size (byID r)) as Hlen.
  { unfold snapshot in Hs. by rewrite Hs, !length_fmap, length_map_to_list. }
  pose proof Hp as Hp'. rewrite ListFrom_paginate in Hp'.
  apply paginate_Returned in Hp' as (Hsub & Htot & Hpg & Hsz & Hdata).
  rewrite len_sortBooks in Htot.
  pose proof (len_filterBooks items q) as Hf.
  split; [done|]. split; [done|]. split; [unfold len; lia|].
  split; [unfold len in *; lia|]. split; [|split].
  - intros Hq Ha Ht Hy. rewrite Htot. unfold len. f_equal. rewrite <- Hlen.
    unfold filterBooks. f_equal. apply forallb_filter_id, forallb_forall.
    intros b _. unfold matchFilters. by rewrite Hq, Ha, Ht, Hy.
  - intros b Hb.
    assert (b ∈ filterBooks items q) as Hin.
    { rewrite <- (sortBooks_perm _ (ListQuery.Sort q)).
      by eapply elem_of_sublist. }
    apply filterBooks_elem_of in Hin as [Hin Hm]. split; [|done].
    by apply (snapshot_elem_of r items b Hs).
  - intros Hr. by eapply page_ids_NoDup.
Qed.

Lemma sortBooks_keyed_ordered bs keys :
  keys ≠ [] → ordered_by (lessByKeys keys) (sortBooks bs keys).
Proof.
  intros Hk. unfold sortBooks. destruct keys as [|k keys]; [done|].
  replace (len (k :: keys) =? 0) with false
    by (symmetry; apply Z.eqb_neq; unfold len; simpl; lia).
  apply sort_SliceStable_ordered, lessByKeys_weak_order.
Qed.

Lemma page_keyed_ordered (r : BookRepo) (items : list Book.t)
    (q : ListQuery.t) (p : Page.t Book.t) :
  reachable r → snapshot r items → ListQuery.Sort q ≠ [] →
  ListFrom items q = Returned p →
  ∀ (i j : nat) x y, (i < j)%nat →
    Page.Data p !! i = Some x → Page.Data p !! j = Some y →
    lessByKeys (ListQuery.Sort q) x y = true.
Proof.
  intros Hr Hs Hk Hp i j x y Hij Hi Hj.
  pose proof (page_ids_NoDup r items q p Hr Hs Hp) as Hnd.
  rewrite ListFrom_paginate in Hp.
  apply paginate_Data in Hp as (n & m & Hp).
  assert (lessByKeys (ListQuery.Sort q) y x = false) as Hyx.
  { rewrite Hp in Hi, Hj.
    eapply (ordered_by_take_drop (lessByKeys (ListQuery.Sort q)));
      [|exact Hij|exact Hi|exact Hj].
    by apply sortBooks_keyed_ordered. }
  destruct (lessByKeys (ListQuery.Sort q) x y) eqn:Hxy; [done|].
  pose proof (lessByKeys_total _ _ _ Hxy Hyx) as Hid.
  assert (i = j); [|lia].
  eapply (NoDup_lookup _ i j (Book.ID x) Hnd).
  - by rewrite list_lookup_fmap, Hi.
  - by rewrite list_lookup_fmap, Hj, Hid.
Qed.

(** X9: a keyed listing is in the order of its keys.  With at least one
    sort key, on a reachable state, every record of the returned page is
    less than every record after it, in the order that tries the keys from
    left to right and lets the identifier decide last. *)
Theorem List_keyed_ordered (r : BookRepo) (items : list Book.t)
    (q : ListQuery.t) (p : Page.t Book.t) :
  reachable r → snapshot r items → ListQuery.Sort q ≠ [] →
  ListFrom items q = Returned p →
  ∀ (i j : nat) x y, (i < j)%nat →
    Page.Data p !! i = Some x → Page.Data p !! j = Some y →
    lessByKeys (ListQuery.Sort q) x y = true.
Proof. apply page_keyed_ordered. Qed.

(** X10: a keyed listing is reproducible.  With at least one sort key, on
    a reachable state, two runs of [List] with the same query end the
    same way, whatever order the map iteration and whatever sort the
    library provides. *)
Theorem List_keyed_deterministic (r : BookRepo) (q : ListQuery.t)
    (p1 p2 : outcome (Page.t Book.t)) :
  reachable r → ListQuery.Sort q ≠ [] →
  List r q p1 → List r q p2 → p1 = p2.
Proof.
  intros Hr Hk (items1 & Hs1 & ->) (items2 & Hs2 & ->).
  rewrite !ListFrom_paginate.
  assert (items1 ≡ₚ items2) as Hperm by (unfold snapshot in *; by rewrite Hs1, Hs2).
  assert (len items1 = len items2) as -> by (unfold len; by rewrite Hperm).
  f_equal.
  apply (sorted_perm_unique
           (λ x y, lessByKeys (ListQuery.Sort q) y x = false)).
  - intros x1 x2 Hx1 Hx2 H12 H21.
    pose proof (lessByKeys_total _ _ _ H21 H12) as Hid.
    rewrite sortBooks_perm in Hx1, Hx2.
    apply filterBooks_elem_of in Hx1 as [Hx1 _].
    apply filterBooks_elem_of in Hx2 as [Hx2 _].
    pose proof (snapshot_stored r items1 x1 Hr Hs1 Hx1) as E1.
    pose proof (snapshot_stored r items2 x2 Hr Hs2 Hx2) as E2.
    rewrite Hid in E1. congruence.
  - by apply ordered_by_StronglySorted, sortBooks_keyed_ordered.
  - by apply ordered_by_StronglySorted, sortBooks_keyed_ordered.
  - rewrite !sortBooks_perm. by apply list_filter_perm.
Qed.

End KeyedListing.

(** Permutations of explicit lists, one element at a time. *)
Lemma perm_at1 {A} (x a : A) l k :
  l ≡ₚ a :: k → x :: l ≡ₚ a :: x :: k.
Proof. intros ->. apply Permutation_swap. Qed.

Lemma perm_at2 {A} (x a b : A) l k :
  l ≡ₚ a :: b :: k → x :: l ≡ₚ a :: b :: x :: k.
Proof. intros ->. apply (Permutation_middle [a; b] k x). Qed.

Lemma perm_at3 {A} (x a b c : A) l k :
  l ≡ₚ a :: b :: c :: k → x :: l ≡ₚ a :: b :: c :: x :: k.
Proof. intros ->. apply (Permutation_middle [a; b; c] k x). Qed.

Ltac perm_explicit :=
  repeat first
    [ reflexivity
    | apply Permutation_skip
    | apply perm_at1
    | apply perm_at2
    | apply perm_at3 ].

Lemma seed_reachable : reachable (repo_of seed).
Proof. unfold repo_of, seed; simpl. do 4 apply reachable_Create. apply reachable_new. Qed.

Lemma seed_snapshot : snapshot (repo_of seed) seed.
Proof. unfold snapshot. vm_compute. perm_explicit. Qed.

Lemma seed_snapshot_reverse : snapshot (repo_of seed) (reverse seed).
Proof. unfold snapshot. vm_compute. perm_explicit. Qed.

Lemma List_page_bounds_witness :
  Page.Total (Page.mk [domainDrivenDesign; cleanArchitectureBook] 1 2 4)
  = Z.of_nat (size (byID (repo_of seed))).
Proof.
  destruct (List_page_bounds (H := smallLibrary) (repo_of seed) seed (listAll 1 2)
              (Page.mk [domainDrivenDesign; cleanArchitectureBook] 1 2 4))
    as (_ & _ & _ & _ & Htotal & _).
  - apply seed_snapshot.
  - vm_compute; reflexivity.
  - by apply Htotal.
Defined.

Lemma List_keyed_ordered_witness :
  lessByKeys [SortKey.mk "title" true] goProgrammingLanguage goInAction = true.
Proof.
  apply (List_keyed_ordered (H := smallLibrary) (repo_of seed) seed (byTitle true)
           (Page.mk [goProgrammingLanguage; goInAction; domainDrivenDesign;
                     cleanArchitectureBook] 1 10 4)
           seed_reachable seed_snapshot ltac:(discriminate)
           ltac:(vm_compute; reflexivity) 0%nat 1%nat);
    [lia|reflexivity|reflexivity].
Defined.

Lemma List_keyed_deterministic_witness :
  ListFrom (H := smallLibrary) seed (byTitle false)
  = ListFrom (H := smallLibrary) (reverse seed) (byTitle false).
Proof.
  apply (List_keyed_deterministic (H := smallLibrary) (repo_of seed) (byTitle false)).
  - apply seed_reachable.
  - discriminate.
  - exists seed. split; [apply seed_snapshot|reflexivity].
  - exists (reverse seed). split; [apply seed_snapshot_reverse|reflexivity].
Defined.

Section MoreListing.
Context `{GoLibrary}.

Lemma lessByKeys_unknown keys x y :
  Forall (λ k, knownField (SortKey.Field k) = false) keys →
  lessByKeys keys x y = String.ltb (Book.ID x) (Book.ID y).
Proof.
  induction 1 as [|k keys Hk _ IH]; [done|].
  simpl. unfold knownField in Hk.
  apply orb_false_iff in Hk as [Hk H4]. apply orb_false_iff in Hk as [Hk H3].
  apply orb_false_iff in Hk as [H1 H2].
  by rewrite H1, H2, H3, H4.
Qed.

(** X11: a sort key whose field is none of [title], [published_year],
    [created_at], [updated_at] is skipped, yet it still selects the keyed
    sort: when the query has sort keys and none names a known field, on a
    reachable state the page is in strictly ascending order of
    identifier. *)
Theorem List_unknown_keys_by_ID (r : BookRepo) (items : list Book.t)
    (q : ListQuery.t) (p : Page.t Book.t) :
  reachable r → snapshot r items → ListQuery.Sort q ≠ [] →
  Forall (λ k, knownField (SortKey.Field k) = false) (ListQuery.Sort q) →
  ListFrom items q = Returned p →
  ∀ (i j : nat) x y, (i < j)%nat →
    Page.Data p !! i = Some x → Page.Data p !! j = Some y →
    String.ltb (Book.ID x) (Book.ID y) = true.
Proof.
  intros Hr Hs Hk Hunk Hp i j x y Hij Hi Hj.
  rewrite <- (lessByKeys_unknown (ListQuery.Sort q)) by done.
  by eapply page_keyed_ordered.
Qed.

(** X12: the pages of a listing partition it.  With the clamped page size
    [size], as long as [k * size] fits in an [int], each of the pages 1 to
    [k] is returned with the [size] records from offset [(p - 1) * size]
    of the sorted, filtered records and with their count as [Total]; and
    the pages 1 to [k] laid end to end are the first [k * size] of those
    records. *)
Theorem List_pages_partition (items : list Book.t) (q : ListQuery.t) (k : nat) :
  let size := if ListQuery.PageSize q <? 1 then 20 else ListQuery.PageSize q in
  let out := sortBooks (filterBooks items q) (ListQuery.Sort q) in
  len items ≤ maxInt → Z.of_nat k * size ≤ maxInt →
  (∀ p : nat, (1 ≤ p ≤ k)%nat →
     ListFrom items (withPage q (Z.of_nat p)) =
       Returned (Page.mk
                   (take (Z.to_nat size)
                      (drop (Z.to_nat ((Z.of_nat p - 1) * size)) out))
                   (Z.of_nat p) size (len (filterBooks items q)))) ∧
  concat ((λ p : nat, dataOf (ListFrom items (withPage q (Z.of_nat p))))
            <$> seq 1 k)
  = take (Z.to_nat (Z.of_nat k * size)) out.
Proof.
  intros size out Hitems Hfit.
  assert (1 ≤ size) as Hsize
    by (unfold size; destruct (Z.ltb_spec (ListQuery.PageSize q) 1); lia).
  assert (∀ p : nat, (1 ≤ p ≤ k)%nat →
     ListFrom items (withPage q (Z.of_nat p)) =
       Returned (Page.mk
                   (take (Z.to_nat size)
                      (drop (Z.to_nat ((Z.of_nat p - 1) * size)) out))
                   (Z.of_nat p) size (len (filterBooks items q)))) as Hpage.
  { intros p Hp.
    destruct (ListFrom_pagination_in_range items (withPage q (Z.of_nat p)))
      as [Hret _]; [done| |].
    - cbn [ListQuery.Page ListQuery.PageSize withPage]. fold size.
      destruct (Z.ltb_spec (Z.of_nat p) 1); nia.
    - rewrite Hret. cbn [ListQuery.Page ListQuery.PageSize withPage]. fold size.
      destruct (Z.ltb_spec (Z.of_nat p) 1); [lia|]. reflexivity. }
  split; [done|].
  clear Hfit. revert Hpage.
  induction k as [|k IH]; intros Hpage.
  - by rewrite Z.mul_0_l.
  - rewrite seq_S, fmap_app, concat_app, IH by (intros p Hp; apply Hpage; lia).
    rewrite list_fmap_singleton. cbn [concat].
    change (1 + k)%nat with (S k).
    rewrite (Hpage (S k)) by lia. cbn [dataOf Page.Data]. rewrite app_nil_r.
    replace (Z.of_nat (S k) - 1) with (Z.of_nat k) by lia.
    rewrite take_take_drop. f_equal.
    rewrite <- Z2Nat.inj_add by nia. f_equal. lia.
Qed.

End MoreListing.

Lemma List_unknown_keys_by_ID_witness :
  String.ltb (Book.ID goInAction) (Book.ID goProgrammingLanguage) = true.
Proof.
  apply (List_unknown_keys_by_ID (H := smallLibrary) (repo_of seed)
           (reverse seed) byUnknown
           (Page.mk [goInAction; goProgrammingLanguage; cleanArchitectureBook;
                     domainDrivenDesign] 1 10 4)
           seed_reachable seed_snapshot_reverse ltac:(discriminate)
           ltac:(by repeat constructor)
           ltac:(vm_compute; reflexivity) 0%nat 1%nat);
    [lia|reflexivity|reflexivity].
Defined.

Lemma List_pages_partition_witness :
  concat ((λ p : nat,
             dataOf (ListFrom (H := smallLibrary) seed
                       (withPage (listAll 1 3) (Z.of_nat p)))) <$> seq 1 2)
  = take (Z.to_nat (Z.of_nat 2 * 3))
      (sortBooks (H := smallLibrary)
         (filterBooks (H := smallLibrary) seed (listAll 1 3)) []).
Proof.
  apply (List_pages_partition (H := smallLibrary) seed (listAll 1 3) 2).
  - vm_compute. discriminate.
  - vm_compute. discriminate.
Defined.

(** ** The catalog service: all or nothing, conflicts, lifecycle *)

(** X13: [CreateBook] is all or nothing.  When it returns an error the
    repository is as it was.  When it returns a record, that record was
    added under the generated identifier and nothing else changed in
    [byID]; the record carries the generated identifier, the ISBN and the
    tags of the input as given, and the two clock readings. *)
Theorem CreateBook_all_or_nothing (r : BookRepo) (env : Env)
    (i : CreateBookInput.t) :
  (∀ e, (CreateBook r env i).2 = Err e → (CreateBook r env i).1 = r) ∧
  (∀ out, (CreateBook r env i).2 = Ok out →
     byID (CreateBook r env i).1 = <[uuid_NewString env := out]> (byID r) ∧
     byID r !! uuid_NewString env = None ∧
     Book.ID out = uuid_NewString env ∧
     Book.ISBN out = CreateBookInput.ISBN i ∧
     Book.Tags out = CreateBookInput.Tags i ∧
     Book.CreatedAt out = time_Now_created env ∧
     Book.UpdatedAt out = time_Now_updated env).
Proof.
  unfold CreateBook.
  destruct (rejects i); [by split|].
  destruct (enrich env i (construct env i)) as [b|e] eqn:He; [|by split].
  match goal with |- context [if ?d then _ else _] => destruct d end;
    [by split|].
  assert (Book.ID b = uuid_NewString env ∧
          Book.ISBN b = CreateBookInput.ISBN i ∧
          Book.Tags b = CreateBookInput.Tags i ∧
          Book.CreatedAt b = time_Now_created env ∧
          Book.UpdatedAt b = time_Now_updated env) as (Hid & Hisbn & Ht & Hc & Hu).
  { revert He. unfold enrich.
    destruct (CreateBookInput.ISBN i) as [isbn|] eqn:Hi; [|by intros [= <-]].
    destruct (_ && _); [|intros [= <-]; simpl; by rewrite Hi].
    destruct (FetchByISBN env isbn) as [res|msg].
    - intros [= <-]. unfold set_Status; cbn [set_Enrichment Book.ID Book.ISBN
        Book.Tags Book.CreatedAt Book.UpdatedAt].
      match goal with |- context [merge ?d res] =>
        destruct (merge_spec d res)
          as (_ & _ & _ & _ & _ & _ & -> & -> & -> & _ & -> & ->) end.
      simpl. by rewrite Hi.
    - destruct (CreateBookInput.RequireEnrichment i); [done|].
      intros [= <-]. simpl. by rewrite Hi. }
  destruct (Create_cases r b)
    as [[-> _]|[(_ & Hfree & k & _ & _ & _ & ->)|(_ & Hfree & _ & ->)]];
    simpl; (split; [done|]); try done;
    intros out [= <-]; rewrite <- Hid; by repeat split.
Qed.

Lemma CreateBook_all_or_nothing_witness :
  (CreateBook (repo_of [bk "b1" (Some "978-1") 0]) envMiss
     (input (Some "9781") (Some "T") None false false)).1
  = repo_of [bk "b1" (Some "978-1") 0].
Proof.
  apply (proj1 (CreateBook_all_or_nothing (repo_of [bk "b1" (Some "978-1") 0])
                  envMiss (input (Some "9781") (Some "T") None false false))
           ErrConflict).
  vm_compute; reflexivity.
Defined.

Lemma has_ISBN_index r isbn :
  index_exact r →
  has_ISBN r isbn ↔ ∃ id, byISBN r !! normalizeISBN isbn = Some id.
Proof.
  intros Hidx. unfold has_ISBN. split.
  - intros (Hk & id & b0 & isbn0 & Hb0 & Hi0 & Hn0).
    exists id. apply Hidx. eauto 6.
  - intros (id & Hk).
    apply Hidx in Hk as (Hk & b0 & isbn0 & ? & ? & ?). eauto 7.
Qed.

(** X14: [CreateBook] looks the ISBN up and inserts the record in two
    calls of the repository, [r] being the repository at the look-up and
    [r'] at the insert, both reachable and the identifier fresh.  It
    returns its own conflict error exactly when the input passes
    validation, the enrichment step does not abort, and a record of [r]
    has an ISBN with the same non-empty normal form as the ISBN of the
    input.  It hands on the error of the repository, which is then the
    conflict error of the repository, exactly when the look-up found no
    such record in [r] and [r'] has one: another call stored the ISBN in
    between.  In a call that nothing interrupts ([r' = r]) the error of
    the repository is therefore never handed on. *)
Theorem CreateBook_conflict (r r' : BookRepo) (env : Env) (i : CreateBookInput.t) :
  reachable r → reachable r' → fresh_id r' env →
  CreateBookBetween r r env i = CreateBook r env i ∧
  ((CreateBookBetween r r' env i).2 = Err ErrConflict ↔
     ¬ violates i ∧ (∃ b, enrich env i (construct env i) = Ok b) ∧
     ∃ isbn, CreateBookInput.ISBN i = Some isbn ∧ has_ISBN r isbn) ∧
  (∀ e, (CreateBookBetween r r' env i).2 = Err (RepoError e) ↔
     e = errConflict ∧ ¬ violates i ∧
     (∃ b, enrich env i (construct env i) = Ok b) ∧
     ∃ isbn, CreateBookInput.ISBN i = Some isbn ∧
             ¬ has_ISBN r isbn ∧ has_ISBN r' isbn) ∧
  (r' = r → ∀ e, (CreateBook r env i).2 ≠ Err (RepoError e)).
Proof.
  intros Hr Hr' [Hne Hfree].
  pose proof (reachable_index_exact r Hr) as Hidx.
  pose proof (reachable_index_exact r' Hr') as Hidx'.
  split; [done|].
  assert (((CreateBookBetween r r' env i).2 = Err ErrConflict ↔
           ¬ violates i ∧ (∃ b, enrich env i (construct env i) = Ok b) ∧
           ∃ isbn, CreateBookInput.ISBN i = Some isbn ∧ has_ISBN r isbn) ∧
          (∀ e, (CreateBookBetween r r' env i).2 = Err (RepoError e) ↔
             e = errConflict ∧ ¬ violates i ∧
             (∃ b, enrich env i (construct env i) = Ok b) ∧
             ∃ isbn, CreateBookInput.ISBN i = Some isbn ∧
                     ¬ has_ISBN r isbn ∧ has_ISBN r' isbn)) as [Hconf Hrepo].
  2: { split; [done|]. split; [done|].
       intros -> e He. change (CreateBook r env i) with (CreateBookBetween r r env i) in He.
       apply Hrepo in He as (_ & _ & _ & isbn & _ & Hno & Hyes). done. }
  pose proof (rejects_spec i) as Hv. unfold CreateBookBetween.
  destruct (rejects i).
  { assert (violates i) as Hbad by (by apply Hv).
    split; [split; [done|by intros [? _]]|].
    intros e. split; [done|by intros (_ & ? & _)]. }
  assert (¬ violates i) as Hgood by (intros Hbad; by apply Hv in Hbad).
  destruct (enrich env i (construct env i)) as [b|e0] eqn:He.
  2: { apply enrich_Err in He as ->.
       split; [split; [done|by intros (_ & [b Hb] & _)]|].
       intros e. split; [done|by intros (_ & _ & [b Hb] & _)]. }
  destruct (enrich_keeps_keys _ _ _ _ He) as [Hid Hisbn]. simpl in Hid, Hisbn.
  rewrite Hisbn.
  set (dup := match CreateBookInput.ISBN i with
              | Some isbn =>
                if negb (String.eqb isbn "") then
                  match GetByISBN r isbn with Ok _ => true | Err _ => false end
                else false
              | None => false
              end).
  assert (dup = true ↔
          ∃ isbn, CreateBookInput.ISBN i = Some isbn ∧ has_ISBN r isbn) as Hdup.
  { unfold dup, GetByISBN.
    destruct (CreateBookInput.ISBN i) as [isbn|]; [|split; [done|by intros (? & ? & _)]].
    destruct (byISBN r !! normalizeISBN isbn) as [id|] eqn:Hk.
    - pose proof Hk as Hk2.
      apply Hidx in Hk2 as (Hkne & b0 & isbn0 & Hb0 & Hi0 & Hn0).
      assert (isbn ≠ "") as Hine by (intros ->; by apply Hkne).
      apply String.eqb_neq in Hine. rewrite Hine, Hb0. simpl.
      split; [|done]. intros _. exists isbn. split; [done|].
      apply has_ISBN_index; eauto.
    - split; [by destruct (negb _)|]. intros (? & [= <-] & Hhas).
      apply has_ISBN_index in Hhas as [id Hid']; [|done]. congruence. }
  destruct dup.
  { split.
    - split; [intros _|done]. split; [done|]. split; [eauto|]. by apply Hdup.
    - intros e. split; [done|].
      intros (_ & _ & _ & isbn & Hi & Hno & _).
      destruct (proj1 Hdup eq_refl) as (isbn' & Hi' & Hhas).
      assert (isbn' = isbn) as -> by congruence. done. }
  assert (¬ ∃ isbn, CreateBookInput.ISBN i = Some isbn ∧ has_ISBN r isbn) as Hno
    by (intros Hex; by apply Hdup in Hex).
  destruct (Create_cases r' b)
    as [[-> Hwhy]|[(_ & _ & k & Hk1 & Hk2 & Hk3 & ->)|(_ & _ & Hk & ->)]];
    cbn [snd].
  - destruct Hwhy as [?|[[? ?]|(s & Hs & Hsne & [id Hk'])]];
      [congruence|congruence|].
    split; [split; [done|by intros (_ & _ & Hex)]|].
    intros e. split.
    + intros [= <-]. split; [done|]. split; [done|]. split; [eauto|].
      exists s. split; [congruence|]. split.
      * intros Hhas. apply Hno. exists s. split; [congruence|done].
      * apply has_ISBN_index; eauto.
    + by intros (-> & _).
  - split; [split; [done|by intros (_ & _ & Hex)]|].
    intros e. split; [done|].
    intros (_ & _ & _ & isbn & Hi & _ & Hhas).
    apply has_ISBN_index in Hhas as [id Hid']; [|done].
    assert (isbn = k) as -> by congruence. congruence.
  - split; [split; [done|by intros (_ & _ & Hex)]|].
    intros e. split; [done|].
    intros (_ & _ & _ & isbn & Hi & _ & [Hkne Hhas]).
    destruct Hk as [Hnone|(s & Hs & Hempty)]; [congruence|].
    assert (isbn = s) as -> by congruence. done.
Qed.

Lemma CreateBook_conflict_witness :
  (CreateBookBetween NewBookRepo (repo_of [bk "b1" (Some "978-1") 0]) envMiss
     (input (Some "9 7 8 1") (Some "T") None false false)).2
  = Err (RepoError errConflict).
Proof.
  destruct (CreateBook_conflict NewBookRepo (repo_of [bk "b1" (Some "978-1") 0])
              envMiss (input (Some "9 7 8 1") (Some "T") None false false))
    as (_ & _ & Hrepo & _).
  - apply reachable_new.
  - apply reachable_Create, reachable_new.
  - split; [discriminate|vm_compute; reflexivity].
  - apply Hrepo. split; [reflexivity|]. split; [|split].
    + rewrite <- rejects_spec. vm_compute. discriminate.
    + eexists. reflexivity.
    + exists "9 7 8 1". split; [reflexivity|]. split.
      * intros (_ & id & b & isbn0 & Hb & _). vm_compute in Hb. discriminate.
      * split; [vm_compute; discriminate|].
        exists "b1", (bk "b1" (Some "978-1") 0), "978-1".
        repeat split; vm_compute; reflexivity.
Defined.

(** X15: the life of a record through the service.  A record that
    [CreateBook] returned is found by [GetBook] under its identifier and,
    when its ISBN does not normalize to the empty string, by [GetByISBN]
    under every spelling of that ISBN; [DeleteBook] then succeeds, after
    which [GetBook] and a second [DeleteBook] fail with the not-found
    error; and when the state before the creation was reachable, the
    deletion gives it back. *)
Theorem CreateBook_lifecycle (r r1 : BookRepo) (env : Env)
    (i : CreateBookInput.t) (out : Book.t) :
  CreateBook r env i = (r1, Ok out) →
  GetBook r1 (Book.ID out) = Ok out ∧
  (∀ isbn s, Book.ISBN out = Some isbn → normalizeISBN isbn ≠ "" →
     normalizeISBN s = normalizeISBN isbn → GetByISBN r1 s = Ok out) ∧
  (DeleteBook r1 (Book.ID out)).2 = None ∧
  GetBook (DeleteBook r1 (Book.ID out)).1 (Book.ID out) = Err ErrNotFound ∧
  DeleteBook (DeleteBook r1 (Book.ID out)).1 (Book.ID out)
    = ((DeleteBook r1 (Book.ID out)).1, Some ErrNotFound) ∧
  (reachable r → (DeleteBook r1 (Book.ID out)).1 = r).
Proof.
  intros Hc.
  assert (∃ b, Create r b = (r1, Ok out)) as [b Hcreate].
  { revert Hc. unfold CreateBook.
    destruct (rejects i); [done|].
    destruct (enrich env i (construct env i)) as [b|e]; [|done].
    match goal with |- context [if ?d then _ else _] => destruct d end; [done|].
    destruct (Create r b) as [r' [created|e]] eqn:Hcr; [|done].
    intros [= <- <-]. eauto. }
  destruct (created_is_found r r1 b out Hcreate) as (-> & Hget & Hisbn).
  assert (byID r1 !! Book.ID b = Some b) as Hstored.
  { revert Hget. unfold GetByID. destruct (byID r1 !! Book.ID b) as [b'|]; [|done].
    rewrite copyBook_id. by intros [= ->]. }
  split; [unfold GetBook; by rewrite Hget|]. split; [done|].
  destruct (Delete_cases r1 (Book.ID b)) as [[Hnone _]|(b' & Hb' & Hdel)];
    [congruence|].
  unfold DeleteBook. rewrite Hdel. cbn [fst snd].
  split; [done|].
  split; [unfold GetBook, GetByID; simpl; by rewrite lookup_delete_eq|].
  split.
  - unfold Delete at 1. simpl. by rewrite lookup_delete_eq.
  - intros Hr. pose proof (created_then_deleted r r1 b b Hr Hcreate) as Hres.
    rewrite Hdel in Hres. by injection Hres.
Qed.

Lemma CreateBook_lifecycle_witness :
  (DeleteBook
     (CreateBook NewBookRepo envHit (input (Some "978-1") None None true false)).1
     "id-1").1
  = NewBookRepo.
Proof.
  destruct (CreateBook_lifecycle NewBookRepo
              (CreateBook NewBookRepo envHit
                 (input (Some "978-1") None None true false)).1
              envHit (input (Some "978-1") None None true false)
              (set_Status
                 (merge
                    (set_Enrichment
                       (construct envHit (input (Some "978-1") None None true false))
                       (attempted "978-1" EnrichmentNotRequested))
                    cleanArchitecture)
                 EnrichmentOK))
    as (_ & _ & _ & _ & _ & Hback).
  - vm_compute; reflexivity.
  - apply Hback, reachable_new.
Defined.

(** ** The Open Library client: reading the year *)

Lemma isDigit_value a : isDigit a = true → 0 ≤ digitValue a ≤ 9.
Proof.
  unfold isDigit, digitValue. cbv zeta.
  rewrite andb_true_iff, !N.leb_le. lia.
Qed.

Lemma get_Some_lt s n a : String.get n s = Some a → (n < String.length s)%nat.
Proof.
  revert n. induction s as [|x s IH]; intros [|n]; simpl; try done; try lia.
  intros Hg. apply IH in Hg. lia.
Qed.

Lemma digits_at_length s n : digits_at s n → (n + 4 ≤ String.length s)%nat.
Proof.
  intros Hd. destruct (Hd 3%nat) as (a & Ha & _); [lia|].
  apply get_Some_lt in Ha. lia.
Qed.

Lemma digits_at_S a s n : digits_at (String a s) (S n) ↔ digits_at s n.
Proof. unfold digits_at. by simpl. Qed.

Lemma digits_at_0 a b c d s :
  digits_at (String a (String b (String c (String d s)))) 0 ↔
  isDigit a && isDigit b && isDigit c && isDigit d = true.
Proof.
  rewrite !andb_true_iff. unfold digits_at. split.
  - intros Hd.
    destruct (Hd 0%nat) as (? & [= <-] & ?); [lia|].
    destruct (Hd 1%nat) as (? & [= <-] & ?); [lia|].
    destruct (Hd 2%nat) as (? & [= <-] & ?); [lia|].
    destruct (Hd 3%nat) as (? & [= <-] & ?); [lia|]. done.
  - intros [[[? ?] ?] ?] k Hk.
    destruct k as [|[|[|[|k]]]]; simpl; eauto; lia.
Qed.

Lemma yearRe_FindString_spec s :
  (yearRe_FindString s = "" ∧ ∀ n, ¬ digits_at s n) ∨
  (∃ n, digits_at s n ∧ (∀ m, (m < n)%nat → ¬ digits_at s m) ∧
        yearRe_FindString s = substring n 4 s).
Proof.
  assert (∀ t, (String.length t < 4)%nat → ∀ n, ¬ digits_at t n) as Hshort.
  { intros t Ht n Hd. apply digits_at_length in Hd. lia. }
  induction s as [|a s IH].
  { left. split; [done|]. apply Hshort. simpl; lia. }
  destruct s as [|b [|c [|d s]]];
    try (left; split; [done|]; apply Hshort; simpl; lia).
  cbn [yearRe_FindString].
  destruct (isDigit a && isDigit b && isDigit c && isDigit d) eqn:E.
  - right. exists 0%nat. split; [by apply digits_at_0|].
    split; [intros m; lia|]. simpl. by destruct s.
  - destruct IH as [[IH1 IH2]|(n & IH1 & IH2 & IH3)].
    + left. split; [done|]. intros [|n].
      * rewrite digits_at_0. congruence.
      * rewrite digits_at_S. apply IH2.
    + right. exists (S n). split; [by apply digits_at_S|]. split.
      * intros [|m] Hm.
        -- rewrite digits_at_0. congruence.
        -- rewrite digits_at_S. apply IH2. lia.
      * done.
Qed.

Lemma Atoi_digit_first a r :
  isDigit a = true →
  Atoi (String a r) =
  match decimal 0 (String a r) with
  | Some v => if (minInt <=? v) && (v <=? maxInt) then Some v else None
  | None => None
  end.
Proof.
  intros Ha.
  destruct a as [[] [] [] [] [] [] [] []];
    try (exfalso; vm_compute in Ha; congruence); reflexivity.
Qed.

Lemma substring_4_digits s n :
  digits_at s n →
  ∃ a b c d, substring n 4 s = String a (String b (String c (String d ""))) ∧
    isDigit a = true ∧ isDigit b = true ∧ isDigit c = true ∧ isDigit d = true ∧
    digit_of s n = digitValue a ∧ digit_of s (n + 1) = digitValue b ∧
    digit_of s (n + 2) = digitValue c ∧ digit_of s (n + 3) = digitValue d.
Proof.
  revert s. induction n as [|n IH]; intros s Hd.
  - pose proof (digits_at_length _ _ Hd) as Hl.
    destruct s as [|a [|b [|c [|d s]]]]; simpl in Hl; try lia.
    apply digits_at_0 in Hd. rewrite !andb_true_iff in Hd.
    destruct Hd as [[[? ?] ?] ?].
    exists a, b, c, d. unfold digit_of. simpl. by destruct s.
  - destruct s as [|x s].
    { apply digits_at_length in Hd. simpl in Hd. lia. }
    apply digits_at_S in Hd.
    destruct (IH s Hd) as (a & b & c & d & ? & ? & ? & ? & ? & ? & ? & ? & ?).
    exists a, b, c, d. unfold digit_of in *. simpl. done.
Qed.

Lemma Atoi_4_digits a b c d :
  isDigit a = true → isDigit b = true → isDigit c = true → isDigit d = true →
  Atoi (String a (String b (String c (String d "")))) =
  Some (1000 * digitValue a + 100 * digitValue b + 10 * digitValue c
        + digitValue d).
Proof.
  intros Ha Hb Hc Hd. rewrite Atoi_digit_first by done.
  cbn [decimal]. rewrite Ha, Hb, Hc, Hd.
  apply isDigit_value in Ha, Hb, Hc, Hd.
  replace (10 * (10 * (10 * (10 * 0 + digitValue a) + digitValue b)
                 + digitValue c) + digitValue d)
    with (1000 * digitValue a + 100 * digitValue b + 10 * digitValue c
          + digitValue d) by lia.
  assert (minInt = - 9223372036854775808) as -> by reflexivity.
  assert (maxInt = 9223372036854775807) as -> by reflexivity.
  destruct (Z.leb_spec (- 9223372036854775808)
              (1000 * digitValue a + 100 * digitValue b + 10 * digitValue c
               + digitValue d)); [|lia].
  destruct (Z.leb_spec
              (1000 * digitValue a + 100 * digitValue b + 10 * digitValue c
               + digitValue d) 9223372036854775807); [done|lia].
Qed.

(** X16: [parseYear] reads the leftmost four digits in a row, wherever
    they stand in the string, as a number in base ten.  It fails exactly
    when the string has no four digits in a row; it never fails on the
    digits it found, and a year it returns is between 0 and 9999. *)
Theorem parseYear_spec (s : string) :
  (parseYear s = None ↔ ∀ n, ¬ digits_at s n) ∧
  (∀ y, parseYear s = Some y ↔
     ∃ n, digits_at s n ∧ (∀ m, (m < n)%nat → ¬ digits_at s m) ∧
          y = 1000 * digit_of s n + 100 * digit_of s (n + 1)
              + 10 * digit_of s (n + 2) + digit_of s (n + 3)) ∧
  (∀ y, parseYear s = Some y → 0 ≤ y ≤ 9999).
Proof.
  unfold parseYear. cbv zeta.
  destruct (yearRe_FindString_spec s) as [[-> Hno]|(n & Hn & Hfirst & ->)].
  - simpl. split; [done|]. split; [|done].
    intros y. split; [done|]. intros (n & Hn & _). by apply Hno in Hn.
  - destruct (substring_4_digits s n Hn)
      as (a & b & c & d & -> & Ha & Hb & Hc & Hd & H0 & H1 & H2 & H3).
    rewrite Atoi_4_digits by done. simpl.
    apply isDigit_value in Ha, Hb, Hc, Hd.
    split; [split; [done|intros Hno; by apply Hno in Hn]|].
    split; [|intros y [= <-]; lia].
    intros y. split.
    + intros [= <-]. exists n. rewrite H0, H1, H2, H3. done.
    + intros (n' & Hn' & Hfirst' & ->).
      assert (n' = n) as ->.
      { destruct (lt_eq_lt_dec n' n) as [[Hlt|]|Hlt]; [|done|].
        - by apply Hfirst in Hlt.
        - by apply Hfirst' in Hlt. }
      by rewrite H0, H1, H2, H3.
Qed.

Lemma parseYear_short d : (String.length d < 4)%nat → parseYear d = None.
Proof. by destruct d as [|a [|b [|c [|e d]]]]; simpl; try lia. Qed.

Lemma parseYear_range d y : parseYear d = Some y → 0 ≤ y ≤ 9999.
Proof.
  unfold parseYear. cbv zeta.
  destruct (yearRe_FindString_spec d) as [[-> _]|(n & Hn & _ & ->)]; [done|].
  destruct (substring_4_digits d n Hn)
    as (a & b & c & e & -> & Ha & Hb & Hc & He & _).
  rewrite Atoi_4_digits by done. simpl.
  apply isDigit_value in Ha, Hb, Hc, He. intros [= <-]. lia.
Qed.

Lemma authors_loop (l : list olbAuthor.t) (acc : list string) :
  fold_left
    (λ (authors : list string) a,
       match olbAuthor.Name a with
       | Some n => if negb (String.eqb n "") then (authors ++ [n])%list else authors
       | None => authors
       end) l acc
  = (acc ++ names l)%list.
Proof.
  revert acc. induction l as [|a l IH]; intros acc; simpl.
  { unfold names. simpl. by rewrite app_nil_r. }
  rewrite IH. unfold names. simpl.
  destruct (olbAuthor.Name a) as [n|]; simpl; [|done].
  destruct (negb (n =? "")%string); simpl; [|done].
  by rewrite <- app_assoc.
Qed.

Lemma append_length s t :
  String.length (s +:+ t) = (String.length s + String.length t)%nat.
Proof.
  induction s as [|a s IH]; [done|].
  change (String a s +:+ t) with (String a (s +:+ t)).
  simpl. by rewrite IH.
Qed.

Lemma append_inj_r (s1 s2 t : string) : s1 +:+ t = s2 +:+ t → s1 = s2.
Proof.
  revert s2. induction s1 as [|a s1 IH]; intros [|b s2] Heq.
  - done.
  - apply (f_equal String.length) in Heq.
    rewrite !append_length in Heq. simpl in Heq. lia.
  - apply (f_equal String.length) in Heq.
    rewrite !append_length in Heq. simpl in Heq. lia.
  - change (String a (s1 +:+ t) = String b (s2 +:+ t)) in Heq.
    injection Heq as -> Heq. f_equal. by apply IH.
Qed.

(** X17: [mapToEnriched] hands the title, the subtitle and the page
    count on as they are; the year is [parseYear] of the publish date (the
    test on the length of the date changes nothing, a shorter date has no
    year) and so between 0 and 9999; the authors are the names that are
    there and not empty, in order; there is a cover URL exactly when there
    is a cover, and two documents get the same one exactly when their
    first cover ids are the same. *)
Theorem mapToEnriched_spec (ob : openLibBook.t) :
  EnrichedBook.Title (mapToEnriched ob) = openLibBook.Title ob ∧
  EnrichedBook.Subtitle (mapToEnriched ob) = openLibBook.Subtitle ob ∧
  EnrichedBook.PageCount (mapToEnriched ob) = openLibBook.NumberOfPages ob ∧
  EnrichedBook.PublishedYear (mapToEnriched ob)
    = openLibBook.PublishDate ob ≫= parseYear ∧
  (∀ y, EnrichedBook.PublishedYear (mapToEnriched ob) = Some y → 0 ≤ y ≤ 9999) ∧
  EnrichedBook.Authors (mapToEnriched ob) = names (openLibBook.Authors ob) ∧
  (EnrichedBook.CoverURL (mapToEnriched ob) = None ↔ openLibBook.Covers ob = []) ∧
  (∀ ob', EnrichedBook.CoverURL (mapToEnriched ob)
            = EnrichedBook.CoverURL (mapToEnriched ob') ↔
          head (openLibBook.Covers ob) = head (openLibBook.Covers ob')).
Proof.
  assert (EnrichedBook.PublishedYear (mapToEnriched ob)
          = openLibBook.PublishDate ob ≫= parseYear) as Hyear.
  { unfold mapToEnriched. cbn [EnrichedBook.PublishedYear].
    destruct (openLibBook.PublishDate ob) as [d|]; [|done]. simpl.
    destruct (Z.geb_spec (Z.of_nat (String.length d)) 4) as [|Hlt].
    - by destruct (parseYear d).
    - rewrite parseYear_short by lia. done. }
  split; [done|]. split; [done|]. split; [done|]. split; [done|].
  split.
  { intros y. rewrite Hyear.
    destruct (openLibBook.PublishDate ob) as [d|]; [|done]. simpl.
    apply parseYear_range. }
  split.
  { unfold mapToEnriched. cbn [EnrichedBook.Authors]. by rewrite authors_loop. }
  split.
  { unfold mapToEnriched. cbn [EnrichedBook.CoverURL].
    by destruct (openLibBook.Covers ob). }
  intros ob'. unfold mapToEnriched. cbn [EnrichedBook.CoverURL].
  destruct (openLibBook.Covers ob) as [|c cs],
           (openLibBook.Covers ob') as [|c' cs']; simpl; try done.
  split.
  - intros [= Heq]. change ("" +:+ ?s) with s in Heq.
    apply append_inj_r in Heq.
    unfold Sprintf_d in Heq. apply pretty.pretty_Z_inj in Heq. by subst.
  - by intros [= ->].
Qed.

(** ** The Open Library client: attempts, waits, results *)


Lemma backoff_small i :
  0 ≤ i → 150000000 * (i + 1) ≤ maxInt →
  backoff i = 150 * (i + 1) * Millisecond.
Proof.
  intros Hi Hb. unfold backoff, Millisecond.
  assert (maxInt = 9223372036854775807) as Hmax by reflexivity.
  assert (minInt = - 9223372036854775808) as Hmin by reflexivity.
  rewrite (wrap_id (i + 1)) by (unfold is_int; lia).
  rewrite (wrap_id (150 * (i + 1))) by (unfold is_int; lia).
  rewrite wrap_id by (unfold is_int; lia). done.
Qed.

Section Attempts.
Variable json_Decode : string → result string openLibBook.t.
Variables (c : OpenLibraryClient.t) (ctx : Context.t) (url : string).
Variable attempts : Z.


Lemma attemptsFrom_first (n : nat) : ∀ (i : nat) lastErr,
  150000000 * (attempts - 1) ≤ maxInt →
  Z.of_nat i + Z.of_nat n = attempts → (1 ≤ n)%nat →
  ∃ k, (k < n)%nat ∧
    (∀ j, (i ≤ j < i + k)%nat → retried json_Decode c ctx url (Z.of_nat j)) ∧
    ¬ (retried json_Decode c ctx url (Z.of_nat (i + k)) ∧
       Z.of_nat (i + k) < attempts - 1) ∧
    OpenLibraryClient.attemptsFrom json_Decode c ctx url attempts n
      (Z.of_nat i) lastErr
    = (settled json_Decode c ctx url attempts (Z.of_nat (i + k)), sched_from url i k).
Proof.
  assert (maxInt = 9223372036854775807) as Hmax by reflexivity.
  assert (minInt = - 9223372036854775808) as Hmin by reflexivity.
  induction n as [|n IH]; intros i lastErr waits_int Hin Hn; [lia|].
  cbn [OpenLibraryClient.attemptsFrom].
  rewrite (wrap_id (attempts - 1)) by (unfold is_int; lia).
  rewrite (wrap_id (Z.of_nat i + 1)) by (unfold is_int; lia).
  destruct (OpenLibraryClient.fetchOnce json_Decode c (Z.of_nat i) url)
    as [eb|err] eqn:Hf.
  { exists 0%nat. rewrite Nat.add_0_r. unfold settled. rewrite Hf.
    split; [lia|]. split; [intros j; lia|]. split; [|done].
    intros [(e & He & _) _]. congruence. }
  destruct (Is_errNotFound err) eqn:Hnf.
  { exists 0%nat. rewrite Nat.add_0_r. unfold settled. rewrite Hf, Hnf.
    split; [lia|]. split; [intros j; lia|]. split; [|done].
    intros [(e & He & ? & _) _]. congruence. }
  destruct (Z.ltb_spec (Z.of_nat i) (attempts - 1)) as [Hlt|Hge].
  - destruct (Context.Done ctx (Z.of_nat i)) eqn:Hd.
    { exists 0%nat. rewrite Nat.add_0_r. unfold settled. rewrite Hf, Hnf.
      destruct (Z.ltb_spec (Z.of_nat i) (attempts - 1)); [|lia].
      split; [lia|]. split; [intros j; lia|]. split; [|done].
      intros [(e & _ & _ & ?) _]. congruence. }
    replace (Z.of_nat i + 1) with (Z.of_nat (S i)) by lia.
    destruct (IH (S i) (Some err)) as (k & Hk & Hpre & Hlast & ->);
      [done|lia|lia|].
    exists (S k). rewrite Nat.add_succ_r.
    split; [lia|]. split; [|split; [done|]].
    + intros j Hj. destruct (decide (j = i)) as [->|].
      * exists err. done.
      * apply Hpre. lia.
    + rewrite backoff_small by lia. done.
  - assert (n = 0%nat) as -> by lia. simpl.
    exists 0%nat. rewrite Nat.add_0_r. unfold settled. rewrite Hf, Hnf.
    destruct (Z.ltb_spec (Z.of_nat i) (attempts - 1)); [lia|].
    split; [lia|]. split; [intros j; lia|]. split; [|done].
    intros [_ ?]. lia.
Qed.

(** The attempt that settles the call is the first one that is not
    retried. *)
Lemma attemptsFrom_at (k : nat) lastErr :
  150000000 * (attempts - 1) ≤ maxInt →
  Z.of_nat k < attempts →
  (∀ j, (j < k)%nat → retried json_Decode c ctx url (Z.of_nat j)) →
  ¬ (retried json_Decode c ctx url (Z.of_nat k) ∧ Z.of_nat k < attempts - 1) →
  OpenLibraryClient.attemptsFrom json_Decode c ctx url attempts
    (Z.to_nat attempts) 0 lastErr
  = (settled json_Decode c ctx url attempts (Z.of_nat k), sched_from url 0 k).
Proof.
  intros Hw Hk Hpre Hlast.
  destruct (attemptsFrom_first (Z.to_nat attempts) 0 lastErr)
    as (k' & Hk' & Hpre' & Hlast' & Heq); [done|lia|lia|].
  change (Z.of_nat 0) with 0 in Heq. rewrite Heq. clear Heq.
  rewrite Nat.add_0_l in *.
  destruct (lt_eq_lt_dec k' k) as [[Hlt| ->]|Hlt]; [|done|].
  - exfalso. apply Hlast'. split; [by apply Hpre|lia].
  - exfalso. apply Hlast. split; [apply Hpre'|]; lia.
Qed.

End Attempts.

Lemma schedule_S url k : schedule url (S k) = sched_from url 0 k.
Proof. done. Qed.

Lemma FetchByISBN_unfold dec c ctx isbn :
  0 ≤ OpenLibraryClient.Retry c →
  150000000 * OpenLibraryClient.Retry c ≤ maxInt →
  OpenLibraryClient.FetchByISBN dec c ctx isbn =
  OpenLibraryClient.attemptsFrom dec c ctx (requestURL c isbn)
    (OpenLibraryClient.Retry c + 1)
    (Z.to_nat (OpenLibraryClient.Retry c + 1)) 0 None.
Proof.
  intros H0 Hb. unfold OpenLibraryClient.FetchByISBN, requestURL. cbv zeta.
  assert (maxInt = 9223372036854775807) as Hmax by reflexivity.
  assert (minInt = - 9223372036854775808) as Hmin by reflexivity.
  rewrite wrap_id by (unfold is_int; lia). done.
Qed.

(** X18: with a retry count that is not negative (and small enough for
    the waits to be an [int] of nanoseconds), [FetchByISBN] calls
    [fetchOnce] at least once and at most [Retry + 1] times, always for
    the same URL, waits 150 ms times the number of the attempt between two
    calls and never after the last one.  Every attempt before the last was
    a failure other than not-found with the context not done; a nil error
    comes with the book of the last attempt, any other error with the
    empty book. *)
Theorem FetchByISBN_schedule (dec : string → result string openLibBook.t)
    (c : OpenLibraryClient.t) (ctx : Context.t) (isbn : string) :
  0 ≤ OpenLibraryClient.Retry c →
  150000000 * OpenLibraryClient.Retry c ≤ maxInt →
  ∃ k : nat,
    Z.of_nat k ≤ OpenLibraryClient.Retry c ∧
    (OpenLibraryClient.FetchByISBN dec c ctx isbn).2
      = schedule (requestURL c isbn) (S k) ∧
    (∀ j, (j < k)%nat → retried dec c ctx (requestURL c isbn) (Z.of_nat j)) ∧
    (∀ eb, (OpenLibraryClient.FetchByISBN dec c ctx isbn).1 = (eb, None) →
       OpenLibraryClient.fetchOnce dec c (Z.of_nat k) (requestURL c isbn)
       = Ok eb) ∧
    (∀ eb err, (OpenLibraryClient.FetchByISBN dec c ctx isbn).1 = (eb, Some err) →
       eb = noBook).
Proof.
  intros H0 Hb. rewrite FetchByISBN_unfold by done.
  destruct (attemptsFrom_first dec c ctx (requestURL c isbn)
              (OpenLibraryClient.Retry c + 1)
              (Z.to_nat (OpenLibraryClient.Retry c + 1)) 0%nat None)
    as (k & Hk & Hpre & _ & Heq); [lia|lia|lia|].
  change (Z.of_nat 0) with 0 in Heq. rewrite Heq. clear Heq.
  exists k. rewrite Nat.add_0_l. cbn [fst snd].
  split; [lia|]. split; [done|]. split; [intros j Hj; apply Hpre; lia|].
  unfold settled.
  destruct (OpenLibraryClient.fetchOnce dec c (Z.of_nat k) (requestURL c isbn));
    split; intros; by simplify_eq.
Qed.

(** X19: what [FetchByISBN] returns, from the first attempt [k] that is
    not retried.  A success is returned; a not-found is returned at once,
    whatever is left of the retries; after another failure the error of
    the context is returned when the context is done during the wait, and
    the failure itself when it was the last attempt. *)
Theorem FetchByISBN_outcome (dec : string → result string openLibBook.t)
    (c : OpenLibraryClient.t) (ctx : Context.t) (isbn : string) (k : nat) :
  0 ≤ OpenLibraryClient.Retry c →
  150000000 * OpenLibraryClient.Retry c ≤ maxInt →
  Z.of_nat k ≤ OpenLibraryClient.Retry c →
  (∀ j, (j < k)%nat → retried dec c ctx (requestURL c isbn) (Z.of_nat j)) →
  (∀ eb,
     OpenLibraryClient.fetchOnce dec c (Z.of_nat k) (requestURL c isbn) = Ok eb →
     OpenLibraryClient.FetchByISBN dec c ctx isbn
     = ((eb, None), schedule (requestURL c isbn) (S k))) ∧
  (∀ err,
     OpenLibraryClient.fetchOnce dec c (Z.of_nat k) (requestURL c isbn) = Err err →
     (Is_errNotFound err = true →
      OpenLibraryClient.FetchByISBN dec c ctx isbn
      = ((noBook, Some err), schedule (requestURL c isbn) (S k))) ∧
     (Is_errNotFound err = false → Z.of_nat k < OpenLibraryClient.Retry c →
      Context.Done ctx (Z.of_nat k) = true →
      OpenLibraryClient.FetchByISBN dec c ctx isbn
      = ((noBook, Some (ContextError (Context.Err ctx))),
         schedule (requestURL c isbn) (S k))) ∧
     (Is_errNotFound err = false → Z.of_nat k = OpenLibraryClient.Retry c →
      OpenLibraryClient.FetchByISBN dec c ctx isbn
      = ((noBook, Some err), schedule (requestURL c isbn) (S k)))).
Proof.
  intros H0 Hb Hk Hpre. rewrite FetchByISBN_unfold by done.
  pose proof (attemptsFrom_at dec c ctx (requestURL c isbn)
                (OpenLibraryClient.Retry c + 1) k None ltac:(lia) ltac:(lia)
                Hpre) as Hat.
  rewrite schedule_S. unfold settled in Hat.
  split.
  - intros eb Hf. rewrite Hf in Hat. apply Hat.
    intros [(e & He & _) _]. congruence.
  - intros err Hf. rewrite Hf in Hat. split; [|split].
    + intros Hnf. rewrite Hnf in Hat. apply Hat.
      intros [(e & He & ? & _) _]. congruence.
    + intros Hnf Hlt Hd. rewrite Hnf in Hat.
      destruct (Z.ltb_spec (Z.of_nat k) (OpenLibraryClient.Retry c + 1 - 1));
        [|lia].
      apply Hat. intros [(e & _ & _ & ?) _]. congruence.
    + intros Hnf Heq. rewrite Hnf in Hat.
      destruct (Z.ltb_spec (Z.of_nat k) (OpenLibraryClient.Retry c + 1 - 1));
        [lia|].
      apply Hat. intros [_ ?]. lia.
Qed.

Lemma FetchByISBN_schedule_witness :
  ∃ k : nat,
    Z.of_nat k ≤ 3 ∧
    (OpenLibraryClient.FetchByISBN testDecode
       (OpenLibraryClient.mk "http://ol" flaky 3) background "9780134494166").2
      = schedule "http://ol/isbn/9780134494166.json" (S k) ∧
    (∀ j, (j < k)%nat →
       retried testDecode (OpenLibraryClient.mk "http://ol" flaky 3) background
         "http://ol/isbn/9780134494166.json" (Z.of_nat j)) ∧
    (∀ eb, (OpenLibraryClient.FetchByISBN testDecode
              (OpenLibraryClient.mk "http://ol" flaky 3) background
              "9780134494166").1 = (eb, None) →
       OpenLibraryClient.fetchOnce testDecode
         (OpenLibraryClient.mk "http://ol" flaky 3) (Z.of_nat k)
         "http://ol/isbn/9780134494166.json" = Ok eb) ∧
    (∀ eb err, (OpenLibraryClient.FetchByISBN testDecode
                  (OpenLibraryClient.mk "http://ol" flaky 3) background
                  "9780134494166").1 = (eb, Some err) →
       eb = noBook).
Proof.
  apply (FetchByISBN_schedule testDecode
           (OpenLibraryClient.mk "http://ol" flaky 3) background "9780134494166").
  - simpl; lia.
  - vm_compute; discriminate.
Defined.

Lemma FetchByISBN_outcome_witness :
  OpenLibraryClient.FetchByISBN testDecode
    (OpenLibraryClient.mk "http://ol" flaky 3) background "9780134494166"
  = ((mapToEnriched cleanArchitectureDoc, None),
     schedule "http://ol/isbn/9780134494166.json" 3).
Proof.
  destruct (FetchByISBN_outcome testDecode
              (OpenLibraryClient.mk "http://ol" flaky 3) background
              "9780134494166" 2) as [Hok _].
  - simpl; lia.
  - vm_compute; discriminate.
  - simpl; lia.
  - intros [|[|j]] Hj; [| |lia];
      exists (StatusError 503 "busy"); repeat split.
  - apply Hok. reflexivity.
Defined.

(** ** The Open Library client: one request *)

Lemma fetchOnce_Ok dec c i url eb :
  OpenLibraryClient.fetchOnce dec c i url = Ok eb ↔
  ∃ code body ob, OpenLibraryClient.Client c i url = Response code body ∧
    200 ≤ code < 300 ∧ dec body = Ok ob ∧ eb = mapToEnriched ob.
Proof.
  unfold OpenLibraryClient.fetchOnce.
  destruct (OpenLibraryClient.Client c i url) as [msg|msg|code body].
  1,2: split; [done|by intros (? & ? & ? & ? & _)].
  destruct (Z.eqb_spec code 404) as [->|Hne].
  { split; [done|]. intros (? & ? & ? & [= <- <-] & ? & _). lia. }
  destruct (Z.ltb_spec code 200) as [Hlt|Hge]; simpl.
  { split; [done|]. intros (? & ? & ? & [= <- <-] & ? & _). lia. }
  destruct (Z.geb_spec code 300) as [Hge3|Hlt3].
  { split; [done|]. intros (? & ? & ? & [= <- <-] & ? & _). lia. }
  destruct (dec body) as [ob|msg] eqn:Hd.
  - split.
    + intros [= <-]. exists code, body, ob. repeat split; [lia|lia|done].
    + intros (? & ? & ? & [= <- <-] & _ & ? & ->). congruence.
  - split; [done|]. intros (? & ? & ? & [= <- <-] & _ & ? & _). congruence.
Qed.

Lemma substring_0_prefix n s : ∃ rest, s = substring 0 n s +:+ rest.
Proof.
  revert s. induction n as [|n IH]; intros [|a s]; simpl.
  - by exists "".
  - by exists (String a s).
  - by exists "".
  - destruct (IH s) as [rest Hrest]. exists rest.
    change (String a s = String a (substring 0 n s +:+ rest)). by rewrite <- Hrest.
Qed.

Lemma substring_0_length n s : (String.length (substring 0 n s) ≤ n)%nat.
Proof.
  revert s. induction n as [|n IH]; intros [|a s]; simpl; try lia.
  specialize (IH s). lia.
Qed.

(** X20: one request.  [fetchOnce] succeeds exactly on a response with
    a status from 200 to 299 whose body decodes, with [mapToEnriched] of
    the document.  The error is not-found exactly for the status 404,
    whatever the body; no other sentinel of the package is returned; and a
    status error is made only for a status outside 200..299 other than
    404, with at most the first 4096 bytes of the body. *)
Theorem fetchOnce_spec (dec : string → result string openLibBook.t)
    (c : OpenLibraryClient.t) (i : Z) (url : string) :
  (∀ eb, OpenLibraryClient.fetchOnce dec c i url = Ok eb ↔
     ∃ code body ob, OpenLibraryClient.Client c i url = Response code body ∧
       200 ≤ code < 300 ∧ dec body = Ok ob ∧ eb = mapToEnriched ob) ∧
  (∀ err, OpenLibraryClient.fetchOnce dec c i url = Err err →
     (Is_errNotFound err = true ↔
      ∃ body, OpenLibraryClient.Client c i url = Response 404 body) ∧
     (∀ e, err = AdapterError e → e = errNotFound) ∧
     (∀ code kept, err = StatusError code kept →
        (code < 200 ∨ 300 ≤ code) ∧ code ≠ 404 ∧
        (String.length kept ≤ 4096)%nat ∧
        ∃ body rest, OpenLibraryClient.Client c i url = Response code body ∧
                     body = kept +:+ rest)).
Proof.
  split; [intros eb; apply fetchOnce_Ok|].
  intros err. unfold OpenLibraryClient.fetchOnce.
  destruct (OpenLibraryClient.Client c i url) as [msg|msg|code body].
  1,2: intros [= <-]; (split; [split; [done|by intros [? ?]]|]);
       by split; intros; simplify_eq.
  destruct (Z.eqb_spec code 404) as [->|Hne].
  { intros [= <-]. split; [split; [eauto|done]|].
    by split; intros; simplify_eq. }
  destruct (Z.ltb_spec code 200) as [Hlt|Hge]; simpl.
  { intros [= <-]. split; [split; [done|intros [? [= ? ?]]; lia]|].
    split; [done|]. intros ? ? [= <- <-].
    split; [lia|]. split; [done|]. split; [apply substring_0_length|].
    destruct (substring_0_prefix 4096 body) as [rest Hrest]. eauto. }
  destruct (Z.geb_spec code 300) as [Hge3|Hlt3].
  { intros [= <-]. split; [split; [done|intros [? [= ? ?]]; lia]|].
    split; [done|]. intros ? ? [= <- <-].
    split; [lia|]. split; [done|]. split; [apply substring_0_length|].
    destruct (substring_0_prefix 4096 body) as [rest Hrest]. eauto. }
  destruct (dec body) as [ob|msg]; [done|].
  intros [= <-]. split; [split; [done|intros [? [= ? ?]]; lia]|].
  by split; intros; simplify_eq.
Qed.

(** ** The Open Library client: no attempt at all, and the constructor *)

Lemma requests_Fetched url events :
  requests (Fetched url :: events) = url :: requests events.
Proof. done. Qed.

Lemma requests_Waited d events : requests (Waited d :: events) = requests events.
Proof. done. Qed.

Lemma attemptsFrom_requests dec c ctx url attempts (n : nat) : ∀ i lastErr,
  ∃ k, (k ≤ n)%nat ∧ (1 ≤ n → 1 ≤ k)%nat ∧
    requests (OpenLibraryClient.attemptsFrom dec c ctx url attempts n i lastErr).2
    = replicate k url.
Proof.
  induction n as [|n IH]; intros i lastErr.
  { exists 0%nat. split; [lia|]. split; [lia|done]. }
  cbn [OpenLibraryClient.attemptsFrom].
  destruct (OpenLibraryClient.fetchOnce dec c i url) as [eb|err].
  { exists 1%nat. split; [lia|]. split; [lia|done]. }
  destruct (Is_errNotFound err).
  { exists 1%nat. split; [lia|]. split; [lia|done]. }
  destruct (IH (wrap (i + 1)) (Some err)) as (k & Hk & _ & Hreq).
  destruct (OpenLibraryClient.attemptsFrom dec c ctx url attempts n
              (wrap (i + 1)) (Some err)) as [res events].
  cbn [snd] in Hreq.
  destruct (i <? wrap (attempts - 1)).
  - destruct (Context.Done ctx i).
    + exists 1%nat. split; [lia|]. split; [lia|done].
    + exists (S k). split; [lia|]. split; [lia|].
      cbn [snd]. by rewrite requests_Fetched, requests_Waited, Hreq.
  - exists (S k). split; [lia|]. split; [lia|].
    cbn [snd]. by rewrite requests_Fetched, Hreq.
Qed.

Lemma wrap_succ_maxInt : wrap (maxInt + 1) = minInt.
Proof. reflexivity. Qed.

(** X21: no attempt at all.  [FetchByISBN] makes no call exactly when
    the retry count is negative or the largest [int] (then [Retry + 1]
    wraps around), and then it returns the empty book with a nil
    error. *)
Theorem FetchByISBN_no_attempt (dec : string → result string openLibBook.t)
    (c : OpenLibraryClient.t) (ctx : Context.t) (isbn : string) :
  is_int (OpenLibraryClient.Retry c) →
  ((OpenLibraryClient.FetchByISBN dec c ctx isbn).2 = [] ↔
   OpenLibraryClient.Retry c < 0 ∨ OpenLibraryClient.Retry c = maxInt) ∧
  (OpenLibraryClient.Retry c < 0 ∨ OpenLibraryClient.Retry c = maxInt →
   OpenLibraryClient.FetchByISBN dec c ctx isbn = ((noBook, None), [])).
Proof.
  intros Hint.
  assert (maxInt = 9223372036854775807) as Hmax by reflexivity.
  assert (minInt = - 9223372036854775808) as Hmin by reflexivity.
  assert (OpenLibraryClient.Retry c < 0 ∨ OpenLibraryClient.Retry c = maxInt →
          OpenLibraryClient.FetchByISBN dec c ctx isbn = ((noBook, None), []))
    as Hnone.
  { unfold OpenLibraryClient.FetchByISBN. cbv zeta. intros [Hneg|Hmaxed].
    - rewrite wrap_id by (unfold is_int in *; lia).
      by replace (Z.to_nat (OpenLibraryClient.Retry c + 1)) with 0%nat by lia.
    - rewrite Hmaxed, wrap_succ_maxInt. done. }
  split; [|done]. split; [|by intros ->%Hnone].
  intros Hnil.
  destruct (Z.lt_ge_cases (OpenLibraryClient.Retry c) 0) as [|H0]; [by left|].
  destruct (Z.eq_dec (OpenLibraryClient.Retry c) maxInt) as [|Hne]; [by right|].
  exfalso. revert Hnil. unfold OpenLibraryClient.FetchByISBN. cbv zeta.
  rewrite wrap_id by (unfold is_int in *; lia).
  match goal with |- context [OpenLibraryClient.attemptsFrom ?d ?c ?x ?u ?a ?n ?i ?l] =>
    destruct (attemptsFrom_requests d c x u a n i l) as (k & _ & Hk & Hreq) end.
  intros Hnil. rewrite Hnil in Hreq.
  destruct k; [lia|done].
Qed.

Lemma FetchByISBN_no_attempt_witness :
  OpenLibraryClient.FetchByISBN testDecode
    (OpenLibraryClient.mk "http://ol" (testServer "http://ol") maxInt)
    background "9780134494166"
  = ((noBook, None), []).
Proof.
  apply (FetchByISBN_no_attempt testDecode
           (OpenLibraryClient.mk "http://ol" (testServer "http://ol") maxInt)
           background "9780134494166").
  - vm_compute. split; discriminate.
  - right. reflexivity.
Defined.

(** X22: a client made by [NewOpenLibraryClient] has a base URL that is
    not empty, the one it was given unless that was empty; and with a
    retry count other than the largest [int], [FetchByISBN] calls
    [fetchOnce] at least once and at most [max(0, retry) + 1] times, each
    time for the URL of the ISBN under that base. *)
Theorem NewOpenLibraryClient_requests (dec : string → result string openLibBook.t)
    (baseURL : string) (retry : Z) (httpClient : Z → string → http_outcome)
    (ctx : Context.t) (isbn : string) :
  is_int retry → retry ≠ maxInt →
  OpenLibraryClient.BaseURL (NewOpenLibraryClient baseURL retry httpClient) ≠ "" ∧
  (baseURL ≠ "" →
   OpenLibraryClient.BaseURL (NewOpenLibraryClient baseURL retry httpClient)
   = baseURL) ∧
  ∃ k : nat, (1 ≤ k)%nat ∧ Z.of_nat k ≤ Z.max 0 retry + 1 ∧
    requests (OpenLibraryClient.FetchByISBN dec
                (NewOpenLibraryClient baseURL retry httpClient) ctx isbn).2
    = replicate k
        (requestURL (NewOpenLibraryClient baseURL retry httpClient) isbn).
Proof.
  intros Hint Hne.
  assert (maxInt = 9223372036854775807) as Hmax by reflexivity.
  assert (minInt = - 9223372036854775808) as Hmin by reflexivity.
  split; [|split].
  - unfold NewOpenLibraryClient. simpl.
    destruct (String.eqb_spec baseURL ""); done.
  - intros Hb. unfold NewOpenLibraryClient. simpl.
    by destruct (String.eqb_spec baseURL "").
  - unfold OpenLibraryClient.FetchByISBN, requestURL. cbv zeta.
    assert (OpenLibraryClient.Retry (NewOpenLibraryClient baseURL retry httpClient)
            = Z.max 0 retry) as ->.
    { unfold NewOpenLibraryClient. simpl.
      destruct (Z.ltb_spec retry 0); lia. }
    rewrite wrap_id by (unfold is_int in *; lia).
    match goal with |- context [OpenLibraryClient.attemptsFrom ?d ?c ?x ?u ?a ?n ?i ?l] =>
      destruct (attemptsFrom_requests d c x u a n i l) as (k & Hk1 & Hk2 & Hreq) end.
    exists k. split; [lia|]. split; [lia|done].
Qed.

Lemma NewOpenLibraryClient_requests_witness :
  ∃ k : nat, (1 ≤ k)%nat ∧ Z.of_nat k ≤ 2 ∧
    requests (OpenLibraryClient.FetchByISBN testDecode
                (NewOpenLibraryClient "" 1 (λ _ _, Response 500 "")) background
                "9780134494166").2
    = replicate k "https://openlibrary.org/isbn/9780134494166.json".
Proof.
  apply (NewOpenLibraryClient_requests testDecode "" 1
           (λ _ _, Response 500 "") background "9780134494166").
  - vm_compute. split; discriminate.
  - vm_compute. discriminate.
Defined.

(** ** The service with the Open Library client *)

Lemma attemptsFrom_book dec c ctx url attempts (n : nat) : ∀ i lastErr,
  (OpenLibraryClient.attemptsFrom dec c ctx url attempts n i lastErr).1.1 = noBook ∨
  ∃ ob, (OpenLibraryClient.attemptsFrom dec c ctx url attempts n i lastErr).1.1
        = mapToEnriched ob.
Proof.
  induction n as [|n IH]; intros i lastErr; [by left|].
  cbn [OpenLibraryClient.attemptsFrom].
  destruct (OpenLibraryClient.fetchOnce dec c i url) as [eb|err] eqn:Hf.
  { right. apply fetchOnce_Ok in Hf as (_ & _ & ob & _ & _ & _ & ->). eauto. }
  destruct (Is_errNotFound err); [by left|].
  specialize (IH (wrap (i + 1)) (Some err)).
  destruct (OpenLibraryClient.attemptsFrom dec c ctx url attempts n
              (wrap (i + 1)) (Some err)) as [res events].
  destruct (i <? wrap (attempts - 1)); [destruct (Context.Done ctx i)|];
    [by left|done|done].
Qed.

Lemma clientEnv_year id created updated dec c ctx isbn res y :
  FetchByISBN (clientEnv id created updated dec c ctx) isbn = Ok res →
  EnrichedBook.PublishedYear res = Some y → 0 ≤ y ≤ 9999.
Proof.
  unfold clientEnv. cbn [FetchByISBN].
  unfold OpenLibraryClient.FetchByISBN. cbv zeta.
  match goal with |- context [OpenLibraryClient.attemptsFrom ?d ?c ?x ?u ?a ?n ?i ?l] =>
    destruct (attemptsFrom_book d c x u a n i l) as [Hb|[ob Hb]];
    destruct (OpenLibraryClient.attemptsFrom d c x u a n i l) as [[eb [err|]] events]
  end; cbn [fst snd] in *; try done; intros [= <-]; subst eb; [done|].
  intros Hy.
  destruct (openLibBook.PublishDate ob) as [d|] eqn:Hd.
  - apply (parseYear_range d). revert Hy. unfold mapToEnriched.
    cbn [EnrichedBook.PublishedYear]. rewrite Hd.
    destruct (Z.of_nat (String.length d) >=? 4); [|done].
    by destruct (parseYear d).
  - revert Hy. unfold mapToEnriched. cbn [EnrichedBook.PublishedYear].
    by rewrite Hd.
Qed.

Lemma rejects_year i y :
  rejects i = false → CreateBookInput.PublishedYear i = Some y →
  1450 ≤ y ≤ 3000.
Proof.
  unfold rejects. intros Hrej Hy. rewrite Hy in Hrej.
  apply orb_false_iff in Hrej as [_ Hrej].
  apply orb_false_iff in Hrej as [H1 H2].
  apply Z.ltb_ge in H1. rewrite Z.gtb_ltb in H2. apply Z.ltb_ge in H2. lia.
Qed.

(** X23: the service with the Open Library client.  The year of a record
    [CreateBook] returned is between 0 and 9999: it is the year of the
    input, which validation keeps within 1450..3000, or when the input has
    none a year [parseYear] read, which is not validated. *)
Theorem CreateBook_client_year (r : BookRepo) (id : string) (created updated : Z)
    (dec : string → result string openLibBook.t) (c : OpenLibraryClient.t)
    (ctx : Context.t) (i : CreateBookInput.t) (out : Book.t) (y : Z) :
  (CreateBook r (clientEnv id created updated dec c ctx) i).2 = Ok out →
  Book.PublishedYear out = Some y →
  0 ≤ y ≤ 9999 ∧
  (∀ y0, CreateBookInput.PublishedYear i = Some y0 → y = y0 ∧ 1450 ≤ y ≤ 3000).
Proof.
  intros Hc Hy.
  destruct (CreateBook r (clientEnv id created updated dec c ctx) i)
    as [r' res] eqn:E.
  cbn [snd] in Hc. subst res.
  apply CreateBook_Ok_inv in E as (Hrej & Hen & _).
  pose proof (rejects_year i) as Hin. specialize (Hin) with (1 := Hrej).
  assert (Book.PublishedYear out = CreateBookInput.PublishedYear i ∨
          CreateBookInput.PublishedYear i = None ∧
          ∃ isbn res, FetchByISBN (clientEnv id created updated dec c ctx) isbn
                      = Ok res ∧
                      Book.PublishedYear out = EnrichedBook.PublishedYear res)
    as Hsrc.
  { revert Hen. unfold enrich.
    destruct (CreateBookInput.ISBN i) as [isbn|]; [|intros [= <-]; by left].
    destruct (_ && _); [|intros [= <-]; by left].
    destruct (FetchByISBN (clientEnv id created updated dec c ctx) isbn)
      as [res|msg] eqn:Hf.
    - intros [= <-]. unfold set_Status;
        cbn [set_Enrichment Book.PublishedYear].
      match goal with |- context [merge ?d res] =>
        destruct (merge_spec d res) as (_ & _ & -> & _) end.
      cbn [set_Enrichment construct Book.PublishedYear].
      destruct (CreateBookInput.PublishedYear i); [by left|].
      right. split; [done|]. eauto.
    - destruct (CreateBookInput.RequireEnrichment i); [done|].
      intros [= <-]. by left. }
  destruct Hsrc as [Hsame|(Hnone & isbn & res & Hf & Hsame)].
  - rewrite Hsame in Hy. specialize (Hin y Hy).
    split; [lia|]. intros y0 Hy0. split; [congruence|done].
  - split; [|intros y0; congruence].
    rewrite Hsame in Hy. by apply (clientEnv_year _ _ _ _ _ _ _ _ _ Hf).
Qed.

Lemma CreateBook_client_year_witness : 0 ≤ 2020 ≤ 9999.
Proof.
  apply (CreateBook_client_year NewBookRepo "id-1" 1000 1001 testDecode
           (NewOpenLibraryClient "http://ts" 1 (testServer "http://ts"))
           background
           (CreateBookInput.mk (Some "9780134494166") None None None None None
              [] [] true false)
           (Book.mk "id-1" (Some "9780134494166") "Clean Architecture" None
              (Some 2020) (Some 400)
              (Some "https://covers.openlibrary.org/b/id/5555-L.jpg") []
              ["Robert C. Martin"] (attempted "9780134494166" EnrichmentOK)
              1000 1001)
           2020).
  - vm_compute; reflexivity.
  - reflexivity.
Defined.

(** ** The tests of the service that run against a server, replayed *)

Example TestService_Create_WithEnrichment_OK :
  (CreateBook NewBookRepo
     (clientEnv "id-1" 1000 1001 testDecode
        (NewOpenLibraryClient "http://ts" 1 (testServer "http://ts")) background)
     (CreateBookInput.mk (Some "9780134494166") None None None None None
        [] [] true false)).2
  = Ok (Book.mk "id-1" (Some "9780134494166") "Clean Architecture" None
          (Some 2020) (Some 400)
          (Some "https://covers.openlibrary.org/b/id/5555-L.jpg") []
          ["Robert C. Martin"] (attempted "9780134494166" EnrichmentOK)
          1000 1001).
Proof. vm_compute; reflexivity. Qed.

Example TestService_Create_WithEnrichment_RequireTrue_404Fails :
  (CreateBook NewBookRepo
     (clientEnv "id-1" 1000 1001 testDecode
        (NewOpenLibraryClient "http://ts" 1
           (λ _ _, Response 404 "404 page not found")) background)
     (CreateBookInput.mk (Some "0000000000") None None None None None
        [] [] true true)).2
  = Err ErrUpstream ∧
  (OpenLibraryClient.FetchByISBN testDecode
     (NewOpenLibraryClient "http://ts" 1
        (λ _ _, Response 404 "404 page not found")) background "0000000000").2
  = [Fetched "http://ts/isbn/0000000000.json"].
Proof. split; vm_compute; reflexivity. Qed.
